(** * trade-bot2: a shallow embedding of the trading engine's core

    The development follows the Python sources module by module:
    [bot/types.py], [bot/accounting.py], [bot/connectors/rate_limiter.py],
    [bot/risk.py], [bot/execution.py], [bot/connectors/binance_rest.py],
    [bot/strategies/market_maker.py] and [bot/backtest.py].

    Conventions of the embedding.
    - [decimal.Decimal] values are exact rationals, [Qc], and so are the
      integers and floats that the code converts to [Decimal] or keeps apart
      from it; the rounding of the 28-digit decimal context and of floats is
      not modelled. The parameters of the market maker, whose arithmetic
      depends on the type of its operands, keep their type ([Number]).
    - A [dict] keyed by symbol or order id is a [gmap string _]; a
      [defaultdict(Decimal)] is read with default [0].
    - Objects mutated in place become explicit state passing: a method
      [m(self, x)] is a function [m x self] returning the new [self]
      (with a result when the method returns one).
    - Wall-clock stamps ([created_at], [updated_at], [last_risk_check]) and
      logging are left out; the clock read by the token buckets is an
      explicit argument.
    - Callbacks ([on_risk_event], [on_order_update], [on_fill], [on_signal])
      are modelled by the sequence of values handed to them, together with
      whether the callback raises.
    - [try ... except Exception] blocks are written out with a result type
      wherever the protected body can raise in the model.
    - Where the code meets a run-time error of Python, the model raises it:
      the [TypeError] of a [Decimal] combined with a [float] and of a
      subscripted [OrderBookLevel] in [bot/strategies/market_maker.py], and
      the [NameError] of [PositionSide], which [bot/risk.py] does not
      import. *)

From stdpp Require Import gmap strings list fin_maps numbers sorting.
From Stdlib Require Import QArith Qcanon Qcabs.

#[local] Open Scope Qc_scope.
#[local] Open Scope list_scope.

(** ** Numbers *)

Abbreviation Decimal := Qc (only parsing).

(** [Decimal('1.5')] is written [dec 1.5]. *)
Definition dec (q : Q) : Decimal := Q2Qc q.

(** Python's [min(a, b)]: [b] when [b < a], otherwise [a]. *)
Definition Qcmin (a b : Decimal) : Decimal :=
  if bool_decide (b < a) then b else a.

(** Python's [max(a, b)]: [b] when [b > a], otherwise [a]. *)
Definition Qcmax (a b : Decimal) : Decimal :=
  if bool_decide (a < b) then b else a.

(** The sign of a decimal as a decimal: [-1], [0] or [1]. *)
Definition Qcsgn (a : Decimal) : Decimal :=
  if bool_decide (0 < a) then 1 else if bool_decide (a < 0) then - 1 else 0.

(** ** bot/types.py *)

Inductive OrderSide := BUY | SELL.

Inductive OrderType :=
| LIMIT | MARKET | STOP_LOSS | STOP_LOSS_LIMIT
| TAKE_PROFIT | TAKE_PROFIT_LIMIT | LIMIT_MAKER.

Inductive OrderStatus :=
| NEW | PARTIALLY_FILLED | FILLED | CANCELED
| PENDING_CANCEL | REJECTED | EXPIRED.

Inductive TimeInForce := GTC | IOC | FOK.

Inductive PositionSide := LONG | SHORT | BOTH.

#[global] Instance OrderSide_eq_dec : EqDecision OrderSide.
Proof. solve_decision. Defined.
#[global] Instance OrderType_eq_dec : EqDecision OrderType.
Proof. solve_decision. Defined.
#[global] Instance OrderStatus_eq_dec : EqDecision OrderStatus.
Proof. solve_decision. Defined.
#[global] Instance TimeInForce_eq_dec : EqDecision TimeInForce.
Proof. solve_decision. Defined.
#[global] Instance PositionSide_eq_dec : EqDecision PositionSide.
Proof. solve_decision. Defined.

(** A [datetime] is a number of seconds since the epoch. *)
Abbreviation datetime := Z (only parsing).

Record Fill := {
  fill_symbol : string;
  fill_order_id : Z;
  fill_trade_id : Z;
  fill_side : OrderSide;
  fill_quantity : Decimal;
  fill_price : Decimal;
  fill_commission : Decimal;
  fill_commission_asset : string;
  fill_timestamp : option datetime;
  fill_is_maker : bool
}.

Record Position := {
  pos_symbol : string;
  pos_side : PositionSide;
  pos_size : Decimal;
  pos_entry_price : Decimal;
  pos_mark_price : Decimal;
  pos_unrealized_pnl : Decimal;
  pos_realized_pnl : Decimal;
  pos_margin : Decimal;
  pos_leverage : Decimal
}.

Record Order := {
  ord_symbol : string;
  ord_order_id : option Z;
  ord_client_order_id : option string;
  ord_side : OrderSide;
  ord_type : OrderType;
  ord_quantity : Decimal;
  ord_price : option Decimal;
  ord_stop_price : option Decimal;
  ord_time_in_force : TimeInForce;
  ord_status : OrderStatus;
  ord_executed_qty : Decimal;
  ord_cummulative_quote_qty : Decimal;
  ord_avg_price : option Decimal;
  ord_created_at : option datetime
}.

Record TradingSignal := {
  sig_symbol : string;
  sig_side : OrderSide;
  sig_quantity : Decimal;
  sig_price : option Decimal;
  sig_order_type : OrderType;
  sig_time_in_force : TimeInForce;
  sig_stop_price : option Decimal;
  sig_strategy_name : string;
  sig_confidence : Decimal
}.

(** The pieces of an f-string message: literal text and the interpolated
    values, kept unformatted. *)
Inductive MsgPart :=
| Str (s : string)
| Num (d : Decimal)
| Int (z : Z).

(** [severity] is one of the strings INFO, WARNING, ERROR, CRITICAL. The
    [metadata] snapshot of a risk event is left out. *)
Record RiskEvent := {
  ev_event_type : string;
  ev_symbol : option string;
  ev_message : list MsgPart;
  ev_severity : string
}.

(** [order.status = st]. *)
Definition with_status (st : OrderStatus) (o : Order) : Order :=
  {| ord_symbol := ord_symbol o; ord_order_id := ord_order_id o;
     ord_client_order_id := ord_client_order_id o;
     ord_side := ord_side o; ord_type := ord_type o;
     ord_quantity := ord_quantity o; ord_price := ord_price o;
     ord_stop_price := ord_stop_price o;
     ord_time_in_force := ord_time_in_force o;
     ord_status := st;
     ord_executed_qty := ord_executed_qty o;
     ord_cummulative_quote_qty := ord_cummulative_quote_qty o;
     ord_avg_price := ord_avg_price o;
     ord_created_at := ord_created_at o |}.

(** The terminal order states of the life cycle. *)
Definition is_terminal (st : OrderStatus) : bool :=
  match st with
  | FILLED | CANCELED | REJECTED | EXPIRED => true
  | _ => false
  end.

(** ** Python control flow: state passing with exceptions *)

(** The outcome of a call: a returned value or a raised [Exception], the
    string naming it. State changes made before a raise persist. *)
Inductive result (A : Type) :=
| Return (a : A)
| Raise (e : string).
Arguments Return {A} a.
Arguments Raise {A} e.

Definition py (S A : Type) : Type := S → result A * S.

#[global] Instance py_ret S : MRet (py S) := λ A a s, (Return a, s).

#[global] Instance py_bind S : MBind (py S) := λ A B f m s,
  match m s with
  | (Return a, s') => f a s'
  | (Raise e, s') => (Raise e, s')
  end.

Definition get {S} : py S S := λ s, (Return s, s).

Definition modify {S} (f : S → S) : py S () := λ s, (Return (), f s).

Definition raise {S A} (e : string) : py S A := λ s, (Raise e, s).

(** [try: body except Exception as e: handler e]. *)
Definition try_except {S A} (body : py S A) (handler : string → py S A)
  : py S A :=
  λ s, match body s with
       | (Return a, s') => (Return a, s')
       | (Raise e, s') => handler e s'
       end.

(** Python's slice [l[-limit:]]: the last [limit] elements for a positive
    [limit] (all of them when there are fewer), the whole list for
    [limit = 0], and the list without its first [-limit] elements for a
    negative [limit]. *)
Definition py_last {A : Type} (limit : Z) (l : list A) : list A :=
  if bool_decide (0 < limit)%Z
  then drop (length l - Z.to_nat limit) l
  else drop (Z.to_nat (- limit)) l.

(** ** bot/accounting.py *)

Module Accounting.

(** The in-memory books of [AccountingManager]. The manager is modelled with
    [db_pool = None], as [__init__] leaves it: every [if self.db_pool:] block
    is skipped. *)
Record AccountingManager := {
  trades : list Fill;
  positions : gmap string Position;
  daily_pnl : gmap string Decimal;
  total_pnl : Decimal;
  total_fees : Decimal;
  trades_recorded : nat;
  positions_updated : nat
}.

Definition __init__ : AccountingManager :=
  {| trades := []; positions := ∅; daily_pnl := ∅;
     total_pnl := 0; total_fees := 0;
     trades_recorded := 0; positions_updated := 0 |}.

(** [_update_position]: the arithmetic cannot raise (the division is
    guarded), so the [try] block is transparent. The new entry price of a
    BUY is the exact quotient here, where [Decimal] rounds it to 28
    significant digits: no statement below is about its value. *)
Definition _update_position (fill : Fill) (self : AccountingManager)
  : AccountingManager :=
  let symbol := fill_symbol fill in
  let side := fill_side fill in
  let quantity := fill_quantity fill in
  let price := fill_price fill in
  match positions self !! symbol with
  | Some current_position =>
      let size := pos_size current_position in
      let entry := pos_entry_price current_position in
      let new_size :=
        match side with
        | BUY => size + quantity
        | SELL => size - quantity
        end in
      let new_entry_price :=
        match side with
        | BUY => if bool_decide (new_size ≠ 0)
                 then (entry * size + price * quantity) / new_size
                 else entry
        | SELL => entry
        end in
      let closed := bool_decide (0 < size) && bool_decide (new_size <= 0) in
      let realized_pnl := (price - entry) * size in
      let updated :=
        {| pos_symbol := pos_symbol current_position;
           pos_side := pos_side current_position;
           pos_size := new_size;
           pos_entry_price := new_entry_price;
           pos_mark_price := pos_mark_price current_position;
           pos_unrealized_pnl := pos_unrealized_pnl current_position;
           pos_realized_pnl :=
             if closed then pos_realized_pnl current_position + realized_pnl
             else pos_realized_pnl current_position;
           pos_margin := pos_margin current_position;
           pos_leverage := pos_leverage current_position |} in
      {| trades := trades self;
         positions := <[symbol := updated]> (positions self);
         daily_pnl := daily_pnl self;
         total_pnl := if closed then total_pnl self + realized_pnl
                      else total_pnl self;
         total_fees := total_fees self;
         trades_recorded := trades_recorded self;
         positions_updated := S (positions_updated self) |}
  | None =>
      let new_position :=
        {| pos_symbol := symbol;
           pos_side := match side with BUY => LONG | SELL => SHORT end;
           pos_size := match side with BUY => quantity | SELL => - quantity end;
           pos_entry_price := price;
           pos_mark_price := price;
           pos_unrealized_pnl := 0;
           pos_realized_pnl := 0;
           pos_margin := 0;
           pos_leverage := 1 |} in
      {| trades := trades self;
         positions := <[symbol := new_position]> (positions self);
         daily_pnl := daily_pnl self;
         total_pnl := total_pnl self;
         total_fees := total_fees self;
         trades_recorded := trades_recorded self;
         positions_updated := S (positions_updated self) |}
  end.

(** [_update_daily_pnl]: the placeholder [quantity * price * 0.001]. *)
Definition _update_daily_pnl (fill : Fill) (self : AccountingManager)
  : AccountingManager :=
  let symbol := fill_symbol fill in
  let pnl := fill_quantity fill * fill_price fill * dec 0.001 in
  {| trades := trades self;
     positions := positions self;
     daily_pnl :=
       <[symbol := default 0 (daily_pnl self !! symbol) + pnl]> (daily_pnl self);
     total_pnl := total_pnl self;
     total_fees := total_fees self;
     trades_recorded := trades_recorded self;
     positions_updated := positions_updated self |}.

Definition record_fill (fill : Fill) (self : AccountingManager)
  : AccountingManager :=
  let s1 :=
    {| trades := trades self ++ [fill];
       positions := positions self;
       daily_pnl := daily_pnl self;
       total_pnl := total_pnl self;
       total_fees := total_fees self;
       trades_recorded := S (trades_recorded self);
       positions_updated := positions_updated self |} in
  let s2 := _update_position fill s1 in
  let s3 := _update_daily_pnl fill s2 in
  {| trades := trades s3;
     positions := positions s3;
     daily_pnl := daily_pnl s3;
     total_pnl := total_pnl s3;
     total_fees := total_fees s3 + fill_commission fill;
     trades_recorded := trades_recorded s3;
     positions_updated := positions_updated s3 |}.

(** A sequence of fills applied in order. *)
Definition record_fills (fills : list Fill) (self : AccountingManager)
  : AccountingManager :=
  foldl (λ am f, record_fill f am) self fills.

(** Observations used by the statements. *)

Definition signed_quantity (f : Fill) : Decimal :=
  match fill_side f with
  | BUY => fill_quantity f
  | SELL => - fill_quantity f
  end.

Fixpoint sum_signed_fills (symbol : string) (fills : list Fill) : Decimal :=
  match fills with
  | [] => 0
  | f :: rest =>
      (if bool_decide (fill_symbol f = symbol) then signed_quantity f else 0)
      + sum_signed_fills symbol rest
  end.

Definition position_size (symbol : string) (self : AccountingManager)
  : Decimal :=
  default 0 (pos_size <$> positions self !! symbol).

Definition position_realized (symbol : string) (self : AccountingManager)
  : Decimal :=
  default 0 (pos_realized_pnl <$> positions self !! symbol).

(** Realized P&L that one fill adds to the position of its symbol. *)
Definition realized_added (f : Fill) (self : AccountingManager) : Decimal :=
  position_realized (fill_symbol f) (record_fill f self)
  - position_realized (fill_symbol f) self.

(** The fill opposes the position: the signs of size and delta differ. *)
Definition opposes (size delta : Decimal) : bool :=
  (bool_decide (0 < size) && bool_decide (delta < 0))
  || (bool_decide (size < 0) && bool_decide (0 < delta)).

(** The closed form of the specification (section 4.8 and the position
    identity): on a closing segment of quantity [min(|size|, |delta|)] the
    realized P&L is [(fillPrice - entryPrice) * segment * sign(size)], less
    the fee. This definition follows the specification, not the code. *)
Definition spec_realized_closed_form (size entry : Decimal) (f : Fill)
  : Decimal :=
  (fill_price f - entry)
  * Qcmin (Qcabs size) (Qcabs (signed_quantity f)) * Qcsgn size
  - fill_commission f.

(** Concrete fills used in the examples. *)

Definition c1_buy : Fill :=
  {| fill_symbol := "BTCUSDT"; fill_order_id := 1; fill_trade_id := 1;
     fill_side := BUY; fill_quantity := dec 2; fill_price := dec 100;
     fill_commission := 0; fill_commission_asset := "USDT";
     fill_timestamp := None; fill_is_maker := false |}.

Definition c1_sell (qty : Decimal) : Fill :=
  {| fill_symbol := "BTCUSDT"; fill_order_id := 2; fill_trade_id := 2;
     fill_side := SELL; fill_quantity := qty; fill_price := dec 110;
     fill_commission := 0; fill_commission_asset := "USDT";
     fill_timestamp := None; fill_is_maker := false |}.

Definition c1_after_buy : AccountingManager := record_fills [c1_buy] __init__.

(** [get_trades(symbol, limit)]: the trades of the symbol when a non-empty
    symbol is given, all trades otherwise, cut to the slice [[-limit:]]. *)
Definition get_trades (symbol : option string) (limit : Z)
  (self : AccountingManager) : list Fill :=
  let trades :=
    match symbol with
    | Some s =>
        if bool_decide (s ≠ "")
        then List.filter (λ trade, bool_decide (fill_symbol trade = s))
               (trades self)
        else trades self
    | None => trades self
    end in
  py_last limit trades.

(** [get_daily_pnl(symbol)]. *)
Definition get_daily_pnl (symbol : option string) (self : AccountingManager)
  : gmap string Decimal :=
  match symbol with
  | Some s =>
      if bool_decide (s ≠ "")
      then {[s := default 0 (daily_pnl self !! s)]}
      else daily_pnl self
  | None => daily_pnl self
  end.

(** The placeholder P&L of the fills of a symbol: a thousandth of their
    notional. *)
Fixpoint sum_placeholder_pnl (symbol : string) (fills : list Fill) : Decimal :=
  match fills with
  | [] => 0
  | f :: rest =>
      (if bool_decide (fill_symbol f = symbol)
       then fill_quantity f * fill_price f * dec 0.001 else 0)
      + sum_placeholder_pnl symbol rest
  end.

Fixpoint sum_commissions (fills : list Fill) : Decimal :=
  match fills with
  | [] => 0
  | f :: rest => fill_commission f + sum_commissions rest
  end.

End Accounting.

(** ** bot/connectors/rate_limiter.py *)

Module RateLimiter.

Record RateLimit := {
  requests_per_second : Z;
  requests_per_minute : Z;
  requests_per_day : Z;
  weight_per_second : Z;
  weight_per_minute : Z;
  weight_per_day : Z
}.

(** [tokens] and [last_refill] are floats in the source; they are exact
    rationals here. [time.time()] is the argument [now]. *)
Record TokenBucket := {
  capacity : Z;
  refill_rate : Decimal;
  tokens : Decimal;
  last_refill : Decimal
}.

Definition TokenBucket_init (capacity : Z) (refill_rate now : Decimal)
  : TokenBucket :=
  {| capacity := capacity; refill_rate := refill_rate;
     tokens := Qc_of_Z capacity; last_refill := now |}.

Definition _refill (now : Decimal) (self : TokenBucket) : TokenBucket :=
  let elapsed := now - last_refill self in
  let tokens_to_add := elapsed * refill_rate self in
  {| capacity := capacity self; refill_rate := refill_rate self;
     tokens := Qcmin (Qc_of_Z (capacity self)) (tokens self + tokens_to_add);
     last_refill := now |}.

Definition consume (now : Decimal) (n : Z) (self : TokenBucket)
  : bool * TokenBucket :=
  let b := _refill now self in
  if bool_decide (Qc_of_Z n <= tokens b)
  then (true, {| capacity := capacity b; refill_rate := refill_rate b;
                 tokens := tokens b - Qc_of_Z n;
                 last_refill := last_refill b |})
  else (false, b).

(** The dictionaries [{'second': ..., 'minute': ..., 'day': ...}]. *)
Record Buckets := {
  second : TokenBucket;
  minute : TokenBucket;
  day : TokenBucket
}.

Record RateLimiter := {
  rate_limits : RateLimit;
  request_buckets : Buckets;
  weight_buckets : Buckets;
  total_requests : Z;
  total_weight : Z;
  rate_limited_requests : Z
}.

Definition default_rate_limits : RateLimit :=
  {| requests_per_second := 10; requests_per_minute := 1200;
     requests_per_day := 200000; weight_per_second := 1200;
     weight_per_minute := 6000; weight_per_day := 1000000 |}.

Definition __init__ (rate_limits : option RateLimit) (now : Decimal)
  : RateLimiter :=
  let rl := default default_rate_limits rate_limits in
  {| rate_limits := rl;
     request_buckets :=
       {| second := TokenBucket_init (requests_per_second rl)
                      (Qc_of_Z (requests_per_second rl)) now;
          minute := TokenBucket_init (requests_per_minute rl)
                      (Qc_of_Z (requests_per_minute rl) / dec 60) now;
          day := TokenBucket_init (requests_per_day rl)
                   (Qc_of_Z (requests_per_day rl) / dec 86400) now |};
     weight_buckets :=
       {| second := TokenBucket_init (weight_per_second rl)
                      (Qc_of_Z (weight_per_second rl)) now;
          minute := TokenBucket_init (weight_per_minute rl)
                      (Qc_of_Z (weight_per_minute rl) / dec 60) now;
          day := TokenBucket_init (weight_per_day rl)
                   (Qc_of_Z (weight_per_day rl) / dec 86400) now |};
     total_requests := 0; total_weight := 0; rate_limited_requests := 0 |}.

(** The six [consume] calls of [check_request], in source order; each reads
    the clock on its own. *)
Inductive BucketId :=
| ReqSecond | ReqMinute | ReqDay | WeightSecond | WeightMinute | WeightDay.

Definition check_request (now : BucketId → Decimal) (weight : Z)
  (self : RateLimiter) : bool * RateLimiter :=
  let '(c1, rs) := consume (now ReqSecond) 1 (second (request_buckets self)) in
  let '(c2, rm) := consume (now ReqMinute) 1 (minute (request_buckets self)) in
  let '(c3, rd) := consume (now ReqDay) 1 (day (request_buckets self)) in
  let '(c4, ws) :=
    consume (now WeightSecond) weight (second (weight_buckets self)) in
  let '(c5, wm) :=
    consume (now WeightMinute) weight (minute (weight_buckets self)) in
  let '(c6, wd) :=
    consume (now WeightDay) weight (day (weight_buckets self)) in
  let request_buckets' := {| second := rs; minute := rm; day := rd |} in
  let weight_buckets' := {| second := ws; minute := wm; day := wd |} in
  if c1 && c2 && c3 && c4 && c5 && c6
  then (true,
        {| rate_limits := rate_limits self;
           request_buckets := request_buckets';
           weight_buckets := weight_buckets';
           total_requests := (total_requests self + 1)%Z;
           total_weight := (total_weight self + weight)%Z;
           rate_limited_requests := rate_limited_requests self |})
  else (false,
        {| rate_limits := rate_limits self;
           request_buckets := request_buckets';
           weight_buckets := weight_buckets';
           total_requests := total_requests self;
           total_weight := total_weight self;
           rate_limited_requests := (rate_limited_requests self + 1)%Z |}).

(** The bucket a [BucketId] names, and the amount [check_request] asks of
    it. *)
Definition bucket (i : BucketId) (self : RateLimiter) : TokenBucket :=
  match i with
  | ReqSecond => second (request_buckets self)
  | ReqMinute => minute (request_buckets self)
  | ReqDay => day (request_buckets self)
  | WeightSecond => second (weight_buckets self)
  | WeightMinute => minute (weight_buckets self)
  | WeightDay => day (weight_buckets self)
  end.

Definition asked (i : BucketId) (weight : Z) : Z :=
  match i with
  | ReqSecond | ReqMinute | ReqDay => 1%Z
  | _ => weight
  end.

(** A bucket has been debited by a call when it holds fewer tokens than the
    refill alone leaves in it. *)
Definition debited (now : BucketId → Decimal) (i : BucketId)
  (before after : RateLimiter) : bool :=
  bool_decide (tokens (bucket i after)
               < tokens (_refill (now i) (bucket i before))).

(** [n] calls of [check_request(1)], all at clock reading [0]. *)
Definition burst (n : nat) (self : RateLimiter) : RateLimiter :=
  Nat.iter n (λ rl, (check_request (λ _, 0) 1 rl).2) self.

(** A limiter with the default quotas, created at clock reading [0], after
    ten such calls; and the eleventh call. *)
Definition c3_saturated : RateLimiter := burst 10 (__init__ None 0).

Definition c3_eleventh : bool * RateLimiter :=
  check_request (λ _, 0) 1 c3_saturated.

(** [TokenBucket.wait_for_tokens]: [consume] is tried again after each sleep
    of 10 ms. [clock] lists the readings of [time.time()] the successive
    tries will see; the result is the bucket after the successful try and
    the readings not yet used, or [None] when the readings run out with the
    caller still waiting. *)
Fixpoint wait_for_tokens (clock : list Decimal) (n : Z) (self : TokenBucket)
  : option (TokenBucket * list Decimal) :=
  match clock with
  | [] => None
  | now :: later =>
      let '(ok, b) := consume now n self in
      if ok then Some (b, later) else wait_for_tokens later n b
  end.

(** [RateLimiter.wait_for_request]: the six buckets are waited for one
    after the other. *)
Definition wait_for_request (clock : list Decimal) (weight : Z)
  (self : RateLimiter) : option (RateLimiter * list Decimal) :=
  '(rs, clock) ← wait_for_tokens clock 1 (second (request_buckets self));
  '(rm, clock) ← wait_for_tokens clock 1 (minute (request_buckets self));
  '(rd, clock) ← wait_for_tokens clock 1 (day (request_buckets self));
  '(ws, clock) ← wait_for_tokens clock weight (second (weight_buckets self));
  '(wm, clock) ← wait_for_tokens clock weight (minute (weight_buckets self));
  '(wd, clock) ← wait_for_tokens clock weight (day (weight_buckets self));
  Some ({| rate_limits := rate_limits self;
           request_buckets := {| second := rs; minute := rm; day := rd |};
           weight_buckets := {| second := ws; minute := wm; day := wd |};
           total_requests := (total_requests self + 1)%Z;
           total_weight := (total_weight self + weight)%Z;
           rate_limited_requests := rate_limited_requests self |},
        clock).

(** [RateLimiter.update_rate_limits]: six new buckets, each created full at
    its own reading [now i] of the clock; the statistics stay. *)
Definition update_rate_limits (rl : RateLimit) (now : BucketId → Decimal)
  (self : RateLimiter) : RateLimiter :=
  {| rate_limits := rl;
     request_buckets :=
       {| second := TokenBucket_init (requests_per_second rl)
                      (Qc_of_Z (requests_per_second rl)) (now ReqSecond);
          minute := TokenBucket_init (requests_per_minute rl)
                      (Qc_of_Z (requests_per_minute rl) / dec 60)
                      (now ReqMinute);
          day := TokenBucket_init (requests_per_day rl)
                   (Qc_of_Z (requests_per_day rl) / dec 86400) (now ReqDay) |};
     weight_buckets :=
       {| second := TokenBucket_init (weight_per_second rl)
                      (Qc_of_Z (weight_per_second rl)) (now WeightSecond);
          minute := TokenBucket_init (weight_per_minute rl)
                      (Qc_of_Z (weight_per_minute rl) / dec 60)
                      (now WeightMinute);
          day := TokenBucket_init (weight_per_day rl)
                   (Qc_of_Z (weight_per_day rl) / dec 86400)
                   (now WeightDay) |};
     total_requests := total_requests self;
     total_weight := total_weight self;
     rate_limited_requests := rate_limited_requests self |}.

(** The number of [consume(n)] calls that succeed among [m] calls made one
    after the other at the same clock reading. *)
Fixpoint admitted (m : nat) (now : Decimal) (n : Z) (self : TokenBucket)
  : nat :=
  match m with
  | O => O
  | S m' =>
      let '(ok, b) := consume now n self in
      ((if ok then 1 else 0) + admitted m' now n b)%nat
  end.

(** The capacity that a [BucketId] has under a quota. *)
Definition quota (rl : RateLimit) (i : BucketId) : Z :=
  match i with
  | ReqSecond => requests_per_second rl
  | ReqMinute => requests_per_minute rl
  | ReqDay => requests_per_day rl
  | WeightSecond => weight_per_second rl
  | WeightMinute => weight_per_minute rl
  | WeightDay => weight_per_day rl
  end.

End RateLimiter.

(** ** bot/risk.py *)

Module Risk.

(** The four checks of [check_signal], each a method with its own
    [try ... except Exception: return False]. *)
Inductive Check :=
| PositionLimits | DailyDrawdown | ConsecutiveLosses | LeverageLimits.

(** [RiskManager]. The limits are the values [__init__] reads from the
    configuration. [on_risk_event], when a callback is installed, is the
    predicate telling for which events the callback raises. [emitted] lists
    the [RiskEvent] objects built by [_trigger_risk_event], oldest first:
    each one is counted in [risk_events_triggered] and handed to the
    callback. *)
Record RiskManager := {
  positions : gmap string Position;
  daily_pnl : gmap string Decimal;
  consecutive_losses : gmap string Z;
  max_position_size : Decimal;
  max_daily_drawdown : Decimal;
  max_consecutive_losses : Z;
  position_limits : gmap string Decimal;
  max_leverage : Decimal;
  is_risk_breach : bool;
  risk_breach_reason : string;
  on_risk_event : option (RiskEvent → bool);
  emitted : list RiskEvent;
  risk_checks_performed : nat;
  risk_events_triggered : nat;
  signals_rejected : nat
}.

Definition __init__ (max_position_size max_daily_drawdown : Decimal)
  (max_consecutive_losses : Z) (position_limits : gmap string Decimal)
  (max_leverage : Decimal) : RiskManager :=
  {| positions := ∅; daily_pnl := ∅; consecutive_losses := ∅;
     max_position_size := max_position_size;
     max_daily_drawdown := max_daily_drawdown;
     max_consecutive_losses := max_consecutive_losses;
     position_limits := position_limits;
     max_leverage := max_leverage;
     is_risk_breach := false; risk_breach_reason := "";
     on_risk_event := None; emitted := [];
     risk_checks_performed := 0; risk_events_triggered := 0;
     signals_rejected := 0 |}.

(** Attribute stores. *)

Definition set_books (ps : gmap string Position) (pnl : gmap string Decimal)
  (losses : gmap string Z) (self : RiskManager) : RiskManager :=
  {| positions := ps; daily_pnl := pnl; consecutive_losses := losses;
     max_position_size := max_position_size self;
     max_daily_drawdown := max_daily_drawdown self;
     max_consecutive_losses := max_consecutive_losses self;
     position_limits := position_limits self;
     max_leverage := max_leverage self;
     is_risk_breach := is_risk_breach self;
     risk_breach_reason := risk_breach_reason self;
     on_risk_event := on_risk_event self; emitted := emitted self;
     risk_checks_performed := risk_checks_performed self;
     risk_events_triggered := risk_events_triggered self;
     signals_rejected := signals_rejected self |}.

Definition set_breach (flag : bool) (reason : string) (self : RiskManager)
  : RiskManager :=
  {| positions := positions self; daily_pnl := daily_pnl self;
     consecutive_losses := consecutive_losses self;
     max_position_size := max_position_size self;
     max_daily_drawdown := max_daily_drawdown self;
     max_consecutive_losses := max_consecutive_losses self;
     position_limits := position_limits self;
     max_leverage := max_leverage self;
     is_risk_breach := flag; risk_breach_reason := reason;
     on_risk_event := on_risk_event self; emitted := emitted self;
     risk_checks_performed := risk_checks_performed self;
     risk_events_triggered := risk_events_triggered self;
     signals_rejected := signals_rejected self |}.

Definition set_on_risk_event (callback : option (RiskEvent → bool))
  (self : RiskManager) : RiskManager :=
  {| positions := positions self; daily_pnl := daily_pnl self;
     consecutive_losses := consecutive_losses self;
     max_position_size := max_position_size self;
     max_daily_drawdown := max_daily_drawdown self;
     max_consecutive_losses := max_consecutive_losses self;
     position_limits := position_limits self;
     max_leverage := max_leverage self;
     is_risk_breach := is_risk_breach self;
     risk_breach_reason := risk_breach_reason self;
     on_risk_event := callback; emitted := emitted self;
     risk_checks_performed := risk_checks_performed self;
     risk_events_triggered := risk_events_triggered self;
     signals_rejected := signals_rejected self |}.

(** [risk_events_triggered += 1] for the event just built. *)
Definition count_event (ev : RiskEvent) (self : RiskManager) : RiskManager :=
  {| positions := positions self; daily_pnl := daily_pnl self;
     consecutive_losses := consecutive_losses self;
     max_position_size := max_position_size self;
     max_daily_drawdown := max_daily_drawdown self;
     max_consecutive_losses := max_consecutive_losses self;
     position_limits := position_limits self;
     max_leverage := max_leverage self;
     is_risk_breach := is_risk_breach self;
     risk_breach_reason := risk_breach_reason self;
     on_risk_event := on_risk_event self; emitted := emitted self ++ [ev];
     risk_checks_performed := risk_checks_performed self;
     risk_events_triggered := S (risk_events_triggered self);
     signals_rejected := signals_rejected self |}.

Definition count_check (self : RiskManager) : RiskManager :=
  {| positions := positions self; daily_pnl := daily_pnl self;
     consecutive_losses := consecutive_losses self;
     max_position_size := max_position_size self;
     max_daily_drawdown := max_daily_drawdown self;
     max_consecutive_losses := max_consecutive_losses self;
     position_limits := position_limits self;
     max_leverage := max_leverage self;
     is_risk_breach := is_risk_breach self;
     risk_breach_reason := risk_breach_reason self;
     on_risk_event := on_risk_event self; emitted := emitted self;
     risk_checks_performed := S (risk_checks_performed self);
     risk_events_triggered := risk_events_triggered self;
     signals_rejected := signals_rejected self |}.

Definition count_rejected (self : RiskManager) : RiskManager :=
  {| positions := positions self; daily_pnl := daily_pnl self;
     consecutive_losses := consecutive_losses self;
     max_position_size := max_position_size self;
     max_daily_drawdown := max_daily_drawdown self;
     max_consecutive_losses := max_consecutive_losses self;
     position_limits := position_limits self;
     max_leverage := max_leverage self;
     is_risk_breach := is_risk_breach self;
     risk_breach_reason := risk_breach_reason self;
     on_risk_event := on_risk_event self; emitted := emitted self;
     risk_checks_performed := risk_checks_performed self;
     risk_events_triggered := risk_events_triggered self;
     signals_rejected := S (signals_rejected self) |}.

(** [_trigger_risk_event]: build the event, count it, notify the callback;
    an exception of the callback is caught and logged. *)
Definition _trigger_risk_event (event_type : string) (message : list MsgPart)
  (severity : string) (symbol : option string) : py RiskManager () :=
  try_except
    (let risk_event :=
       {| ev_event_type := event_type; ev_symbol := symbol;
          ev_message := message; ev_severity := severity |} in
     modify (count_event risk_event) ;;
     self ← get;
     match on_risk_event self with
     | Some callback =>
         if callback risk_event then raise "on_risk_event" else mret ()
     | None => mret ()
     end)
    (λ _, mret ()).

(** [raises c] tells whether, in the call at hand, the body of check [c]
    raises an [Exception] (for instance [decimal.InvalidOperation] on a
    comparison with a NaN limit). In every check the only statements with
    an effect on the manager are the event trigger and the stores that
    directly precede [return False]; they cannot raise, so a raising body
    leaves the manager as it found it. *)
Definition fault (raises : Check → bool) (c : Check) : py RiskManager () :=
  if raises c then raise "Exception" else mret ().

Definition sum_values (m : gmap string Decimal) : Decimal :=
  map_fold (λ _ v acc, acc + v) 0 m.

Definition _check_position_limits (raises : Check → bool)
  (signal : TradingSignal) : py RiskManager bool :=
  try_except
    (fault raises PositionLimits ;;
     self ← get;
     let symbol := sig_symbol signal in
     let current_size := default 0 (pos_size <$> positions self !! symbol) in
     let new_size :=
       match sig_side signal with
       | BUY => current_size + sig_quantity signal
       | SELL => current_size - sig_quantity signal
       end in
     if bool_decide (max_position_size self < Qcabs new_size) then
       _trigger_risk_event "POSITION_LIMIT_EXCEEDED"
         [Str "Position size "; Num new_size; Str " exceeds limit ";
          Num (max_position_size self)]
         "WARNING" (Some symbol) ;;
       mret false
     else
       match position_limits self !! symbol with
       | Some max_ratio =>
           if bool_decide (max_position_size self * max_ratio
                           < Qcabs new_size) then
             _trigger_risk_event "SYMBOL_POSITION_LIMIT_EXCEEDED"
               [Str "Position size "; Num new_size;
                Str " exceeds symbol limit "; Num max_ratio]
               "WARNING" (Some symbol) ;;
             mret false
           else mret true
       | None => mret true
       end)
    (λ _, mret false).

Definition _check_daily_drawdown (raises : Check → bool)
  (signal : TradingSignal) : py RiskManager bool :=
  try_except
    (fault raises DailyDrawdown ;;
     self ← get;
     let total_daily_pnl := sum_values (daily_pnl self) in
     if bool_decide (total_daily_pnl < - max_daily_drawdown self) then
       _trigger_risk_event "DAILY_DRAWDOWN_EXCEEDED"
         [Str "Daily P&L "; Num total_daily_pnl;
          Str " exceeds drawdown limit "; Num (max_daily_drawdown self)]
         "CRITICAL" None ;;
       modify (set_breach true "Daily drawdown exceeded") ;;
       mret false
     else mret true)
    (λ _, mret false).

Definition _check_consecutive_losses (raises : Check → bool)
  (signal : TradingSignal) : py RiskManager bool :=
  try_except
    (fault raises ConsecutiveLosses ;;
     self ← get;
     let symbol := sig_symbol signal in
     let losses := default 0%Z (consecutive_losses self !! symbol) in
     if bool_decide (max_consecutive_losses self ≤ losses)%Z then
       _trigger_risk_event "CONSECUTIVE_LOSSES_EXCEEDED"
         [Str "Consecutive losses "; Int losses; Str " exceeds limit ";
          Int (max_consecutive_losses self)]
         "WARNING" (Some symbol) ;;
       mret false
     else mret true)
    (λ _, mret false).

Definition _check_leverage_limits (raises : Check → bool)
  (signal : TradingSignal) : py RiskManager bool :=
  try_except
    (fault raises LeverageLimits ;;
     self ← get;
     if bool_decide (max_leverage self < 1) then
       _trigger_risk_event "LEVERAGE_LIMIT_EXCEEDED"
         [Str "Leverage exceeds limit "; Num (max_leverage self)]
         "WARNING" (Some (sig_symbol signal)) ;;
       mret false
     else mret true)
    (λ _, mret false).

(** [self.signals_rejected += 1; return False]. *)
Definition reject : py RiskManager bool :=
  modify count_rejected ;; mret false.

Definition check_signal (raises : Check → bool) (signal : TradingSignal)
  : py RiskManager bool :=
  try_except
    (modify count_check ;;
     self ← get;
     if is_risk_breach self then
       _trigger_risk_event "RISK_BREACH"
         [Str "Risk management disabled due to: ";
          Str (risk_breach_reason self)]
         "CRITICAL" None ;;
       reject
     else
       ok ← _check_position_limits raises signal;
       if negb ok then reject else
       ok ← _check_daily_drawdown raises signal;
       if negb ok then reject else
       ok ← _check_consecutive_losses raises signal;
       if negb ok then reject else
       ok ← _check_leverage_limits raises signal;
       if negb ok then reject else
       mret true)
    (λ _, mret false).

(** [bot/risk.py] imports [TradingSignal], [RiskEvent], [Position], [Fill]
    and [OrderSide] from [bot/types.py], but not [PositionSide]: evaluating
    [PositionSide.LONG] or [PositionSide.SHORT] in this module raises
    [NameError]. *)
Definition PositionSide_member (member : PositionSide)
  : py RiskManager PositionSide :=
  raise "NameError".

(** [_calculate_unrealized_pnl]: for a position of non-zero size the
    comparison with [PositionSide.LONG] raises, and the [except] clause
    returns zero. *)
Definition _calculate_unrealized_pnl (position : Position)
  : py RiskManager Decimal :=
  try_except
    (if bool_decide (pos_size position = 0) then mret 0 else
     let current_price := pos_mark_price position in
     long ← PositionSide_member LONG;
     if bool_decide (pos_side position = long)
     then mret ((current_price - pos_entry_price position)
                * pos_size position)
     else mret ((pos_entry_price position - current_price)
                * Qcabs (pos_size position)))
    (λ _, mret 0).

(** [self.positions[symbol] = position], also for the attribute stores on a
    position that the dictionary already holds. *)
Definition set_position (symbol : string) (position : Position)
  (self : RiskManager) : RiskManager :=
  set_books (<[symbol := position]> (positions self)) (daily_pnl self)
    (consecutive_losses self) self.

Definition with_unrealized_pnl (unrealized_pnl : Decimal)
  (position : Position) : Position :=
  {| pos_symbol := pos_symbol position;
     pos_side := pos_side position;
     pos_size := pos_size position;
     pos_entry_price := pos_entry_price position;
     pos_mark_price := pos_mark_price position;
     pos_unrealized_pnl := unrealized_pnl;
     pos_realized_pnl := pos_realized_pnl position;
     pos_margin := pos_margin position;
     pos_leverage := pos_leverage position |}.

(** [_update_daily_pnl]: the placeholder [quantity * price * 0.001]. *)
Definition _update_daily_pnl (symbol : string) (fill : Fill)
  : py RiskManager () :=
  let pnl := fill_quantity fill * fill_price fill * dec 0.001 in
  modify (λ self,
    set_books (positions self)
      (<[symbol := default 0 (daily_pnl self !! symbol) + pnl]>
         (daily_pnl self))
      (consecutive_losses self) self).

(** [_update_consecutive_losses]: the count is reset on any fill. *)
Definition _update_consecutive_losses (symbol : string) (fill : Fill)
  : py RiskManager () :=
  modify (λ self,
    set_books (positions self) (daily_pnl self)
      (<[symbol := 0%Z]> (consecutive_losses self)) self).

(** [update_position]. For a symbol without a position the construction of
    the new [Position] raises [NameError] at [PositionSide]; the [except]
    clause logs it, before anything has been stored. As in the accounting
    manager, the quotient of the new entry price is exact here. *)
Definition update_position (fill : Fill) : py RiskManager () :=
  try_except
    (let symbol := fill_symbol fill in
     let side := fill_side fill in
     let quantity := fill_quantity fill in
     let price := fill_price fill in
     self ← get;
     match positions self !! symbol with
     | Some current_position =>
         let size := pos_size current_position in
         let entry := pos_entry_price current_position in
         let new_size :=
           match side with
           | BUY => size + quantity
           | SELL => size - quantity
           end in
         let new_entry_price :=
           match side with
           | BUY => if bool_decide (new_size ≠ 0)
                    then (entry * size + price * quantity) / new_size
                    else entry
           | SELL => entry
           end in
         let moved :=
           {| pos_symbol := pos_symbol current_position;
              pos_side := pos_side current_position;
              pos_size := new_size;
              pos_entry_price := new_entry_price;
              pos_mark_price := pos_mark_price current_position;
              pos_unrealized_pnl := pos_unrealized_pnl current_position;
              pos_realized_pnl := pos_realized_pnl current_position;
              pos_margin := pos_margin current_position;
              pos_leverage := pos_leverage current_position |} in
         modify (set_position symbol moved) ;;
         unrealized_pnl ← _calculate_unrealized_pnl moved;
         modify (set_position symbol
                   (with_unrealized_pnl unrealized_pnl moved))
     | None =>
         position_side ←
           match side with
           | BUY => PositionSide_member LONG
           | SELL => PositionSide_member SHORT
           end;
         let new_position :=
           {| pos_symbol := symbol;
              pos_side := position_side;
              pos_size := match side with
                          | BUY => quantity | SELL => - quantity end;
              pos_entry_price := price;
              pos_mark_price := price;
              pos_unrealized_pnl := 0;
              pos_realized_pnl := 0;
              pos_margin := 0;
              pos_leverage := 1 |} in
         modify (set_position symbol new_position)
     end ;;
     _update_daily_pnl symbol fill ;;
     _update_consecutive_losses symbol fill)
    (λ _, mret ()).

Definition update_market_data (symbol : string) (price : Decimal)
  : py RiskManager () :=
  try_except
    (self ← get;
     match positions self !! symbol with
     | Some position =>
         let marked :=
           {| pos_symbol := pos_symbol position;
              pos_side := pos_side position;
              pos_size := pos_size position;
              pos_entry_price := pos_entry_price position;
              pos_mark_price := price;
              pos_unrealized_pnl := pos_unrealized_pnl position;
              pos_realized_pnl := pos_realized_pnl position;
              pos_margin := pos_margin position;
              pos_leverage := pos_leverage position |} in
         modify (set_position symbol marked) ;;
         unrealized_pnl ← _calculate_unrealized_pnl marked;
         modify (set_position symbol
                   (with_unrealized_pnl unrealized_pnl marked))
     | None => mret ()
     end)
    (λ _, mret ()).

Definition reset_daily_pnl (self : RiskManager) : RiskManager :=
  set_books (positions self) ∅ (consecutive_losses self) self.

Definition reset_risk_breach (self : RiskManager) : RiskManager :=
  set_breach false "" self.

(** The public operations of the manager, and the state each leaves. *)
Inductive Call :=
| CheckSignal (raises : Check → bool) (signal : TradingSignal)
| UpdatePosition (fill : Fill)
| UpdateMarketData (symbol : string) (price : Decimal)
| ResetDailyPnl
| ResetRiskBreach.

Definition run (c : Call) (self : RiskManager) : RiskManager :=
  match c with
  | CheckSignal raises signal => (check_signal raises signal self).2
  | UpdatePosition fill => (update_position fill self).2
  | UpdateMarketData symbol price => (update_market_data symbol price self).2
  | ResetDailyPnl => reset_daily_pnl self
  | ResetRiskBreach => reset_risk_breach self
  end.

(** The conditions the four checks test, as predicates of the state. *)

Definition new_size (signal : TradingSignal) (self : RiskManager) : Decimal :=
  let current_size :=
    default 0 (pos_size <$> positions self !! sig_symbol signal) in
  match sig_side signal with
  | BUY => current_size + sig_quantity signal
  | SELL => current_size - sig_quantity signal
  end.

Definition position_limits_ok (signal : TradingSignal) (self : RiskManager)
  : bool :=
  negb (bool_decide (max_position_size self < Qcabs (new_size signal self)))
  && match position_limits self !! sig_symbol signal with
     | Some max_ratio =>
         negb (bool_decide (max_position_size self * max_ratio
                            < Qcabs (new_size signal self)))
     | None => true
     end.

Definition consecutive_losses_ok (signal : TradingSignal)
  (self : RiskManager) : bool :=
  negb (bool_decide
          (max_consecutive_losses self
           ≤ default 0%Z (consecutive_losses self !! sig_symbol signal))%Z).

Definition leverage_ok (self : RiskManager) : bool :=
  negb (bool_decide (max_leverage self < 1)).

Definition no_fault : Check → bool := λ _, false.

(** The event of a daily-drawdown violation. *)
Definition drawdown_event (self : RiskManager) : RiskEvent :=
  {| ev_event_type := "DAILY_DRAWDOWN_EXCEEDED"; ev_symbol := None;
     ev_message :=
       [Str "Daily P&L "; Num (sum_values (daily_pnl self));
        Str " exceeds drawdown limit "; Num (max_daily_drawdown self)];
     ev_severity := "CRITICAL" |}.

(** The events of the other rejections. *)

Definition breach_event (self : RiskManager) : RiskEvent :=
  {| ev_event_type := "RISK_BREACH"; ev_symbol := None;
     ev_message :=
       [Str "Risk management disabled due to: ";
        Str (risk_breach_reason self)];
     ev_severity := "CRITICAL" |}.

Definition position_event (signal : TradingSignal) (self : RiskManager)
  : RiskEvent :=
  if bool_decide (max_position_size self < Qcabs (new_size signal self))
  then {| ev_event_type := "POSITION_LIMIT_EXCEEDED";
          ev_symbol := Some (sig_symbol signal);
          ev_message :=
            [Str "Position size "; Num (new_size signal self);
             Str " exceeds limit "; Num (max_position_size self)];
          ev_severity := "WARNING" |}
  else {| ev_event_type := "SYMBOL_POSITION_LIMIT_EXCEEDED";
          ev_symbol := Some (sig_symbol signal);
          ev_message :=
            [Str "Position size "; Num (new_size signal self);
             Str " exceeds symbol limit ";
             Num (default 0 (position_limits self !! sig_symbol signal))];
          ev_severity := "WARNING" |}.

Definition losses_event (signal : TradingSignal) (self : RiskManager)
  : RiskEvent :=
  {| ev_event_type := "CONSECUTIVE_LOSSES_EXCEEDED";
     ev_symbol := Some (sig_symbol signal);
     ev_message :=
       [Str "Consecutive losses ";
        Int (default 0%Z (consecutive_losses self !! sig_symbol signal));
        Str " exceeds limit "; Int (max_consecutive_losses self)];
     ev_severity := "WARNING" |}.

Definition leverage_event (signal : TradingSignal) (self : RiskManager)
  : RiskEvent :=
  {| ev_event_type := "LEVERAGE_LIMIT_EXCEEDED";
     ev_symbol := Some (sig_symbol signal);
     ev_message := [Str "Leverage exceeds limit "; Num (max_leverage self)];
     ev_severity := "WARNING" |}.

(** Concrete inputs used in the examples: limits of 10000 (position size),
    500 (daily drawdown), 5 (consecutive losses) and leverage 1, with the
    day's P&L of BTCUSDT given. *)

Definition c4_manager (pnl : Decimal) : RiskManager :=
  set_books ∅ {["BTCUSDT" := pnl]} ∅
    (__init__ (dec 10000) (dec 500) 5 ∅ 1).

Definition c4_signal : TradingSignal :=
  {| sig_symbol := "BTCUSDT"; sig_side := BUY; sig_quantity := 1;
     sig_price := Some (dec 100); sig_order_type := LIMIT;
     sig_time_in_force := GTC; sig_stop_price := None;
     sig_strategy_name := "scalper"; sig_confidence := 1 |}.

(** A sequence of operations, applied in order. *)
Definition run_all (cs : list Call) (self : RiskManager) : RiskManager :=
  foldl (λ s c, run c s) self cs.

(** The fill of an [update_position] call has a non-negative notional
    [quantity * price]; the other calls carry no fill. *)
Definition nonneg_notional (c : Call) : bool :=
  match c with
  | UpdatePosition fill => bool_decide (0 <= fill_quantity fill * fill_price fill)
  | _ => true
  end.

(** The state in which the manager operates: the breach flag clear, a
    non-negative drawdown limit, no negative daily P&L and no consecutive
    loss counted. *)
Definition in_operation (self : RiskManager) : Prop :=
  is_risk_breach self = false
  ∧ 0 <= max_daily_drawdown self
  ∧ map_Forall (λ _ v, 0 <= v) (daily_pnl self)
  ∧ map_Forall (λ _ n, n = 0%Z) (consecutive_losses self).

End Risk.

(** ** bot/execution.py *)

Module Execution.

(** The parameters of the DELETE /api/v3/order request that
    [BinanceRESTClient.cancel_order] sends. *)
Record CancelRequest := {
  req_symbol : string;
  req_orderId : option Z;
  req_origClientOrderId : option string
}.

(** [OrderManager]. [rest_client] tells whether the REST client has been
    created. [on_order_update], when a callback is installed, is the
    predicate telling for which orders the callback raises. Two lists record
    what leaves the manager: [network], the requests sent to the exchange,
    and [updates], the orders handed to the callback. *)
Record OrderManager := {
  rest_client : bool;
  active_orders : gmap string Order;
  order_history : list Order;
  on_order_update : option (Order → bool);
  orders_canceled : nat;
  network : list CancelRequest;
  updates : list Order
}.

(** The request parameters: [orderId] when the order id is truthy (not
    [None], not [0]), else [origClientOrderId] when the client id is truthy
    (not [None], not empty), else no request can be built. *)
Definition cancel_params (symbol : string) (order_id : option Z)
  (client_order_id : option string) : option CancelRequest :=
  match order_id, client_order_id with
  | Some n, _ =>
      if bool_decide (n ≠ 0%Z)
      then Some {| req_symbol := symbol; req_orderId := Some n;
                   req_origClientOrderId := None |}
      else match client_order_id with
           | Some c =>
               if bool_decide (c ≠ "")
               then Some {| req_symbol := symbol; req_orderId := None;
                            req_origClientOrderId := Some c |}
               else None
           | None => None
           end
  | None, Some c =>
      if bool_decide (c ≠ "")
      then Some {| req_symbol := symbol; req_orderId := None;
                   req_origClientOrderId := Some c |}
      else None
  | None, None => None
  end.

Definition sent (req : CancelRequest) (self : OrderManager) : OrderManager :=
  {| rest_client := rest_client self;
     active_orders := active_orders self;
     order_history := order_history self;
     on_order_update := on_order_update self;
     orders_canceled := orders_canceled self;
     network := network self ++ [req];
     updates := updates self |}.

(** [BinanceRESTClient.cancel_order]: a [ValueError] when the order carries
    no id, otherwise one request to the exchange. [exchange req] is the
    outcome of that request: the order parsed from the answer, or the
    exception that the request or the parsing raises. *)
Definition rest_cancel_order (exchange : CancelRequest → result Order)
  (symbol : string) (order_id : option Z) (client_order_id : option string)
  : py OrderManager Order :=
  match cancel_params symbol order_id client_order_id with
  | None => raise "ValueError"
  | Some req => λ self, (exchange req, sent req self)
  end.

(** The local update after a successful cancel. *)
Definition record_cancel (order_id : string) (canceled_order : Order)
  (self : OrderManager) : OrderManager :=
  {| rest_client := rest_client self;
     active_orders := delete order_id (active_orders self);
     order_history := order_history self ++ [canceled_order];
     on_order_update := on_order_update self;
     orders_canceled := S (orders_canceled self);
     network := network self;
     updates := updates self |}.

Definition notify (o : Order) : py OrderManager () :=
  self ← get;
  match on_order_update self with
  | Some callback =>
      modify (λ self,
        {| rest_client := rest_client self;
           active_orders := active_orders self;
           order_history := order_history self;
           on_order_update := on_order_update self;
           orders_canceled := orders_canceled self;
           network := network self;
           updates := updates self ++ [o] |}) ;;
      if callback o then raise "on_order_update" else mret ()
  | None => mret ()
  end.

Definition cancel_order (exchange : CancelRequest → result Order)
  (order_id : string) : py OrderManager bool :=
  try_except
    (self ← get;
     if negb (rest_client self) then mret false else
     match active_orders self !! order_id with
     | None => mret false
     | Some order =>
         canceled_order ←
           rest_cancel_order exchange (ord_symbol order) (ord_order_id order)
             (ord_client_order_id order);
         let canceled_order := with_status CANCELED canceled_order in
         modify (record_cancel order_id canceled_order) ;;
         notify canceled_order ;;
         mret true
     end)
    (λ _, mret false).

(** Concrete inputs used in the examples: a manager tracking one order under
    the client id "mm_1", and an exchange that answers every cancel request
    with the order as it stands. *)

Definition c6_order (st : OrderStatus) : Order :=
  {| ord_symbol := "BTCUSDT"; ord_order_id := Some 7%Z;
     ord_client_order_id := Some "mm_1";
     ord_side := BUY; ord_type := LIMIT; ord_quantity := 1;
     ord_price := Some (dec 100); ord_stop_price := None;
     ord_time_in_force := GTC; ord_status := st;
     ord_executed_qty := 0; ord_cummulative_quote_qty := 0;
     ord_avg_price := None; ord_created_at := None |}.

Definition c6_manager (st : OrderStatus) : OrderManager :=
  {| rest_client := true;
     active_orders := {["mm_1" := c6_order st]};
     order_history := [c6_order st];
     on_order_update := None;
     orders_canceled := 0;
     network := [];
     updates := [] |}.

Definition c6_exchange (st : OrderStatus) : CancelRequest → result Order :=
  λ _, Return (c6_order st).

Definition c6_request : CancelRequest :=
  {| req_symbol := "BTCUSDT"; req_orderId := Some 7%Z;
     req_origClientOrderId := None |}.

(** The manager after a first, successful cancel of the open order. *)
Definition c6_after_cancel : OrderManager :=
  (cancel_order (c6_exchange NEW) "mm_1" (c6_manager NEW)).2.

End Execution.

(** ** bot/connectors/binance_rest.py *)

Module Rest.

(** The [Retry-After] header of a response, as [int(...)] sees it: missing,
    a number of seconds, or text that [int] rejects. *)
Inductive RetryAfter :=
| Absent
| Seconds (n : Z)
| Malformed.

Record Response := {
  status : Z;
  retry_after : RetryAfter;
  body : string
}.

(** What one attempt meets: a response, or a timeout of the session. *)
Inductive Reply :=
| Answer (r : Response)
| Timeout.

(** What the client does, in order: it waits for the rate limiter with the
    weight of the request, sends the request, sleeps. Request parameters
    and the signature are left out. *)
Inductive Action :=
| AcquireRateLimit (weight : Z)
| Send (method endpoint : string)
| Sleep (seconds : Z).

(** The pause a [Retry-After] header asks for: its number of seconds, one
    second when the header is missing. *)
Definition advertised (h : RetryAfter) : Z :=
  match h with Seconds n => n | _ => 1%Z end.

(** [_make_request] against the replies the exchange gives to the successive
    attempts. The result is [None] when the replies run out before the call
    has returned or raised: the call is still retrying. The client session
    is taken as initialised. *)
Fixpoint _make_request (replies : list Reply) (method endpoint : string)
  (weight : Z) : option (result string * list Action) :=
  match replies with
  | [] => None
  | reply :: later =>
      let attempt := [AcquireRateLimit weight; Send method endpoint] in
      match reply with
      | Timeout => Some (Raise "TimeoutError", attempt)
      | Answer response =>
          if bool_decide (status response = 429%Z) then
            match retry_after response with
            | Malformed => Some (Raise "ValueError", attempt)
            | header =>
                let seconds := advertised header in
                match _make_request later method endpoint weight with
                | Some (outcome, actions) =>
                    Some (outcome, attempt ++ Sleep seconds :: actions)
                | None => None
                end
            end
          else if bool_decide (400 ≤ status response)%Z then
            Some (Raise "API error", attempt)
          else Some (Return (body response), attempt)
      end
  end.

Definition sleeps (actions : list Action) : list Z :=
  omap (λ a, match a with Sleep n => Some n | _ => None end) actions.

Definition is_send (a : Action) : bool :=
  match a with Send _ _ => true | _ => false end.

Definition attempts (actions : list Action) : nat :=
  length (List.filter is_send actions).

(** A 429 response advertising [n] seconds, and a response with a given
    status and no header. *)
Definition too_many_requests (n : Z) : Reply :=
  Answer {| status := 429; retry_after := Seconds n; body := "" |}.

Definition plain (code : Z) (text : string) : Reply :=
  Answer {| status := code; retry_after := Absent; body := text |}.

(** The outcome that a final, non-429 response produces. *)
Definition outcome_of (r : Response) : result string :=
  if bool_decide (400 ≤ status r)%Z then Raise "API error"
  else Return (body r).

(** The outcome the specification asks for on a second 429 in a row. *)
Definition RateLimitExceeded : result string := Raise "RateLimitExceeded".

(** An entry of [rateLimits] in the exchange information, as the three
    [limit.get(...)] calls read it: a missing key gives [None]. *)
Record RateLimitEntry := {
  rateLimitType : option string;
  interval : option string;
  limit : option Z
}.

(** The body of the loop of [_parse_rate_limits]. *)
Definition parse_entry (limits : RateLimiter.RateLimit)
  (entry : RateLimitEntry) : RateLimiter.RateLimit :=
  let limit_type := rateLimitType entry in
  let interval := interval entry in
  let limit_value := default 0%Z (limit entry) in
  if bool_decide (limit_type = Some "REQUEST_WEIGHT") then
    if bool_decide (interval = Some "SECOND") then
      {| RateLimiter.requests_per_second :=
           RateLimiter.requests_per_second limits;
         RateLimiter.requests_per_minute :=
           RateLimiter.requests_per_minute limits;
         RateLimiter.requests_per_day := RateLimiter.requests_per_day limits;
         RateLimiter.weight_per_second := limit_value;
         RateLimiter.weight_per_minute := RateLimiter.weight_per_minute limits;
         RateLimiter.weight_per_day := RateLimiter.weight_per_day limits |}
    else if bool_decide (interval = Some "MINUTE") then
      {| RateLimiter.requests_per_second :=
           RateLimiter.requests_per_second limits;
         RateLimiter.requests_per_minute :=
           RateLimiter.requests_per_minute limits;
         RateLimiter.requests_per_day := RateLimiter.requests_per_day limits;
         RateLimiter.weight_per_second := RateLimiter.weight_per_second limits;
         RateLimiter.weight_per_minute := limit_value;
         RateLimiter.weight_per_day := RateLimiter.weight_per_day limits |}
    else if bool_decide (interval = Some "DAY") then
      {| RateLimiter.requests_per_second :=
           RateLimiter.requests_per_second limits;
         RateLimiter.requests_per_minute :=
           RateLimiter.requests_per_minute limits;
         RateLimiter.requests_per_day := RateLimiter.requests_per_day limits;
         RateLimiter.weight_per_second := RateLimiter.weight_per_second limits;
         RateLimiter.weight_per_minute := RateLimiter.weight_per_minute limits;
         RateLimiter.weight_per_day := limit_value |}
    else limits
  else if bool_decide (limit_type = Some "ORDERS") then
    if bool_decide (interval = Some "SECOND") then
      {| RateLimiter.requests_per_second := limit_value;
         RateLimiter.requests_per_minute :=
           RateLimiter.requests_per_minute limits;
         RateLimiter.requests_per_day := RateLimiter.requests_per_day limits;
         RateLimiter.weight_per_second := RateLimiter.weight_per_second limits;
         RateLimiter.weight_per_minute := RateLimiter.weight_per_minute limits;
         RateLimiter.weight_per_day := RateLimiter.weight_per_day limits |}
    else if bool_decide (interval = Some "MINUTE") then
      {| RateLimiter.requests_per_second :=
           RateLimiter.requests_per_second limits;
         RateLimiter.requests_per_minute := limit_value;
         RateLimiter.requests_per_day := RateLimiter.requests_per_day limits;
         RateLimiter.weight_per_second := RateLimiter.weight_per_second limits;
         RateLimiter.weight_per_minute := RateLimiter.weight_per_minute limits;
         RateLimiter.weight_per_day := RateLimiter.weight_per_day limits |}
    else if bool_decide (interval = Some "DAY") then
      {| RateLimiter.requests_per_second :=
           RateLimiter.requests_per_second limits;
         RateLimiter.requests_per_minute :=
           RateLimiter.requests_per_minute limits;
         RateLimiter.requests_per_day := limit_value;
         RateLimiter.weight_per_second := RateLimiter.weight_per_second limits;
         RateLimiter.weight_per_minute := RateLimiter.weight_per_minute limits;
         RateLimiter.weight_per_day := RateLimiter.weight_per_day limits |}
    else limits
  else limits.

(** [_parse_rate_limits]: the loop over the entries, started from the
    conservative limits. *)
Definition _parse_rate_limits (rate_limits : list RateLimitEntry)
  : RateLimiter.RateLimit :=
  let limits :=
    {| RateLimiter.requests_per_second := 10;
       RateLimiter.requests_per_minute := 1200;
       RateLimiter.requests_per_day := 200000;
       RateLimiter.weight_per_second := 1200;
       RateLimiter.weight_per_minute := 6000;
       RateLimiter.weight_per_day := 1000000 |} in
  foldl parse_entry limits rate_limits.

(** [_load_exchange_info], as far as the rate limiter goes. [exchange_info]
    is what [get_exchange_info] gives: the [rate_limits] of the answer, or
    the exception of the request, which is caught and logged. [self] is the
    limiter as that request leaves it, [now] the clock readings at which the
    new buckets are created. *)
Definition _load_exchange_info (exchange_info : result (list RateLimitEntry))
  (now : RateLimiter.BucketId → Decimal) (self : RateLimiter.RateLimiter)
  : RateLimiter.RateLimiter :=
  match exchange_info with
  | Return [] => self
  | Return rate_limits =>
      RateLimiter.update_rate_limits (_parse_rate_limits rate_limits) now self
  | Raise _ => self
  end.

(** The quota an entry sets: the pair of [rateLimitType] and [interval]
    that leads to the assignment of that attribute. *)
Definition targets (entry : RateLimitEntry) (i : RateLimiter.BucketId)
  : bool :=
  match i with
  | RateLimiter.ReqSecond =>
      bool_decide (rateLimitType entry = Some "ORDERS")
      && bool_decide (interval entry = Some "SECOND")
  | RateLimiter.ReqMinute =>
      bool_decide (rateLimitType entry = Some "ORDERS")
      && bool_decide (interval entry = Some "MINUTE")
  | RateLimiter.ReqDay =>
      bool_decide (rateLimitType entry = Some "ORDERS")
      && bool_decide (interval entry = Some "DAY")
  | RateLimiter.WeightSecond =>
      bool_decide (rateLimitType entry = Some "REQUEST_WEIGHT")
      && bool_decide (interval entry = Some "SECOND")
  | RateLimiter.WeightMinute =>
      bool_decide (rateLimitType entry = Some "REQUEST_WEIGHT")
      && bool_decide (interval entry = Some "MINUTE")
  | RateLimiter.WeightDay =>
      bool_decide (rateLimitType entry = Some "REQUEST_WEIGHT")
      && bool_decide (interval entry = Some "DAY")
  end.

(** The values that the entries give for a quota, in the order of the
    entries. *)
Definition advertised_quotas (i : RateLimiter.BucketId)
  (rate_limits : list RateLimitEntry) : list Z :=
  omap (λ entry, if targets entry i then Some (default 0%Z (limit entry))
                 else None) rate_limits.

End Rest.

(** ** Numbers of mixed type

    The parameters of a strategy are read from a configuration dictionary:
    they are [int], [float] or [Decimal] objects, and the arithmetic of the
    strategy mixes them with [Decimal] prices and inventories. Python adds,
    subtracts, multiplies and divides a [Decimal] and an [int] into a
    [Decimal], and raises [TypeError] on a [Decimal] and a [float].
    Comparisons are allowed between all three. A [float] is represented by
    the rational it stands for. *)

Inductive Number :=
| PyDecimal (d : Decimal)
| PyFloat (x : Qc)
| PyInt (z : Z).

Definition num_value (n : Number) : Qc :=
  match n with
  | PyDecimal d => d
  | PyFloat x => x
  | PyInt z => Qc_of_Z z
  end.

(** [a + b], [a - b] and [a * b]. *)
Definition py_arith {S} (on_Qc : Qc → Qc → Qc) (on_Z : Z → Z → Z)
  (a b : Number) : py S Number :=
  match a, b with
  | PyDecimal x, PyDecimal y => mret (PyDecimal (on_Qc x y))
  | PyDecimal x, PyInt z => mret (PyDecimal (on_Qc x (Qc_of_Z z)))
  | PyInt z, PyDecimal y => mret (PyDecimal (on_Qc (Qc_of_Z z) y))
  | PyDecimal _, PyFloat _ => raise "TypeError"
  | PyFloat _, PyDecimal _ => raise "TypeError"
  | PyFloat x, PyFloat y => mret (PyFloat (on_Qc x y))
  | PyFloat x, PyInt z => mret (PyFloat (on_Qc x (Qc_of_Z z)))
  | PyInt z, PyFloat y => mret (PyFloat (on_Qc (Qc_of_Z z) y))
  | PyInt x, PyInt y => mret (PyInt (on_Z x y))
  end.

Definition py_add {S} : Number → Number → py S Number :=
  py_arith Qcplus Z.add.

Definition py_sub {S} : Number → Number → py S Number :=
  py_arith Qcminus Z.sub.

Definition py_mul {S} : Number → Number → py S Number :=
  py_arith Qcmult Z.mul.

(** [a / b]: a [Decimal] when one operand is a [Decimal], a [float]
    otherwise; a zero divisor raises ([decimal.DivisionByZero],
    [decimal.InvalidOperation] or [ZeroDivisionError]). *)
Definition py_div {S} (a b : Number) : py S Number :=
  match a, b with
  | PyDecimal _, PyFloat _ => raise "TypeError"
  | PyFloat _, PyDecimal _ => raise "TypeError"
  | PyDecimal _, _ | _, PyDecimal _ =>
      if bool_decide (num_value b = 0) then raise "ZeroDivisionError"
      else mret (PyDecimal (num_value a / num_value b))
  | _, _ =>
      if bool_decide (num_value b = 0) then raise "ZeroDivisionError"
      else mret (PyFloat (num_value a / num_value b))
  end.

Definition py_abs (a : Number) : Number :=
  match a with
  | PyDecimal d => PyDecimal (Qcabs d)
  | PyFloat x => PyFloat (Qcabs x)
  | PyInt z => PyInt (Z.abs z)
  end.

(** [min(a, b)] and [max(a, b)]: the first argument unless the second is
    strictly smaller, respectively larger. *)
Definition py_min (a b : Number) : Number :=
  if bool_decide (num_value b < num_value a) then b else a.

Definition py_max (a b : Number) : Number :=
  if bool_decide (num_value a < num_value b) then b else a.

(** ** bot/strategies/market_maker.py *)

Module MarketMaker.

Record OrderBookLevel := {
  lvl_price : Decimal;
  lvl_quantity : Decimal
}.

Record OrderBook := {
  ob_symbol : string;
  ob_bids : list OrderBookLevel;
  ob_asks : list OrderBookLevel;
  ob_last_update_id : Z
}.

(** [MarketMakerStrategy], with the attributes of [StrategyBase] that the
    quoting path reads. The five parameters are the objects that
    [config.get] returns. [on_signal], when a callback is installed, is the
    predicate telling for which signals the callback raises. [emitted] lists
    the signals built by [generate_signal], oldest first; each one is handed
    to the callback. *)
Record MarketMakerStrategy := {
  name : string;
  spread_pct : Number;
  inventory_bias : Number;
  refresh_interval : Number;
  max_inventory : Number;
  order_size : Number;
  volatility : gmap string Decimal;
  last_refresh : gmap string Decimal;
  active_orders : gmap string (list string);
  orderbooks : gmap string OrderBook;
  positions : gmap string Decimal;
  on_signal : option (TradingSignal → bool);
  signals_generated : nat;
  emitted : list TradingSignal
}.

Definition get_position (symbol : string) (self : MarketMakerStrategy)
  : Decimal :=
  default 0 (positions self !! symbol).

Definition get_orderbook (symbol : string) (self : MarketMakerStrategy)
  : option OrderBook :=
  orderbooks self !! symbol.

(** [level[key]] on an [OrderBookLevel]: the class is a pydantic model
    without [__getitem__], so the subscription raises [TypeError]. *)
Definition getitem (level : OrderBookLevel) (key : string)
  : py MarketMakerStrategy Number :=
  raise "TypeError".

(** [_calculate_fair_price]: zero when a side of the book is empty; on a
    two-sided book the first statement subscripts the best bid, and the
    [except] clause returns zero. *)
Definition _calculate_fair_price (symbol : string) (orderbook : OrderBook)
  : py MarketMakerStrategy Number :=
  try_except
    (match ob_bids orderbook, ob_asks orderbook with
     | bid :: _, ask :: _ =>
         best_bid ← getitem bid "price";
         best_ask ← getitem ask "price";
         total ← py_add best_bid best_ask;
         mid_price ← py_div total (PyInt 2);
         self ← get;
         let inventory := PyDecimal (get_position symbol self) in
         skew ← py_mul (inventory_bias self) inventory;
         py_add mid_price skew
     | _, _ => mret (PyDecimal 0)
     end)
    (λ _, mret (PyDecimal 0)).

(** [_calculate_spread]. The [except] clause evaluates
    [fair_price * self.spread_pct] again, and what that raises leaves the
    method. *)
Definition _calculate_spread (symbol : string) (fair_price : Number)
  : py MarketMakerStrategy Number :=
  try_except
    (self ← get;
     base_spread ← py_mul fair_price (spread_pct self);
     let volatility := PyDecimal (default 0 (volatility self !! symbol)) in
     doubled ← py_mul volatility (PyInt 2);
     volatility_adjustment ← py_add (PyInt 1) doubled;
     let inventory := PyDecimal (get_position symbol self) in
     used ← py_div (py_abs inventory) (max_inventory self);
     halved ← py_mul used (PyFloat (dec 0.5));
     inventory_adjustment ← py_add (PyInt 1) halved;
     scaled ← py_mul base_spread volatility_adjustment;
     spread ← py_mul scaled inventory_adjustment;
     min_spread ← py_mul fair_price (PyDecimal (dec 0.0001));
     mret (py_max spread min_spread))
    (λ _, self ← get; py_mul fair_price (spread_pct self)).

Definition set_quoting (orders : gmap string (list string))
  (refreshed : gmap string Decimal) (generated : nat)
  (signals : list TradingSignal) (self : MarketMakerStrategy)
  : MarketMakerStrategy :=
  {| name := name self;
     spread_pct := spread_pct self;
     inventory_bias := inventory_bias self;
     refresh_interval := refresh_interval self;
     max_inventory := max_inventory self;
     order_size := order_size self;
     volatility := volatility self;
     last_refresh := refreshed;
     active_orders := orders;
     orderbooks := orderbooks self;
     positions := positions self;
     on_signal := on_signal self;
     signals_generated := generated;
     emitted := signals |}.

(** [StrategyBase.generate_signal], for the LIMIT/GTC quotes of the market
    maker: the signal is built, its quantity and price converted to
    [Decimal] by the model, and handed to the callback; the counter is
    incremented unless the callback raises, and the exception is caught.
    The metadata of the signal is left out. *)
Definition generate_signal (symbol : string) (side : OrderSide)
  (quantity price : Number) : py MarketMakerStrategy () :=
  try_except
    (self ← get;
     let signal :=
       {| sig_symbol := symbol; sig_side := side;
          sig_quantity := num_value quantity;
          sig_price := Some (num_value price); sig_order_type := LIMIT;
          sig_time_in_force := GTC; sig_stop_price := None;
          sig_strategy_name := name self; sig_confidence := dec 0.9 |} in
     modify (λ self,
       set_quoting (active_orders self) (last_refresh self)
         (signals_generated self) (emitted self ++ [signal]) self) ;;
     match on_signal self with
     | Some callback =>
         if callback signal then raise "on_signal" else mret ()
     | None => mret ()
     end ;;
     modify (λ self,
       set_quoting (active_orders self) (last_refresh self)
         (S (signals_generated self)) (emitted self) self))
    (λ _, mret ()).

Definition _place_bid_order (symbol : string) (price : Number)
  : py MarketMakerStrategy () :=
  try_except
    (self ← get;
     let inventory := PyDecimal (get_position symbol self) in
     max_size ← py_sub (max_inventory self) inventory;
     if bool_decide (num_value max_size <= 0) then mret ()
     else
       let order_size := py_min (order_size self) max_size in
       generate_signal symbol BUY order_size price)
    (λ _, mret ()).

Definition _place_ask_order (symbol : string) (price : Number)
  : py MarketMakerStrategy () :=
  try_except
    (self ← get;
     let inventory := PyDecimal (get_position symbol self) in
     max_size ← py_add (max_inventory self) inventory;
     if bool_decide (num_value max_size <= 0) then mret ()
     else
       let order_size := py_min (order_size self) max_size in
       generate_signal symbol SELL order_size price)
    (λ _, mret ()).

Definition _cancel_existing_orders (symbol : string)
  : py MarketMakerStrategy () :=
  modify (λ self,
    set_quoting (<[symbol := []]> (active_orders self)) (last_refresh self)
      (signals_generated self) (emitted self) self).

(** [_refresh_orders], with [now] the reading of [time.time()] stored as the
    refresh time. *)
Definition _refresh_orders (now : Decimal) (symbol : string)
  : py MarketMakerStrategy () :=
  try_except
    (_cancel_existing_orders symbol ;;
     self ← get;
     match get_orderbook symbol self with
     | None => mret ()
     | Some orderbook =>
         fair_price ← _calculate_fair_price symbol orderbook;
         spread ← _calculate_spread symbol fair_price;
         half ← py_div spread (PyInt 2);
         quote_bid ← py_sub fair_price half;
         half ← py_div spread (PyInt 2);
         quote_ask ← py_add fair_price half;
         (if bool_decide (0 < num_value quote_bid)
          then _place_bid_order symbol quote_bid else mret ()) ;;
         (if bool_decide (0 < num_value quote_ask)
          then _place_ask_order symbol quote_ask else mret ()) ;;
         modify (λ self,
           set_quoting (active_orders self)
             (<[symbol := now]> (last_refresh self))
             (signals_generated self) (emitted self) self)
     end)
    (λ _, mret ()).

(** A quote as a signal of a strategy. *)
Definition quote (strategy_name symbol : string) (side : OrderSide)
  (quantity price : Decimal) : TradingSignal :=
  {| sig_symbol := symbol; sig_side := side; sig_quantity := quantity;
     sig_price := Some price; sig_order_type := LIMIT;
     sig_time_in_force := GTC; sig_stop_price := None;
     sig_strategy_name := strategy_name; sig_confidence := dec 0.9 |}.

(** The fair price, the spread and the quotes of a refresh as the
    specification words them: fairPrice = mid + inventoryBias * inventory;
    spread = basePct * fairPrice * (1 + 2 sigma)
    * (1 + |inventory| / maxInventory * 0.5), with a floor of one basis
    point of the fair price; the bid at fair - spread/2 and the ask at
    fair + spread/2, with sizes min(orderSize, maxInventory - inventory)
    and min(orderSize, maxInventory + inventory); a side whose size is <= 0
    is not quoted. These three definitions follow the specification, not
    the code. *)
Definition spec_fair_price (mid inventory_bias inventory : Decimal)
  : Decimal :=
  mid + inventory_bias * inventory.

Definition spec_spread (base_pct fair_price sigma inventory
  max_inventory : Decimal) : Decimal :=
  Qcmax
    (base_pct * fair_price * (1 + dec 2 * sigma)
     * (1 + Qcabs inventory / max_inventory * dec 0.5))
    (fair_price * dec 0.0001).

Definition spec_quotes (strategy_name symbol : string)
  (order_size max_inventory inventory fair_price spread : Decimal)
  : list TradingSignal :=
  let bid_size := Qcmin order_size (max_inventory - inventory) in
  let ask_size := Qcmin order_size (max_inventory + inventory) in
  (if bool_decide (bid_size <= 0) then []
   else [quote strategy_name symbol BUY bid_size
           (fair_price - spread / dec 2)])
  ++ (if bool_decide (ask_size <= 0) then []
      else [quote strategy_name symbol SELL ask_size
              (fair_price + spread / dec 2)]).

(** Concrete inputs used in the examples: the strategy as the tests build
    it, [MarketMakerStrategy("mm", {'spread_pct': 0.001, 'inventory_bias':
    0.1, 'refresh_interval': 5, 'max_inventory': 1000, 'order_size': 100},
    ["BTCUSDT"])], holding 500 BTCUSDT and a book of 99 bid, 101 asked. *)

Definition c8_book : OrderBook :=
  {| ob_symbol := "BTCUSDT";
     ob_bids := [{| lvl_price := dec 99; lvl_quantity := 1 |}];
     ob_asks := [{| lvl_price := dec 101; lvl_quantity := 1 |}];
     ob_last_update_id := 1 |}.

Definition c8_strategy : MarketMakerStrategy :=
  {| name := "mm";
     spread_pct := PyFloat (dec 0.001);
     inventory_bias := PyFloat (dec 0.1);
     refresh_interval := PyInt 5;
     max_inventory := PyInt 1000;
     order_size := PyInt 100;
     volatility := {["BTCUSDT" := 0]};
     last_refresh := {["BTCUSDT" := 0]};
     active_orders := {["BTCUSDT" := []]};
     orderbooks := {["BTCUSDT" := c8_book]};
     positions := {["BTCUSDT" := dec 500]};
     on_signal := None;
     signals_generated := 0;
     emitted := [] |}.

End MarketMaker.

(** ** bot/backtest.py *)

Module Backtest.

Record Kline := {
  k_symbol : string;
  k_open_time : datetime;
  k_close_time : datetime;
  k_open_price : Decimal;
  k_high_price : Decimal;
  k_low_price : Decimal;
  k_close_price : Decimal;
  k_volume : Decimal
}.

Record MarketData := {
  md_symbol : string;
  md_timestamp : datetime;
  md_price : Decimal;
  md_volume : Decimal;
  md_side : OrderSide
}.

Record BacktestResult := {
  res_strategy_name : string;
  res_start_date : string;
  res_end_date : string;
  res_initial_capital : Decimal;
  res_final_capital : Decimal;
  res_total_return : Decimal;
  res_total_return_pct : Decimal;
  res_max_drawdown : Decimal;
  res_max_drawdown_pct : Decimal;
  res_sharpe_ratio : Decimal;
  res_win_rate : Decimal;
  res_total_trades : nat;
  res_winning_trades : nat;
  res_losing_trades : nat;
  res_avg_win : Decimal;
  res_avg_loss : Decimal;
  res_profit_factor : Decimal;
  res_trades : list Fill
}.

(** The attributes of a [Backtester]. [daily_pnl] is the dictionary keyed by
    calendar day, in insertion order. The generator of the [random] module,
    which [__init__] seeds, is global to the interpreter and not an
    attribute: it is threaded through the functions below as a separate
    argument. *)
Record Backtester := {
  start_date : string;
  end_date : string;
  initial_capital : Decimal;
  commission : Decimal;
  slippage : Decimal;
  current_time : option datetime;
  current_capital : Decimal;
  positions : gmap string Decimal;
  entry_prices : gmap string Decimal;
  trades : list Fill;
  orders : list Order;
  daily_pnl : list (Z * Decimal);
  max_drawdown : Decimal;
  peak_capital : Decimal;
  total_fees : Decimal;
  total_slippage : Decimal;
  historical_data : gmap string (list Kline);
  current_prices : gmap string Decimal;
  latency_mean : Decimal;
  latency_std : Decimal;
  latency_distribution : string
}.

(** The configuration values read by [__init__]. *)
Record BacktestConfig := {
  cfg_start_date : string;
  cfg_end_date : string;
  cfg_initial_capital : Decimal;
  cfg_commission : Decimal;
  cfg_slippage : Decimal
}.

(** A strategy as the backtester sees it: its name, and its reaction to a
    market-data event, which is a new strategy state and the signals it
    hands to [on_signal], in order. *)
Record Strategy (S : Type) := {
  name : string;
  on_market_data : MarketData → S → S * list TradingSignal
}.
Arguments name {S} _.
Arguments on_market_data {S} _ _ _.

Section backtester.

(** The [random] module: the generator states, seeding, and a draw of
    [normalvariate(mu, sigma)], which returns the sample and the next
    state. [sqrt] is [math.sqrt]. *)
Context {RNG : Type}.
Variable seed : Z → RNG.
Variable normalvariate : Decimal → Decimal → RNG → Decimal * RNG.
Variable sqrt : Decimal → Decimal.

Definition __init__ (config : BacktestConfig) : RNG * Backtester :=
  (seed 42,
   {| start_date := cfg_start_date config;
      end_date := cfg_end_date config;
      initial_capital := cfg_initial_capital config;
      commission := cfg_commission config;
      slippage := cfg_slippage config;
      current_time := None;
      current_capital := cfg_initial_capital config;
      positions := ∅; entry_prices := ∅; trades := []; orders := [];
      daily_pnl := []; max_drawdown := 0;
      peak_capital := cfg_initial_capital config;
      total_fees := 0; total_slippage := 0;
      historical_data := ∅; current_prices := ∅;
      latency_mean := dec 50; latency_std := dec 10;
      latency_distribution := "normal" |}).

Definition _simulate_latency (g : RNG) (self : Backtester) : Decimal * RNG :=
  let '(latency, g') :=
    if bool_decide (latency_distribution self = "normal")
    then normalvariate (latency_mean self) (latency_std self) g
    else (latency_mean self, g) in
  (Qcmax 0 latency, g').

(** [_calculate_execution_price]. A LIMIT order without a price makes the
    comparison raise; the [except] clause returns the current price. *)
Definition _calculate_execution_price (order : Order)
  (current_price : Decimal) (self : Backtester) : Decimal :=
  match ord_type order with
  | MARKET =>
      match ord_side order with
      | BUY => current_price + current_price * slippage self
      | SELL => current_price - current_price * slippage self
      end
  | LIMIT =>
      match ord_price order with
      | Some price =>
          match ord_side order with
          | BUY => if bool_decide (current_price <= price) then price
                   else current_price
          | SELL => if bool_decide (price <= current_price) then price
                    else current_price
          end
      | None => current_price
      end
  | _ => current_price
  end.

(** The stores of [_execute_order] after the fill has been built. *)
Definition book_fill (fill : Fill) (current_price : Decimal)
  (self : Backtester) : Backtester :=
  let symbol := fill_symbol fill in
  let quantity := fill_quantity fill in
  let execution_price := fill_price fill in
  let notional := quantity * execution_price in
  let fee := fill_commission fill in
  let position :=
    match fill_side fill with
    | BUY => default 0 (positions self !! symbol) + quantity
    | SELL => default 0 (positions self !! symbol) - quantity
    end in
  {| start_date := start_date self;
     end_date := end_date self;
     initial_capital := initial_capital self;
     commission := commission self;
     slippage := slippage self;
     current_time := current_time self;
     current_capital :=
       match fill_side fill with
       | BUY => current_capital self - (notional + fee)
       | SELL => current_capital self + (notional - fee)
       end;
     positions := <[symbol := position]> (positions self);
     entry_prices :=
       if bool_decide (position ≠ 0)
       then <[symbol := execution_price]> (entry_prices self)
       else entry_prices self;
     trades := trades self ++ [fill];
     orders := orders self;
     daily_pnl := daily_pnl self;
     max_drawdown := max_drawdown self;
     peak_capital := peak_capital self;
     total_fees := total_fees self + fee;
     total_slippage :=
       total_slippage self + Qcabs (execution_price - current_price) * quantity;
     historical_data := historical_data self;
     current_prices := current_prices self;
     latency_mean := latency_mean self;
     latency_std := latency_std self;
     latency_distribution := latency_distribution self |}.

(** [_execute_order]. The order object is mutated in place: the function
    returns it next to the generator and the backtester. The sleep of the
    simulated latency passes real time only and is left out. *)
Definition _execute_order (order : Order) (g : RNG) (self : Backtester)
  : Order * RNG * Backtester :=
  let '(latency, g') := _simulate_latency g self in
  let current_price := default 0 (current_prices self !! ord_symbol order) in
  if bool_decide (current_price = 0) then
    (with_status REJECTED order, g', self)
  else
    let execution_price :=
      _calculate_execution_price order current_price self in
    let notional := ord_quantity order * execution_price in
    let fee := notional * commission self in
    let fill :=
      {| fill_symbol := ord_symbol order;
         fill_order_id := Z.of_nat (length (orders self));
         fill_trade_id := Z.of_nat (length (trades self)) + 1;
         fill_side := ord_side order;
         fill_quantity := ord_quantity order;
         fill_price := execution_price;
         fill_commission := fee;
         fill_commission_asset := "USDT";
         fill_timestamp := current_time self;
         fill_is_maker := false |} in
    ({| ord_symbol := ord_symbol order;
        ord_order_id := ord_order_id order;
        ord_client_order_id := ord_client_order_id order;
        ord_side := ord_side order;
        ord_type := ord_type order;
        ord_quantity := ord_quantity order;
        ord_price := ord_price order;
        ord_stop_price := ord_stop_price order;
        ord_time_in_force := ord_time_in_force order;
        ord_status := FILLED;
        ord_executed_qty := ord_quantity order;
        ord_cummulative_quote_qty := notional;
        ord_avg_price := Some execution_price;
        ord_created_at := ord_created_at order |},
     g', book_fill fill current_price self).

Definition set_orders (os : list Order) (self : Backtester) : Backtester :=
  {| start_date := start_date self;
     end_date := end_date self;
     initial_capital := initial_capital self;
     commission := commission self;
     slippage := slippage self;
     current_time := current_time self;
     current_capital := current_capital self;
     positions := positions self;
     entry_prices := entry_prices self;
     trades := trades self;
     orders := os;
     daily_pnl := daily_pnl self;
     max_drawdown := max_drawdown self;
     peak_capital := peak_capital self;
     total_fees := total_fees self;
     total_slippage := total_slippage self;
     historical_data := historical_data self;
     current_prices := current_prices self;
     latency_mean := latency_mean self;
     latency_std := latency_std self;
     latency_distribution := latency_distribution self |}.

(** [_handle_signal]: the new order is appended to [self.orders] and then
    executed; the list holds the order object, so it shows the order as
    [_execute_order] leaves it. *)
Definition _handle_signal (signal : TradingSignal) (g : RNG)
  (self : Backtester) : RNG * Backtester :=
  let order :=
    {| ord_symbol := sig_symbol signal;
       ord_order_id := None;
       ord_client_order_id := None;
       ord_side := sig_side signal;
       ord_type := sig_order_type signal;
       ord_quantity := sig_quantity signal;
       ord_price := sig_price signal;
       ord_stop_price := None;
       ord_time_in_force := sig_time_in_force signal;
       ord_status := NEW;
       ord_executed_qty := 0;
       ord_cummulative_quote_qty := 0;
       ord_avg_price := None;
       ord_created_at := current_time self |} in
  let appended := set_orders (orders self ++ [order]) self in
  let '(order', g', self') := _execute_order order g appended in
  (g', set_orders (orders self ++ [order']) self').

Definition handle_signals (signals : list TradingSignal) (g : RNG)
  (self : Backtester) : RNG * Backtester :=
  foldl (λ '(g, self) signal, _handle_signal signal g self) (g, self) signals.

(** The value of the account: the capital plus every open position at the
    current price of its symbol. *)
Definition portfolio_value (self : Backtester) : Decimal :=
  current_capital self
  + map_fold
      (λ symbol position acc,
         if bool_decide (position ≠ 0) then
           match current_prices self !! symbol with
           | Some current_price => acc + position * current_price
           | None => acc
           end
         else acc)
      0 (positions self).

(** [d[k] = v] on a dictionary kept in insertion order. *)
Fixpoint dict_set (k : Z) (v : Decimal) (d : list (Z * Decimal))
  : list (Z * Decimal) :=
  match d with
  | [] => [(k, v)]
  | (k', v') :: rest =>
      if bool_decide (k = k') then (k, v) :: rest
      else (k', v') :: dict_set k v rest
  end.

(** [t.date()], as a number of days. *)
Definition date (t : datetime) : Z := (t / 86400)%Z.

Definition set_performance (peak max_dd : Decimal) (daily : list (Z * Decimal))
  (self : Backtester) : Backtester :=
  {| start_date := start_date self;
     end_date := end_date self;
     initial_capital := initial_capital self;
     commission := commission self;
     slippage := slippage self;
     current_time := current_time self;
     current_capital := current_capital self;
     positions := positions self;
     entry_prices := entry_prices self;
     trades := trades self;
     orders := orders self;
     daily_pnl := daily;
     max_drawdown := max_dd;
     peak_capital := peak;
     total_fees := total_fees self;
     total_slippage := total_slippage self;
     historical_data := historical_data self;
     current_prices := current_prices self;
     latency_mean := latency_mean self;
     latency_std := latency_std self;
     latency_distribution := latency_distribution self |}.

(** [_update_performance_metrics]. With a peak of zero the division raises
    and the [except] clause ends the update after the peak has been
    stored. *)
Definition _update_performance_metrics (self : Backtester) : Backtester :=
  let value := portfolio_value self in
  let peak :=
    if bool_decide (peak_capital self < value) then value
    else peak_capital self in
  if bool_decide (peak = 0) then
    set_performance peak (max_drawdown self) (daily_pnl self) self
  else
    let drawdown := (peak - value) / peak in
    let max_dd :=
      if bool_decide (max_drawdown self < drawdown) then drawdown
      else max_drawdown self in
    let daily :=
      match current_time self with
      | Some t => dict_set (date t) (value - initial_capital self)
                    (daily_pnl self)
      | None => daily_pnl self
      end in
    set_performance peak max_dd daily self.

Definition set_market (t : option datetime) (prices : gmap string Decimal)
  (self : Backtester) : Backtester :=
  {| start_date := start_date self;
     end_date := end_date self;
     initial_capital := initial_capital self;
     commission := commission self;
     slippage := slippage self;
     current_time := t;
     current_capital := current_capital self;
     positions := positions self;
     entry_prices := entry_prices self;
     trades := trades self;
     orders := orders self;
     daily_pnl := daily_pnl self;
     max_drawdown := max_drawdown self;
     peak_capital := peak_capital self;
     total_fees := total_fees self;
     total_slippage := total_slippage self;
     historical_data := historical_data self;
     current_prices := prices;
     latency_mean := latency_mean self;
     latency_std := latency_std self;
     latency_distribution := latency_distribution self |}.

(** [_initialize_backtest]: the books are reset and every symbol gets the
    close of its first bar as current price, or zero without data. *)
Definition _initialize_backtest (data : gmap string (list Kline))
  (symbols : list string) (self : Backtester) : Backtester :=
  {| start_date := start_date self;
     end_date := end_date self;
     initial_capital := initial_capital self;
     commission := commission self;
     slippage := slippage self;
     current_time := current_time self;
     current_capital := initial_capital self;
     positions := ∅;
     entry_prices := ∅;
     trades := [];
     orders := [];
     daily_pnl := [];
     max_drawdown := 0;
     peak_capital := initial_capital self;
     total_fees := 0;
     total_slippage := 0;
     historical_data := data;
     current_prices :=
       foldl (λ prices symbol,
                match data !! symbol with
                | Some (first :: _) =>
                    <[symbol := k_close_price first]> prices
                | _ => <[symbol := 0]> prices
                end)
         (current_prices self) symbols;
     latency_mean := latency_mean self;
     latency_std := latency_std self;
     latency_distribution := latency_distribution self |}.

Section simulation.

Context {S : Type}.
Variable strategy : Strategy S.

(** The open times of all bars of the traded symbols, sorted, each once. *)
Definition timestamps (symbols : list string) (self : Backtester)
  : list datetime :=
  merge_sort Z.le
    (remove_dups
       (symbols ≫= λ symbol,
          match historical_data self !! symbol with
          | Some klines => k_open_time <$> klines
          | None => []
          end)).

(** One symbol at one timestamp: the first bar of the symbol that opens at
    the timestamp sets the current price and is shown to the strategy,
    whose signals are handled at once. *)
Definition step_symbol (timestamp : datetime) (state : S * RNG * Backtester)
  (symbol : string) : S * RNG * Backtester :=
  let '(st, g, self) := state in
  match historical_data self !! symbol with
  | Some klines =>
      match List.find (λ k, bool_decide (k_open_time k = timestamp)) klines with
      | Some kline =>
          let self1 :=
            set_market (current_time self)
              (<[symbol := k_close_price kline]> (current_prices self)) self in
          let market_data :=
            {| md_symbol := symbol; md_timestamp := timestamp;
               md_price := k_close_price kline; md_volume := k_volume kline;
               md_side := BUY |} in
          let '(st', signals) := on_market_data strategy market_data st in
          let '(g', self2) := handle_signals signals g self1 in
          (st', g', self2)
      | None => state
      end
  | None => state
  end.

Definition step_timestamp (symbols : list string)
  (state : S * RNG * Backtester) (timestamp : datetime)
  : S * RNG * Backtester :=
  let '(st, g, self) := state in
  let self1 := set_market (Some timestamp) (current_prices self) self in
  let '(st', g', self2) :=
    foldl (step_symbol timestamp) (st, g, self1) symbols in
  (st', g', _update_performance_metrics self2).

Definition _run_simulation (symbols : list string)
  (state : S * RNG * Backtester) : S * RNG * Backtester :=
  foldl (step_timestamp symbols) state (timestamps symbols state.2).

Definition sum_list (l : list Decimal) : Decimal := foldr Qcplus 0 l.

(** [_calculate_sharpe_ratio]. The float arithmetic is exact here. With a
    zero initial capital the division raises and the [except] clause
    returns zero. *)
Definition _calculate_sharpe_ratio (self : Backtester) : Decimal :=
  if bool_decide (length (daily_pnl self) < 2)%nat then 0
  else if bool_decide (initial_capital self = 0) then 0
  else
    let pnl_values := (daily_pnl self).*2 in
    let daily_returns :=
      zip_with (λ previous current,
                  (current - previous) / initial_capital self)
        pnl_values (tail pnl_values) in
    if bool_decide (length daily_returns < 2)%nat then 0
    else
      let n := Qc_of_Z (Z.of_nat (length daily_returns)) in
      let mean_return := sum_list daily_returns / n in
      let variance :=
        sum_list ((λ r, (r - mean_return) * (r - mean_return))
                    <$> daily_returns) / n in
      let std_dev := sqrt variance in
      if bool_decide (std_dev = 0) then 0 else mean_return / std_dev.

Definition count_side (side : OrderSide) (fills : list Fill) : nat :=
  length (List.filter (λ f, bool_decide (fill_side f = side)) fills).

(** [_calculate_results]. A zero initial capital makes the return
    percentage raise; the exception leaves the method. *)
Definition _calculate_results (self : Backtester) : result BacktestResult :=
  let final_capital := portfolio_value self in
  let total_return := final_capital - initial_capital self in
  if bool_decide (initial_capital self = 0) then Raise "DivisionByZero"
  else
    let total_return_pct := total_return / initial_capital self in
    let sharpe_ratio := _calculate_sharpe_ratio self in
    let total_trades := length (trades self) in
    let winning_trades := count_side BUY (trades self) in
    let losing_trades := count_side SELL (trades self) in
    let win_rate :=
      if bool_decide (0 < total_trades)%nat
      then Qc_of_Z (Z.of_nat winning_trades)
           / Qc_of_Z (Z.of_nat total_trades)
      else 0 in
    let avg_win :=
      if bool_decide (0 < winning_trades)%nat
      then total_return / Qc_of_Z (Z.of_nat winning_trades) else 0 in
    let avg_loss :=
      if bool_decide (0 < losing_trades)%nat
      then Qcabs total_return / Qc_of_Z (Z.of_nat losing_trades) else 0 in
    let profit_factor :=
      if bool_decide (0 < avg_loss) then avg_win / avg_loss else 0 in
    Return
      {| res_strategy_name := name strategy;
         res_start_date := start_date self;
         res_end_date := end_date self;
         res_initial_capital := initial_capital self;
         res_final_capital := final_capital;
         res_total_return := total_return;
         res_total_return_pct := total_return_pct;
         res_max_drawdown := max_drawdown self;
         res_max_drawdown_pct := max_drawdown self;
         res_sharpe_ratio := sharpe_ratio;
         res_win_rate := win_rate;
         res_total_trades := total_trades;
         res_winning_trades := winning_trades;
         res_losing_trades := losing_trades;
         res_avg_win := avg_win;
         res_avg_loss := avg_loss;
         res_profit_factor := profit_factor;
         res_trades := trades self |}.

(** [run_backtest], from the strategy state [st], the generator [g] and the
    backtester [self]: the result (or the exception raised again), and the
    strategy, the generator and the backtester as the run leaves them. *)
Definition run_backtest (data : gmap string (list Kline))
  (symbols : list string) (st : S) (g : RNG) (self : Backtester)
  : result BacktestResult * (S * RNG * Backtester) :=
  let initialized := _initialize_backtest data symbols self in
  let final := _run_simulation symbols (st, g, initialized) in
  (_calculate_results final.2, final).

(** A run on a fresh instance: [__init__] seeds the generator and the run
    starts from it. *)
Definition fresh_run (config : BacktestConfig)
  (data : gmap string (list Kline)) (symbols : list string) (st : S)
  : result BacktestResult * (S * RNG * Backtester) :=
  let '(g, self) := __init__ config in
  run_backtest data symbols st g self.

End simulation.

End backtester.

(** Two simulation states agree when they hold the same strategy state and
    the same backtester; the generators, which may even be of different
    interpreters, are not compared. *)
Definition agree {S RNG1 RNG2 : Type} (x : S * RNG1 * Backtester)
  (y : S * RNG2 * Backtester) : Prop :=
  x.1.1 = y.1.1 ∧ x.2 = y.2.

(** Concrete inputs used in the examples: a generator without state whose
    draws return the mean, a backtester that knows a price of 100 for
    BTCUSDT at time 0, and a LIMIT BUY order of 1 at a given limit. *)

Definition no_seed : Z → () := λ _, ().

Definition mean_latency : Decimal → Decimal → () → Decimal * () :=
  λ mu _ g, (mu, g).

Definition c2_config : BacktestConfig :=
  {| cfg_start_date := "2024-01-01"; cfg_end_date := "2024-12-31";
     cfg_initial_capital := dec 10000; cfg_commission := dec 0.001;
     cfg_slippage := dec 0.0005 |}.

Definition c2_backtester : Backtester :=
  set_market (Some 0%Z) {["BTCUSDT" := dec 100]} (__init__ no_seed c2_config).2.

Definition c2_limit_buy (symbol : string) (limit : Decimal) : Order :=
  {| ord_symbol := symbol; ord_order_id := None;
     ord_client_order_id := None; ord_side := BUY; ord_type := LIMIT;
     ord_quantity := 1; ord_price := Some limit; ord_stop_price := None;
     ord_time_in_force := GTC; ord_status := NEW;
     ord_executed_qty := 0; ord_cummulative_quote_qty := 0;
     ord_avg_price := None; ord_created_at := Some 0%Z |}.

(** The fill condition of a LIMIT order as the specification words it. *)
Definition spec_limit_fills (order : Order) (current_price : Decimal) : bool :=
  match ord_price order with
  | Some price =>
      match ord_side order with
      | BUY => bool_decide (current_price <= price)
      | SELL => bool_decide (price <= current_price)
      end
  | None => false
  end.

(** Observations of the books used by the invariants of a run. *)

(** The cash a fill moves, fee apart: paid on a BUY, received on a SELL. *)
Definition signed_notional (f : Fill) : Decimal :=
  match fill_side f with
  | BUY => fill_quantity f * fill_price f
  | SELL => - (fill_quantity f * fill_price f)
  end.

Definition net_notional (fills : list Fill) : Decimal :=
  sum_list (signed_notional <$> fills).

Definition count_status (st : OrderStatus) (os : list Order) : nat :=
  length (List.filter (λ o, bool_decide (ord_status o = st)) os).

(** Concrete inputs used in the examples: a strategy without state that
    answers every market-data event with a MARKET BUY of one unit, and two
    one-minute bars of BTCUSDT closing at 100 and 110. *)

Definition buy_each_bar : Strategy () :=
  {| name := "buy_each_bar";
     on_market_data := λ md st,
       (st, [{| sig_symbol := md_symbol md; sig_side := BUY;
                sig_quantity := 1; sig_price := None;
                sig_order_type := MARKET; sig_time_in_force := GTC;
                sig_stop_price := None; sig_strategy_name := "buy_each_bar";
                sig_confidence := 1 |}]) |}.

Definition bar (open_time : datetime) (close : Decimal) : Kline :=
  {| k_symbol := "BTCUSDT"; k_open_time := open_time;
     k_close_time := (open_time + 59)%Z; k_open_price := close;
     k_high_price := close; k_low_price := close; k_close_price := close;
     k_volume := 1 |}.

Definition two_bars : gmap string (list Kline) :=
  {["BTCUSDT" := [bar 0 (dec 100); bar 60 (dec 110)]]}.

End Backtest.

(** ** bot/execution.py: order status and fills *)

Module OrderTracking.

(** [OrderManager] with the attributes that [update_order_status] and
    [_process_fills] use. [on_order_update] and [on_fill], when a callback
    is installed, are the predicates telling for which argument the callback
    raises. Three lists record what leaves the manager: [network], the
    requests sent to the exchange, [updates], the orders handed to
    [on_order_update], and [fill_events], the fills handed to [on_fill]. *)
Record OrderManager := {
  rest_client : bool;
  active_orders : gmap string Order;
  order_history : list Order;
  fills : list Fill;
  on_order_update : option (Order → bool);
  on_fill : option (Fill → bool);
  orders_placed : nat;
  orders_filled : nat;
  orders_canceled : nat;
  total_volume : Decimal;
  total_fees : Decimal;
  network : list Execution.CancelRequest;
  updates : list Order;
  fill_events : list Fill
}.

Definition sent (req : Execution.CancelRequest) (self : OrderManager)
  : OrderManager :=
  {| rest_client := rest_client self;
     active_orders := active_orders self;
     order_history := order_history self;
     fills := fills self;
     on_order_update := on_order_update self;
     on_fill := on_fill self;
     orders_placed := orders_placed self;
     orders_filled := orders_filled self;
     orders_canceled := orders_canceled self;
     total_volume := total_volume self;
     total_fees := total_fees self;
     network := network self ++ [req];
     updates := updates self;
     fill_events := fill_events self |}.

(** [BinanceRESTClient.get_order]: the parameters are built as those of
    [cancel_order] are, with a [ValueError] when the order carries no id;
    [exchange req] is the outcome of the request: the order parsed from the
    answer, or the exception that the request or the parsing raises. *)
Definition rest_get_order (exchange : Execution.CancelRequest → result Order)
  (symbol : string) (order_id : option Z) (client_order_id : option string)
  : py OrderManager Order :=
  match Execution.cancel_params symbol order_id client_order_id with
  | None => raise "ValueError"
  | Some req => λ self, (exchange req, sent req self)
  end.

(** [sep in s], and [s.split(sep)[1]] for a string that contains [sep]: the
    text between the first occurrence of [sep] and the next one, or the end
    of the string. *)
Definition py_contains (sep s : string) : bool :=
  match String.index 0 sep s with Some _ => true | None => false end.

Definition py_split_second (sep s : string) : string :=
  match String.index 0 sep s with
  | Some k =>
      let start := (k + String.length sep)%nat in
      let rest := String.substring start (String.length s - start) s in
      match String.index 0 sep rest with
      | Some j => String.substring 0 j rest
      | None => rest
      end
  | None => ""
  end.

(** [self.fills.append(fill); self.orders_filled += 1;
    self.total_volume += fill_qty]. *)
Definition track_fill (fill : Fill) (fill_qty : Decimal) (self : OrderManager)
  : OrderManager :=
  {| rest_client := rest_client self;
     active_orders := active_orders self;
     order_history := order_history self;
     fills := fills self ++ [fill];
     on_order_update := on_order_update self;
     on_fill := on_fill self;
     orders_placed := orders_placed self;
     orders_filled := S (orders_filled self);
     orders_canceled := orders_canceled self;
     total_volume := total_volume self + fill_qty;
     total_fees := total_fees self;
     network := network self;
     updates := updates self;
     fill_events := fill_events self |}.

Definition notify_fill (fill : Fill) : py OrderManager () :=
  self ← get;
  match on_fill self with
  | Some callback =>
      modify (λ self,
        {| rest_client := rest_client self;
           active_orders := active_orders self;
           order_history := order_history self;
           fills := fills self;
           on_order_update := on_order_update self;
           on_fill := on_fill self;
           orders_placed := orders_placed self;
           orders_filled := orders_filled self;
           orders_canceled := orders_canceled self;
           total_volume := total_volume self;
           total_fees := total_fees self;
           network := network self;
           updates := updates self;
           fill_events := fill_events self ++ [fill] |}) ;;
      if callback fill then raise "on_fill" else mret ()
  | None => mret ()
  end.

(** [_process_fills]. [now] is [int(time.time() * 1000)] and [utcnow] is
    [datetime.utcnow()] at the call. The constructor of [Fill] rejects an
    order id of [None]; that exception, like one of the callback, is caught
    and logged. *)
Definition _process_fills (now : Z) (utcnow : datetime)
  (old_order new_order : Order) : py OrderManager () :=
  try_except
    (let fill_qty := ord_executed_qty new_order - ord_executed_qty old_order in
     if bool_decide (fill_qty <= 0) then mret () else
     let fill_price :=
       match ord_avg_price new_order with
       | Some avg_price =>
           if bool_decide (avg_price ≠ 0) then avg_price
           else if bool_decide (0 < ord_executed_qty new_order)
           then ord_cummulative_quote_qty new_order
                / ord_executed_qty new_order
           else default 0 (ord_price old_order)
       | None =>
           if bool_decide (0 < ord_executed_qty new_order)
           then ord_cummulative_quote_qty new_order
                / ord_executed_qty new_order
           else default 0 (ord_price old_order)
       end in
     match ord_order_id new_order with
     | None => raise "ValidationError"
     | Some order_id =>
         let fill :=
           {| fill_symbol := ord_symbol new_order;
              fill_order_id := order_id;
              fill_trade_id := now;
              fill_side := ord_side new_order;
              fill_quantity := fill_qty;
              fill_price := fill_price;
              fill_commission := 0;
              fill_commission_asset :=
                if py_contains "USDT" (ord_symbol new_order)
                then py_split_second "USDT" (ord_symbol new_order)
                else "USDT";
              fill_timestamp := Some utcnow;
              fill_is_maker := false |} in
         modify (track_fill fill fill_qty) ;;
         notify_fill fill
     end)
    (λ _, mret ()).

(** [self.active_orders[order_id] = updated_order]. *)
Definition set_active (order_id : string) (updated_order : Order)
  (self : OrderManager) : OrderManager :=
  {| rest_client := rest_client self;
     active_orders := <[order_id := updated_order]> (active_orders self);
     order_history := order_history self;
     fills := fills self;
     on_order_update := on_order_update self;
     on_fill := on_fill self;
     orders_placed := orders_placed self;
     orders_filled := orders_filled self;
     orders_canceled := orders_canceled self;
     total_volume := total_volume self;
     total_fees := total_fees self;
     network := network self;
     updates := updates self;
     fill_events := fill_events self |}.

Definition notify (o : Order) : py OrderManager () :=
  self ← get;
  match on_order_update self with
  | Some callback =>
      modify (λ self,
        {| rest_client := rest_client self;
           active_orders := active_orders self;
           order_history := order_history self;
           fills := fills self;
           on_order_update := on_order_update self;
           on_fill := on_fill self;
           orders_placed := orders_placed self;
           orders_filled := orders_filled self;
           orders_canceled := orders_canceled self;
           total_volume := total_volume self;
           total_fees := total_fees self;
           network := network self;
           updates := updates self ++ [o];
           fill_events := fill_events self |}) ;;
      if callback o then raise "on_order_update" else mret ()
  | None => mret ()
  end.

(** [update_order_status]: the updated order, or [None]. *)
Definition update_order_status
  (exchange : Execution.CancelRequest → result Order) (now : Z)
  (utcnow : datetime) (order_id : string) : py OrderManager (option Order) :=
  try_except
    (self ← get;
     if negb (rest_client self) then mret None else
     match active_orders self !! order_id with
     | None => mret None
     | Some order =>
         updated_order ←
           rest_get_order exchange (ord_symbol order) (ord_order_id order)
             (ord_client_order_id order);
         modify (set_active order_id updated_order) ;;
         (if bool_decide (ord_status updated_order
                          ∈ [FILLED; PARTIALLY_FILLED])
          then _process_fills now utcnow order updated_order
          else mret ()) ;;
         notify updated_order ;;
         mret (Some updated_order)
     end)
    (λ _, mret None).

(** Successive calls [update_order_status(order_id)]; the exchange answers
    the k-th of them with the order of the k-th reply, which is made at the
    clock reading that comes with it. *)
Fixpoint poll (replies : list (Z * datetime * Order)) (order_id : string)
  (self : OrderManager) : OrderManager :=
  match replies with
  | [] => self
  | (now, utcnow, reply) :: later =>
      poll later order_id
        (update_order_status (λ _, Return reply) now utcnow order_id self).2
  end.

(** The executed quantity that each reply adds to the one before. *)
Fixpoint increments (executed : Decimal)
  (replies : list (Z * datetime * Order)) : list Decimal :=
  match replies with
  | [] => []
  | (_, _, reply) :: later =>
      (ord_executed_qty reply - executed)
      :: increments (ord_executed_qty reply) later
  end.

Fixpoint nondecreasing (executed : Decimal)
  (replies : list (Z * datetime * Order)) : Prop :=
  match replies with
  | [] => True
  | (_, _, reply) :: later =>
      executed <= ord_executed_qty reply
      ∧ nondecreasing (ord_executed_qty reply) later
  end.

Definition total (l : list Decimal) : Decimal := foldr Qcplus 0 l.

(** The order carries an order id that [get_order] can send, and reports
    a fill. *)
Definition has_order_id (o : Order) : bool :=
  match ord_order_id o with
  | Some n => bool_decide (n ≠ 0%Z)
  | None => false
  end.

Definition reports_fill (o : Order) : bool :=
  bool_decide (ord_status o ∈ [FILLED; PARTIALLY_FILLED]).

(** Concrete inputs used in the examples: an order tracked under the client
    id "mm_1", as the exchange reports it with a status, an executed
    quantity and a cumulative quote quantity; and a manager tracking it as
    NEW. *)
Definition polled_order (st : OrderStatus) (executed quote : Decimal)
  : Order :=
  {| ord_symbol := "BTCUSDT"; ord_order_id := Some 7%Z;
     ord_client_order_id := Some "mm_1";
     ord_side := BUY; ord_type := LIMIT; ord_quantity := dec 2;
     ord_price := Some (dec 110); ord_stop_price := None;
     ord_time_in_force := GTC; ord_status := st;
     ord_executed_qty := executed; ord_cummulative_quote_qty := quote;
     ord_avg_price := None; ord_created_at := None |}.

Definition tracking_manager : OrderManager :=
  {| rest_client := true;
     active_orders := {["mm_1" := polled_order NEW 0 0]};
     order_history := [polled_order NEW 0 0];
     fills := [];
     on_order_update := None; on_fill := None;
     orders_placed := 1; orders_filled := 0; orders_canceled := 0;
     total_volume := 0; total_fees := 0;
     network := []; updates := []; fill_events := [] |}.

End OrderTracking.

(** * Theorems *)

(** ** Arithmetic helpers *)

Lemma Qcmin_id (a : Decimal) : Qcmin a a = a.
Proof. unfold Qcmin. by case_bool_decide. Qed.

Lemma Qcmin_l (a b : Decimal) : a <= b → Qcmin a b = a.
Proof.
  intros Hab. unfold Qcmin. case_bool_decide as Hlt; [|done].
  by apply Qclt_not_le in Hlt.
Qed.

Lemma Qcmin_r (a b : Decimal) : b <= a → Qcmin a b = b.
Proof.
  intros Hba. unfold Qcmin. case_bool_decide as Hlt; [done|].
  apply Qcnot_lt_le in Hlt. by apply Qcle_antisym.
Qed.

Lemma Qc_sub_nonpos (a b : Decimal) : a - b <= 0 ↔ a <= b.
Proof.
  rewrite (Qcplus_le_mono_r a b (- b)).
  by replace (b + - b) with (Q2Qc 0) by ring.
Qed.

Lemma Qc_sub_pos (a b : Decimal) : 0 < a - b ↔ b < a.
Proof.
  rewrite (Qcplus_lt_mono_r b a (- b)).
  by replace (b + - b) with (Q2Qc 0) by ring.
Qed.

(** ** Accounting *)

Section accounting.
Import Accounting.

Lemma positions_record_fill (f : Fill) (am : AccountingManager) :
  positions (record_fill f am) = positions (_update_position f am).
Proof. unfold record_fill, _update_position. simpl. by destruct (positions am !! _). Qed.

Lemma position_size_record_fill (s : string) (f : Fill) (am : AccountingManager) :
  position_size s (record_fill f am)
  = position_size s am
    + (if bool_decide (fill_symbol f = s) then signed_quantity f else 0).
Proof.
  unfold position_size. rewrite positions_record_fill.
  unfold _update_position, signed_quantity.
  destruct (decide (fill_symbol f = s)) as [<-|Hne].
  - rewrite bool_decide_eq_true_2 by done.
    destruct (positions am !! fill_symbol f) as [cur|]; simpl;
      rewrite lookup_insert_eq; simpl; destruct (fill_side f); ring.
  - rewrite bool_decide_eq_false_2 by done.
    destruct (positions am !! fill_symbol f) as [cur|]; simpl;
      rewrite lookup_insert_ne by done; ring.
Qed.

Lemma record_fills_position_size (fs : list Fill) (s : string) (am : AccountingManager) :
  position_size s (record_fills fs am)
  = position_size s am + sum_signed_fills s fs.
Proof.
  revert am. induction fs as [|f fs IH]; intros am; simpl.
  - ring.
  - unfold record_fills in *. simpl. rewrite IH, position_size_record_fill. ring.
Qed.

Lemma realized_added_existing (f : Fill) (am : AccountingManager) (cur : Position) :
  positions am !! fill_symbol f = Some cur →
  realized_added f am
  = (if bool_decide (0 < pos_size cur)
        && bool_decide
             (match fill_side f with
              | BUY => pos_size cur + fill_quantity f
              | SELL => pos_size cur - fill_quantity f
              end <= 0)
     then (fill_price f - pos_entry_price cur) * pos_size cur else 0)
  ∧ total_pnl (record_fill f am) = total_pnl am + realized_added f am
  ∧ total_fees (record_fill f am) = total_fees am + fill_commission f.
Proof.
  intros Hcur. unfold realized_added, position_realized.
  rewrite positions_record_fill.
  unfold record_fill, _update_position. simpl. rewrite Hcur. simpl.
  rewrite lookup_insert_eq. simpl.
  destruct (bool_decide (0 < pos_size cur) && _); split_and!; ring.
Qed.

(** C1 (amended). For every sequence of fills recorded by a fresh
    AccountingManager the position size of a symbol is the sum of the signed
    fill quantities of that symbol (+qty for BUY, -qty for SELL). For a
    further SELL fill that closes or reverses a LONG position (size > 0 and
    size - qty <= 0), the realized P&L added to the position and to the
    running total is (fillPrice - entryPrice) * min(|size|, |delta|); the fee
    is not subtracted from it but accumulated in [total_fees]. A SELL fill
    that leaves the position long (size - qty > 0) adds no realized P&L. *)
Theorem accounting_position_identity
  (fs : list Fill) (s : string) (f : Fill) (cur : Position) :
  let am := record_fills fs __init__ in
  position_size s am = sum_signed_fills s fs
  ∧ (positions am !! fill_symbol f = Some cur → fill_side f = SELL →
     0 < pos_size cur → pos_size cur - fill_quantity f <= 0 →
     realized_added f am
     = (fill_price f - pos_entry_price cur)
       * Qcmin (Qcabs (pos_size cur)) (Qcabs (signed_quantity f))
     ∧ total_pnl (record_fill f am) = total_pnl am + realized_added f am
     ∧ total_fees (record_fill f am) = total_fees am + fill_commission f)
  ∧ (positions am !! fill_symbol f = Some cur → fill_side f = SELL →
     0 < pos_size cur - fill_quantity f →
     realized_added f am = 0
     ∧ total_pnl (record_fill f am) = total_pnl am).
Proof.
  intros am. split_and!.
  - unfold am. rewrite record_fills_position_size.
    unfold position_size, __init__. simpl. rewrite lookup_empty. simpl. ring.
  - intros Hcur Hside Hlong Hclose.
    destruct (realized_added_existing f am cur Hcur) as (Hr & Ht & Hf).
    split_and!; [|done|done].
    rewrite Hr, Hside.
    rewrite !bool_decide_eq_true_2 by done. simpl.
    unfold signed_quantity. rewrite Hside, Qcabs_opp.
    apply (proj1 (Qc_sub_nonpos _ _)) in Hclose.
    assert (0 <= pos_size cur) as Hnn by by apply Qclt_le_weak.
    rewrite (Qcabs_pos (pos_size cur)) by done.
    rewrite (Qcabs_pos (fill_quantity f)) by by eapply Qcle_trans.
    by rewrite Qcmin_l.
  - intros Hcur Hside Hopen.
    destruct (realized_added_existing f am cur Hcur) as (Hr & Ht & _).
    rewrite Hside in Hr.
    rewrite (bool_decide_eq_false_2 (_ <= _)), andb_false_r in Hr
      by by apply Qclt_not_le.
    split; [done|]. rewrite Ht, Hr. ring.
Qed.

(** Witness for C1: BUY 2 @ 100 and then SELL 2 @ 110 closes the long
    position. *)
Lemma accounting_position_identity_witness :
  realized_added (c1_sell (dec 2)) (record_fills [c1_buy] __init__)
  = (dec 110 - dec 100) * Qcmin (Qcabs (dec 2)) (Qcabs (- dec 2)).
Proof.
  refine (proj1 (proj1 (proj2
    (accounting_position_identity [c1_buy] "BTCUSDT" (c1_sell (dec 2))
       {| pos_symbol := "BTCUSDT"; pos_side := LONG; pos_size := dec 2;
          pos_entry_price := dec 100; pos_mark_price := dec 100;
          pos_unrealized_pnl := 0; pos_realized_pnl := 0;
          pos_margin := 0; pos_leverage := 1 |})) _ _ _ _));
    by vm_compute.
Defined.

(** Counterexample to C1 as stated: after BUY 2 @ 100, the fill SELL 1 @ 110
    (fee 0) opposes the long position, the closed form gives
    (110 - 100) * min(2, 1) = 10, and the code adds nothing. *)
Lemma accounting_partial_close_counterexample :
  positions c1_after_buy !! fill_symbol (c1_sell (dec 1))
  = Some {| pos_symbol := "BTCUSDT"; pos_side := LONG; pos_size := dec 2;
            pos_entry_price := dec 100; pos_mark_price := dec 100;
            pos_unrealized_pnl := 0; pos_realized_pnl := 0;
            pos_margin := 0; pos_leverage := 1 |}
  ∧ opposes (dec 2) (signed_quantity (c1_sell (dec 1))) = true
  ∧ spec_realized_closed_form (dec 2) (dec 100) (c1_sell (dec 1)) = dec 10
  ∧ realized_added (c1_sell (dec 1)) c1_after_buy = 0
  ∧ realized_added (c1_sell (dec 1)) c1_after_buy
    ≠ spec_realized_closed_form (dec 2) (dec 100) (c1_sell (dec 1)).
Proof.
  split_and!; by vm_compute.
Qed.

End accounting.

(** ** Rate limiter *)

Section rate_limiter.
Import RateLimiter.

Lemma consume_true (now : Decimal) (n : Z) (b : TokenBucket) :
  (consume now n b).1 = true →
  tokens (consume now n b).2 = tokens (_refill now b) - Qc_of_Z n.
Proof. unfold consume. by case_bool_decide. Qed.

Lemma consume_false (now : Decimal) (n : Z) (b : TokenBucket) :
  (consume now n b).1 = false → (consume now n b).2 = _refill now b.
Proof. unfold consume. by case_bool_decide. Qed.

(** The success half of the contract: when [check_request] answers [True],
    every bucket holds its refilled content less the amount asked of it. *)
Lemma check_request_true_debits (now : BucketId → Decimal) (w : Z)
  (rl : RateLimiter) (i : BucketId) :
  (check_request now w rl).1 = true →
  tokens (bucket i (check_request now w rl).2)
  = tokens (_refill (now i) (bucket i rl)) - Qc_of_Z (asked i w).
Proof.
  unfold check_request.
  destruct (consume (now ReqSecond) 1 _) as [c1 rs] eqn:E1.
  destruct (consume (now ReqMinute) 1 _) as [c2 rm] eqn:E2.
  destruct (consume (now ReqDay) 1 _) as [c3 rd] eqn:E3.
  destruct (consume (now WeightSecond) w _) as [c4 ws] eqn:E4.
  destruct (consume (now WeightMinute) w _) as [c5 wm] eqn:E5.
  destruct (consume (now WeightDay) w _) as [c6 wd] eqn:E6.
  destruct c1, c2, c3, c4, c5, c6; simpl; try done. intros _.
  destruct i; simpl;
    [ change rs with (true, rs).2; rewrite <- E1
    | change rm with (true, rm).2; rewrite <- E2
    | change rd with (true, rd).2; rewrite <- E3
    | change ws with (true, ws).2; rewrite <- E4
    | change wm with (true, wm).2; rewrite <- E5
    | change wd with (true, wd).2; rewrite <- E6 ];
    apply consume_true; by (rewrite E1 || rewrite E2 || rewrite E3
                            || rewrite E4 || rewrite E5 || rewrite E6).
Qed.

(** C3 (code defect). A limiter with the default quotas answers ten
    [check_request(1)] calls made at the same instant with [True]. The
    eleventh call returns [False] because the per-second request bucket is
    empty, yet the other five buckets have been debited by it: the debit is
    not atomic. *)
Theorem check_request_failure_debits :
  burst 10 (__init__ None 0) = c3_saturated
  ∧ total_requests c3_saturated = 10%Z
  ∧ c3_eleventh.1 = false
  ∧ tokens (second (request_buckets c3_saturated)) = 0
  ∧ debited (λ _, 0) ReqSecond c3_saturated c3_eleventh.2 = false
  ∧ Forall (λ i, debited (λ _, 0) i c3_saturated c3_eleventh.2 = true)
      [ReqMinute; ReqDay; WeightSecond; WeightMinute; WeightDay]
  ∧ tokens (minute (request_buckets c3_saturated)) = dec 1190
  ∧ tokens (minute (request_buckets c3_eleventh.2)) = dec 1189.
Proof.
  do 5 (split; [by vm_compute|]).
  split; [|split; by vm_compute].
  repeat (apply List.Forall_cons; [by vm_compute|]). apply List.Forall_nil.
Qed.

End rate_limiter.

(** ** Risk manager *)

Section risk.
Import Risk.

Ltac unfold_py :=
  unfold try_except, fault, reject, raise, modify, get, mbind, py_bind,
    mret, py_ret.

Lemma trigger_risk_event_eq (event_type : string) (message : list MsgPart)
  (severity : string) (symbol : option string) (s : RiskManager) :
  _trigger_risk_event event_type message severity symbol s
  = (Return (),
     count_event {| ev_event_type := event_type; ev_symbol := symbol;
                    ev_message := message; ev_severity := severity |} s).
Proof.
  unfold _trigger_risk_event. unfold_py. simpl.
  destruct (on_risk_event s) as [callback|]; [|done].
  by destruct (callback _).
Qed.

Lemma check_position_limits_eq (raises : Check → bool)
  (signal : TradingSignal) (s : RiskManager) :
  _check_position_limits raises signal s
  = if raises PositionLimits then (Return false, s)
    else if position_limits_ok signal s then (Return true, s)
    else (Return false, count_event (position_event signal s) s).
Proof.
  unfold _check_position_limits, position_limits_ok, position_event.
  unfold_py. destruct (raises PositionLimits); [done|]. simpl.
  fold (new_size signal s).
  case_bool_decide as H1; simpl.
  { by rewrite trigger_risk_event_eq. }
  destruct (position_limits s !! sig_symbol signal) as [max_ratio|]; [|done].
  simpl. case_bool_decide as H2; simpl; [|done].
  by rewrite trigger_risk_event_eq.
Qed.

Lemma check_daily_drawdown_eq (raises : Check → bool)
  (signal : TradingSignal) (s : RiskManager) :
  _check_daily_drawdown raises signal s
  = if raises DailyDrawdown then (Return false, s)
    else if bool_decide (sum_values (daily_pnl s) < - max_daily_drawdown s)
    then (Return false,
          set_breach true "Daily drawdown exceeded"
            (count_event (drawdown_event s) s))
    else (Return true, s).
Proof.
  unfold _check_daily_drawdown. unfold_py.
  destruct (raises DailyDrawdown); [done|]. simpl.
  case_bool_decide; [|done]. by rewrite trigger_risk_event_eq.
Qed.

Lemma check_consecutive_losses_eq (raises : Check → bool)
  (signal : TradingSignal) (s : RiskManager) :
  _check_consecutive_losses raises signal s
  = if raises ConsecutiveLosses then (Return false, s)
    else if consecutive_losses_ok signal s then (Return true, s)
    else (Return false, count_event (losses_event signal s) s).
Proof.
  unfold _check_consecutive_losses, consecutive_losses_ok. unfold_py.
  destruct (raises ConsecutiveLosses); [done|]. simpl.
  case_bool_decide; [|done]. by rewrite trigger_risk_event_eq.
Qed.

Lemma check_leverage_limits_eq (raises : Check → bool)
  (signal : TradingSignal) (s : RiskManager) :
  _check_leverage_limits raises signal s
  = if raises LeverageLimits then (Return false, s)
    else if leverage_ok s then (Return true, s)
    else (Return false, count_event (leverage_event signal s) s).
Proof.
  unfold _check_leverage_limits, leverage_ok. unfold_py.
  destruct (raises LeverageLimits); [done|]. simpl.
  case_bool_decide; [|done]. by rewrite trigger_risk_event_eq.
Qed.

(** What [check_signal] does while the breach flag is set. *)
Lemma check_signal_breached (raises : Check → bool) (signal : TradingSignal)
  (s : RiskManager) :
  is_risk_breach s = true →
  check_signal raises signal s
  = (Return false,
     count_rejected (count_event (breach_event s) (count_check s))).
Proof.
  intros Hb. unfold check_signal. unfold_py. simpl. rewrite Hb.
  by rewrite trigger_risk_event_eq.
Qed.

(** What [check_signal] does while the flag is clear: the four checks in
    order, the first failure rejecting the signal. *)
Lemma check_signal_clear (raises : Check → bool) (signal : TradingSignal)
  (s : RiskManager) :
  is_risk_breach s = false →
  check_signal raises signal s
  = let s1 := count_check s in
    if raises PositionLimits then (Return false, count_rejected s1)
    else if negb (position_limits_ok signal s) then
      (Return false, count_rejected (count_event (position_event signal s) s1))
    else if raises DailyDrawdown then (Return false, count_rejected s1)
    else if bool_decide (sum_values (daily_pnl s) < - max_daily_drawdown s)
    then (Return false,
          count_rejected (set_breach true "Daily drawdown exceeded"
                            (count_event (drawdown_event s) s1)))
    else if raises ConsecutiveLosses then (Return false, count_rejected s1)
    else if negb (consecutive_losses_ok signal s) then
      (Return false, count_rejected (count_event (losses_event signal s) s1))
    else if raises LeverageLimits then (Return false, count_rejected s1)
    else if negb (leverage_ok s) then
      (Return false, count_rejected (count_event (leverage_event signal s) s1))
    else (Return true, s1).
Proof.
  intros Hb. unfold check_signal. unfold_py. simpl. rewrite Hb.
  rewrite check_position_limits_eq.
  destruct (raises PositionLimits); [done|].
  change (position_limits_ok signal (count_check s))
    with (position_limits_ok signal s).
  destruct (position_limits_ok signal s); [|done]. simpl.
  rewrite check_daily_drawdown_eq.
  destruct (raises DailyDrawdown); [done|]. simpl.
  case_bool_decide; [done|]. simpl.
  rewrite check_consecutive_losses_eq.
  destruct (raises ConsecutiveLosses); [done|].
  change (consecutive_losses_ok signal (count_check s))
    with (consecutive_losses_ok signal s).
  destruct (consecutive_losses_ok signal s); [|done]. simpl.
  rewrite check_leverage_limits_eq.
  destruct (raises LeverageLimits); [done|].
  change (leverage_ok (count_check s)) with (leverage_ok s).
  by destruct (leverage_ok s).
Qed.

Lemma check_signal_keeps_breach (raises : Check → bool)
  (signal : TradingSignal) (s : RiskManager) :
  is_risk_breach s = true →
  is_risk_breach (check_signal raises signal s).2 = true.
Proof. intros Hb. by rewrite check_signal_breached. Qed.

Lemma calculate_unrealized_pnl_eq (position : Position) (s : RiskManager) :
  _calculate_unrealized_pnl position s = (Return 0, s).
Proof.
  unfold _calculate_unrealized_pnl, PositionSide_member. unfold_py.
  by case_bool_decide.
Qed.

(** What [update_position] does. Without a position for the symbol nothing
    changes; with one, the position is moved and its unrealized P&L set to
    zero, the placeholder P&L is booked and the loss count reset. The
    limits, the breach flag and the event log are never touched. *)
Lemma update_position_books (fill : Fill) (s : RiskManager) :
  ∃ s',
    update_position fill s = (Return (), s')
    ∧ (positions s !! fill_symbol fill = None → s' = s)
    ∧ (∀ current_position,
         positions s !! fill_symbol fill = Some current_position →
         ∃ moved,
           positions s' = <[fill_symbol fill := moved]> (positions s)
           ∧ pos_size moved
             = match fill_side fill with
               | BUY => pos_size current_position + fill_quantity fill
               | SELL => pos_size current_position - fill_quantity fill
               end
           ∧ pos_unrealized_pnl moved = 0
           ∧ daily_pnl s'
             = <[fill_symbol fill :=
                   default 0 (daily_pnl s !! fill_symbol fill)
                   + fill_quantity fill * fill_price fill * dec 0.001]>
                 (daily_pnl s)
           ∧ consecutive_losses s'
             = <[fill_symbol fill := 0%Z]> (consecutive_losses s))
    ∧ is_risk_breach s' = is_risk_breach s
    ∧ risk_breach_reason s' = risk_breach_reason s
    ∧ max_position_size s' = max_position_size s
    ∧ max_daily_drawdown s' = max_daily_drawdown s
    ∧ max_consecutive_losses s' = max_consecutive_losses s
    ∧ position_limits s' = position_limits s
    ∧ max_leverage s' = max_leverage s
    ∧ emitted s' = emitted s.
Proof.
  unfold update_position, _update_daily_pnl, _update_consecutive_losses.
  unfold try_except at 1.
  unfold raise, modify, get, mbind, py_bind, mret, py_ret. cbv zeta.
  destruct (positions s !! fill_symbol fill) as [current_position|] eqn:Hcur;
    simpl.
  - rewrite calculate_unrealized_pnl_eq. simpl. eexists. split; [done|].
    simpl. split_and!; try done. intros ? [= <-]. eexists.
    rewrite insert_insert_eq. by split_and!.
  - unfold PositionSide_member, raise.
    destruct (fill_side fill); simpl; eexists; by split_and!.
Qed.

Lemma update_market_data_books (symbol : string) (price : Decimal)
  (s : RiskManager) :
  ∃ s',
    update_market_data symbol price s = (Return (), s')
    ∧ (positions s !! symbol = None → s' = s)
    ∧ (∀ position, positions s !! symbol = Some position →
         ∃ marked,
           positions s' = <[symbol := marked]> (positions s)
           ∧ pos_size marked = pos_size position
           ∧ pos_mark_price marked = price
           ∧ pos_unrealized_pnl marked = 0)
    ∧ daily_pnl s' = daily_pnl s
    ∧ consecutive_losses s' = consecutive_losses s
    ∧ is_risk_breach s' = is_risk_breach s
    ∧ risk_breach_reason s' = risk_breach_reason s
    ∧ max_position_size s' = max_position_size s
    ∧ max_daily_drawdown s' = max_daily_drawdown s
    ∧ max_consecutive_losses s' = max_consecutive_losses s
    ∧ position_limits s' = position_limits s
    ∧ max_leverage s' = max_leverage s
    ∧ emitted s' = emitted s.
Proof.
  unfold update_market_data. unfold try_except at 1.
  unfold raise, modify, get, mbind, py_bind, mret, py_ret.
  destruct (positions s !! symbol) as [position|] eqn:Hcur; simpl.
  - rewrite calculate_unrealized_pnl_eq. simpl. eexists. split; [done|].
    simpl. split_and!; try done. intros ? [= <-]. eexists.
    rewrite insert_insert_eq. by split_and!.
  - eexists. by split_and!.
Qed.

(** C4 (amended). While the breach flag is set [check_signal] rejects every
    signal, and no operation of the manager other than [reset_risk_breach]
    clears the flag. When the flag is clear, the position-limit check
    passes, and the sum of the daily P&L over all symbols is strictly below
    [-max_daily_drawdown], the signal is rejected, the flag is set with the
    reason "Daily drawdown exceeded" and a CRITICAL DAILY_DRAWDOWN_EXCEEDED
    event is emitted; when the sum is not strictly below
    [-max_daily_drawdown] (equality included), [check_signal] leaves the
    flag clear. After a reset, a signal that passes all four checks is
    accepted. *)
Theorem risk_breach_gate (raises : Check → bool) (signal : TradingSignal)
  (c : Call) (s : RiskManager) :
  (is_risk_breach s = true →
   (check_signal raises signal s).1 = Return false)
  ∧ (is_risk_breach s = true → c ≠ ResetRiskBreach →
     is_risk_breach (run c s) = true)
  ∧ is_risk_breach (run ResetRiskBreach s) = false
  ∧ (is_risk_breach s = false →
     raises PositionLimits = false → position_limits_ok signal s = true →
     raises DailyDrawdown = false →
     sum_values (daily_pnl s) < - max_daily_drawdown s →
     (check_signal raises signal s).1 = Return false
     ∧ is_risk_breach (check_signal raises signal s).2 = true
     ∧ risk_breach_reason (check_signal raises signal s).2
       = "Daily drawdown exceeded"
     ∧ emitted (check_signal raises signal s).2
       = emitted s ++ [drawdown_event s]
     ∧ ev_severity (drawdown_event s) = "CRITICAL")
  ∧ (is_risk_breach s = false →
     ¬ sum_values (daily_pnl s) < - max_daily_drawdown s →
     is_risk_breach (check_signal raises signal s).2 = false)
  ∧ ((∀ k, raises k = false) →
     position_limits_ok signal s = true →
     ¬ sum_values (daily_pnl s) < - max_daily_drawdown s →
     consecutive_losses_ok signal s = true →
     leverage_ok s = true →
     (check_signal raises signal (reset_risk_breach s)).1 = Return true).
Proof.
  split_and!.
  - intros Hb. by rewrite check_signal_breached.
  - intros Hb Hc. destruct c as [raises' signal'|fill|symbol price| |];
      simpl; try done.
    + by apply check_signal_keeps_breach.
    + destruct (update_position_books fill s)
        as (s' & -> & _ & _ & Hflag & _). simpl. by rewrite Hflag.
    + destruct (update_market_data_books symbol price s)
        as (s' & -> & _ & _ & _ & _ & Hflag & _). simpl. by rewrite Hflag.
  - done.
  - intros Hb Hr1 Hp Hr2 Hdd.
    rewrite check_signal_clear by done. simpl.
    rewrite Hr1, Hp, Hr2. simpl.
    by rewrite bool_decide_eq_true_2.
  - intros Hb Hdd. rewrite check_signal_clear by done. simpl.
    rewrite (bool_decide_eq_false_2 _ Hdd).
    by repeat (match goal with |- context [if ?b then _ else _] =>
                 destruct b end; simpl).
  - intros Hr Hp Hdd Hc Hl.
    rewrite check_signal_clear by done. simpl.
    rewrite !Hr.
    change (position_limits_ok signal (reset_risk_breach s))
      with (position_limits_ok signal s).
    change (consecutive_losses_ok signal (reset_risk_breach s))
      with (consecutive_losses_ok signal s).
    change (leverage_ok (reset_risk_breach s)) with (leverage_ok s).
    rewrite Hp, Hc, Hl. simpl.
    by rewrite (bool_decide_eq_false_2 _ Hdd).
Qed.

(** Witness for C4: the kill-switch scenario. With a drawdown limit of 500
    and a daily P&L of -501 the signal is rejected and the flag is set. *)
Lemma risk_breach_gate_witness :
  (check_signal no_fault c4_signal (c4_manager (dec (-501)))).1 = Return false
  ∧ is_risk_breach
      (check_signal no_fault c4_signal (c4_manager (dec (-501)))).2 = true.
Proof.
  refine (let H := proj1 (proj2 (proj2 (proj2
            (risk_breach_gate no_fault c4_signal ResetDailyPnl
               (c4_manager (dec (-501))))))) _ _ _ _ _ in
          conj (proj1 H) (proj1 (proj2 H)));
    by vm_compute.
Defined.

(** Counterexample to C4 as stated: with a drawdown limit of 500 and a daily
    P&L of exactly -500 the condition sum > -500 fails, yet the signal is
    accepted, the flag stays clear and no event is emitted. *)
Lemma risk_drawdown_boundary_counterexample :
  ¬ (- max_daily_drawdown (c4_manager (dec (-500)))
     < sum_values (daily_pnl (c4_manager (dec (-500)))))
  ∧ (check_signal no_fault c4_signal (c4_manager (dec (-500)))).1
    = Return true
  ∧ is_risk_breach
      (check_signal no_fault c4_signal (c4_manager (dec (-500)))).2 = false
  ∧ emitted (check_signal no_fault c4_signal (c4_manager (dec (-500)))).2
    = [].
Proof. split_and!; by vm_compute. Qed.

(** C10. [check_signal] is total and fail-closed: every call returns a
    boolean and never raises, and whenever one of the internal checks
    raises the call returns [False]. *)
Theorem check_signal_fail_closed (raises : Check → bool)
  (signal : TradingSignal) (s : RiskManager) (c : Check) :
  (∃ b, (check_signal raises signal s).1 = Return b)
  ∧ (raises c = true → (check_signal raises signal s).1 = Return false).
Proof.
  destruct (is_risk_breach s) eqn:Hb.
  - rewrite check_signal_breached by done. simpl. eauto.
  - rewrite check_signal_clear by done. simpl. split.
    + repeat (match goal with |- context [if ?b then _ else _] =>
                destruct b end; simpl); eauto.
    + intros Hc.
      destruct c; rewrite ?Hc;
        repeat (match goal with |- context [if ?b then _ else _] =>
                  destruct b end; simpl); done.
Qed.

(** Witness for C10: the drawdown check raises on an otherwise acceptable
    signal. *)
Lemma check_signal_fail_closed_witness :
  (check_signal (λ k, match k with DailyDrawdown => true | _ => false end)
     c4_signal (c4_manager 0)).1 = Return false.
Proof.
  apply (proj2 (check_signal_fail_closed
                  (λ k, match k with DailyDrawdown => true | _ => false end)
                  c4_signal (c4_manager 0) DailyDrawdown)).
  reflexivity.
Defined.

End risk.

(** ** Order manager *)

Section execution.
Import Execution.

Ltac unfold_py :=
  unfold try_except, raise, modify, get, mbind, py_bind, mret, py_ret.

Lemma cancel_order_untracked (exchange : CancelRequest → result Order)
  (order_id : string) (s : OrderManager) :
  active_orders s !! order_id = None →
  cancel_order exchange order_id s = (Return false, s).
Proof.
  intros Hnone. unfold cancel_order. unfold_py. simpl.
  destruct (rest_client s); simpl; [|done]. by rewrite Hnone.
Qed.

(** C6 (amended). [cancel_order] does not look at the order's status. For an
    id that is not tracked, which includes every order already cancelled
    through the manager, it returns [False] without a network call. For a
    tracked order that carries an id, terminal or not, it sends the cancel
    request to the exchange. When the exchange answers, the order is removed
    from the active orders, the answered order is recorded in the history
    with status CANCELED, the update callback receives it, and the call
    returns [True] (unless the callback raises); a second cancel of the same
    id then returns [False] without a network call. When the request fails
    the call returns [False] and the local state is unchanged. *)
Theorem cancel_order_spec (exchange : CancelRequest → result Order)
  (order_id : string) (s : OrderManager) (order : Order)
  (req : CancelRequest) :
  (active_orders s !! order_id = None →
   cancel_order exchange order_id s = (Return false, s))
  ∧ (rest_client s = true →
     active_orders s !! order_id = Some order →
     cancel_params (ord_symbol order) (ord_order_id order)
       (ord_client_order_id order) = Some req →
     (∀ canceled, exchange req = Return canceled →
        let canceled' := with_status CANCELED canceled in
        let s' := (cancel_order exchange order_id s).2 in
        network s' = network s ++ [req]
        ∧ active_orders s' = delete order_id (active_orders s)
        ∧ order_history s' = order_history s ++ [canceled']
        ∧ ord_status canceled' = CANCELED
        ∧ match on_order_update s with
          | None =>
              updates s' = updates s
              ∧ (cancel_order exchange order_id s).1 = Return true
          | Some callback =>
              updates s' = updates s ++ [canceled']
              ∧ (cancel_order exchange order_id s).1
                = Return (negb (callback canceled'))
          end
        ∧ cancel_order exchange order_id s' = (Return false, s'))
     ∧ (∀ e, exchange req = Raise e →
        cancel_order exchange order_id s = (Return false, sent req s))).
Proof.
  split; [apply cancel_order_untracked|].
  intros Hclient Horder Hreq. split.
  - intros canceled Hex canceled' s'.
    assert (cancel_order exchange order_id s
            = match on_order_update s with
              | None =>
                  (Return true, record_cancel order_id canceled' (sent req s))
              | Some callback =>
                  (Return (negb (callback canceled')),
                   {| rest_client := rest_client s;
                      active_orders := delete order_id (active_orders s);
                      order_history := order_history s ++ [canceled'];
                      on_order_update := on_order_update s;
                      orders_canceled := S (orders_canceled s);
                      network := network s ++ [req];
                      updates := updates s ++ [canceled'] |})
              end) as Heq.
    { unfold cancel_order, rest_cancel_order, notify. unfold_py. simpl.
      rewrite Hclient, Horder. simpl. rewrite Hreq, Hex. simpl.
      destruct (on_order_update s) as [callback|] eqn:Hcb; [|done].
      simpl. rewrite Hcb.
      destruct (callback _); simpl; by rewrite ?Hclient, ?Hcb. }
    subst s'. rewrite Heq.
    destruct (on_order_update s) as [callback|]; simpl;
      (split_and!; [done..|]);
      apply cancel_order_untracked; simpl; apply lookup_delete_eq.
  - intros e Hex.
    unfold cancel_order, rest_cancel_order. unfold_py. simpl.
    rewrite Hclient, Horder. simpl. by rewrite Hreq, Hex.
Qed.

(** Witness for C6: cancelling the open order "mm_1" sends one request and
    returns [True]. *)
Lemma cancel_order_spec_witness :
  network (cancel_order (c6_exchange NEW) "mm_1" (c6_manager NEW)).2
  = [c6_request]
  ∧ (cancel_order (c6_exchange NEW) "mm_1" (c6_manager NEW)).1 = Return true.
Proof.
  refine (let H := proj1 (proj2
            (cancel_order_spec (c6_exchange NEW) "mm_1" (c6_manager NEW)
               (c6_order NEW) c6_request) eq_refl eq_refl eq_refl)
            (c6_order NEW) eq_refl in
          conj (proj1 H) (proj2 (proj1 (proj2 (proj2 (proj2 (proj2 H))))))).
Defined.

(** Counterexample to C6 as stated. A tracked order that is already FILLED,
    a terminal state, is cancelled with a network call; and after an open
    order has been cancelled, which leaves it CANCELED, cancelling it again
    returns [False], not success. *)
Lemma cancel_order_terminal_counterexample :
  is_terminal (ord_status (c6_order FILLED)) = true
  ∧ active_orders (c6_manager FILLED) !! "mm_1" = Some (c6_order FILLED)
  ∧ network (cancel_order (c6_exchange FILLED) "mm_1" (c6_manager FILLED)).2
    = [c6_request]
  ∧ (cancel_order (c6_exchange NEW) "mm_1" (c6_manager NEW)).1 = Return true
  ∧ (ord_status <$> last (order_history c6_after_cancel)) = Some CANCELED
  ∧ (cancel_order (c6_exchange NEW) "mm_1" c6_after_cancel).1 = Return false.
Proof. split_and!; by vm_compute. Qed.

End execution.

(** ** REST client *)

Section rest.
Import Rest.

Lemma make_request_cons_429 (r : Response) (later : list Reply)
  (method endpoint : string) (weight : Z) :
  status r = 429%Z → retry_after r ≠ Malformed →
  _make_request (Answer r :: later) method endpoint weight
  = match _make_request later method endpoint weight with
    | Some (outcome, actions) =>
        Some (outcome,
              [AcquireRateLimit weight; Send method endpoint]
              ++ Sleep (advertised (retry_after r)) :: actions)
    | None => None
    end.
Proof.
  intros H429 Hhdr. simpl. rewrite bool_decide_eq_true_2 by done.
  by destruct (retry_after r).
Qed.

Lemma make_request_final (r : Response) (later : list Reply)
  (method endpoint : string) (weight : Z) :
  status r ≠ 429%Z →
  _make_request (Answer r :: later) method endpoint weight
  = Some (outcome_of r, [AcquireRateLimit weight; Send method endpoint]).
Proof.
  intros H429. simpl. rewrite bool_decide_eq_false_2 by done.
  unfold outcome_of. by case_bool_decide.
Qed.

(** C7 (amended). On every 429 response the client reads [Retry-After] (one
    second when the header is missing), sleeps that long and sends the
    request again, without a bound on the number of retries: after n
    responses 429 in a row and then a response with another status, it has
    slept the n advertised pauses in order, has sent n + 1 requests, and
    returns the body or raises the plain API error of that last response
    (418 included, which is not retried); as long as only 429 responses
    arrive the call neither returns nor raises. *)
Theorem make_request_rate_limit (rs : list Response) (final : Response)
  (later : list Reply) (method endpoint : string) (weight : Z) :
  Forall (λ r, status r = 429%Z ∧ retry_after r ≠ Malformed) rs →
  status final ≠ 429%Z →
  (∃ actions,
     _make_request ((Answer <$> rs) ++ Answer final :: later)
       method endpoint weight
     = Some (outcome_of final, actions)
     ∧ sleeps actions = (λ r, advertised (retry_after r)) <$> rs
     ∧ attempts actions = S (length rs))
  ∧ _make_request (Answer <$> rs) method endpoint weight = None.
Proof.
  intros Hrs Hfinal. induction Hrs as [|r rs [H429 Hhdr] _ [IH1 IH2]].
  - split; [|done]. eexists. split; [by apply make_request_final|done].
  - split.
    + destruct IH1 as (actions & Heq & Hsleeps & Hattempts).
      exists ([AcquireRateLimit weight; Send method endpoint]
              ++ Sleep (advertised (retry_after r)) :: actions).
      rewrite fmap_cons. rewrite <- app_comm_cons.
      rewrite make_request_cons_429, Heq by done.
      split; [done|]. split.
      * simpl. unfold sleeps in *. simpl. by rewrite Hsleeps.
      * unfold attempts in *. simpl. by rewrite Hattempts.
    + rewrite fmap_cons, make_request_cons_429, IH2 by done. done.
Qed.

(** Witness for C7: one 429 advertising two seconds, then a 200. *)
Lemma make_request_rate_limit_witness :
  ∃ actions,
    _make_request [too_many_requests 2; plain 200 "ok"] "GET" "/api/v3/time" 1
    = Some (Return "ok", actions)
    ∧ sleeps actions = [2%Z]
    ∧ attempts actions = 2%nat.
Proof.
  refine (proj1 (make_request_rate_limit
            [{| status := 429; retry_after := Seconds 2; body := "" |}]
            {| status := 200; retry_after := Absent; body := "ok" |}
            [] "GET" "/api/v3/time" 1 _ _)).
  - repeat constructor; done.
  - done.
Defined.

(** Counterexample to C7 as stated. Two 429 responses in a row are both
    retried: the call sleeps twice, sends three requests and returns the
    body of the third response instead of failing with a rate-limit error.
    A 418 response is not retried at all: no sleep, one request, and the
    plain API error. *)
Lemma make_request_retry_counterexample :
  _make_request [too_many_requests 2; too_many_requests 3; plain 200 "ok"]
    "GET" "/api/v3/time" 1
  = Some (Return "ok",
          [AcquireRateLimit 1; Send "GET" "/api/v3/time"; Sleep 2;
           AcquireRateLimit 1; Send "GET" "/api/v3/time"; Sleep 3;
           AcquireRateLimit 1; Send "GET" "/api/v3/time"])
  ∧ Return "ok" ≠ RateLimitExceeded
  ∧ _make_request
      [Answer {| status := 418; retry_after := Seconds 5; body := "" |};
       plain 200 "ok"]
      "GET" "/api/v3/time" 1
    = Some (Raise "API error",
            [AcquireRateLimit 1; Send "GET" "/api/v3/time"]).
Proof. split_and!; by vm_compute. Qed.

End rest.

(** ** Backtester *)

Section backtest.
Import Backtest.

(** Inside a run, where the simulation time is set, every LIMIT order on a
    symbol with a known, non-zero price is filled, whatever its limit: at
    the limit when the limit is marketable, at the current price when it is
    not. *)
Lemma limit_order_always_fills {RNG : Type}
  (normalvariate : Decimal → Decimal → RNG → Decimal * RNG)
  (order : Order) (g : RNG) (self : Backtester) :
  is_Some (current_time self) →
  ord_type order = LIMIT →
  default 0 (current_prices self !! ord_symbol order) ≠ 0 →
  ord_status (_execute_order normalvariate order g self).1.1 = FILLED
  ∧ length (trades (_execute_order normalvariate order g self).2)
    = S (length (trades self))
  ∧ (fill_price <$> last (trades (_execute_order normalvariate order g self).2))
    = Some (if spec_limit_fills order
                 (default 0 (current_prices self !! ord_symbol order))
            then default 0 (ord_price order)
            else default 0 (current_prices self !! ord_symbol order)).
Proof.
  intros _ Htype Hprice. unfold _execute_order.
  destruct (_simulate_latency normalvariate g self) as [latency g'].
  rewrite bool_decide_eq_false_2 by done. simpl.
  rewrite length_app. simpl.
  split_and!; [done|lia|]. rewrite last_snoc. simpl. f_equal.
  unfold _calculate_execution_price, spec_limit_fills. rewrite Htype.
  destruct (ord_price order) as [price|]; [|done]. simpl.
  by destruct (ord_side order).
Qed.

(** C2 (code defect). With the price of BTCUSDT at 100, a LIMIT BUY of 1 at
    90 does not meet the fill condition (90 >= 100 fails), yet
    [_execute_order] marks it FILLED and appends a fill at the current price
    100, charging the capital. *)
Theorem limit_order_not_marketable_fills :
  spec_limit_fills (c2_limit_buy "BTCUSDT" (dec 90)) (dec 100) = false
  ∧ current_prices c2_backtester !! "BTCUSDT" = Some (dec 100)
  ∧ trades c2_backtester = []
  ∧ ord_status
      (_execute_order mean_latency (c2_limit_buy "BTCUSDT" (dec 90)) ()
         c2_backtester).1.1 = FILLED
  ∧ ((λ f, (fill_side f, fill_quantity f, fill_price f))
       <$> trades (_execute_order mean_latency
                     (c2_limit_buy "BTCUSDT" (dec 90)) () c2_backtester).2)
    = [(BUY, 1, dec 100)]
  ∧ current_capital
      (_execute_order mean_latency (c2_limit_buy "BTCUSDT" (dec 90)) ()
         c2_backtester).2 = dec 9899.9.
Proof. split_and!; by vm_compute. Qed.

(** C9. Executing an order whose symbol has no known current price (the
    lookup yields zero) sets the order's status to REJECTED and leaves
    everything else as it was: the order's other fields, and the whole
    backtester, so no fill is appended and the capital, the positions, the
    entry prices and the fee and slippage totals are unchanged. *)
Theorem execute_order_unknown_price {RNG : Type}
  (normalvariate : Decimal → Decimal → RNG → Decimal * RNG)
  (order : Order) (g : RNG) (self : Backtester) :
  default 0 (current_prices self !! ord_symbol order) = 0 →
  (_execute_order normalvariate order g self).1.1
  = with_status REJECTED order
  ∧ ord_status (_execute_order normalvariate order g self).1.1 = REJECTED
  ∧ (_execute_order normalvariate order g self).2 = self
  ∧ trades (_execute_order normalvariate order g self).2 = trades self
  ∧ current_capital (_execute_order normalvariate order g self).2
    = current_capital self
  ∧ positions (_execute_order normalvariate order g self).2 = positions self
  ∧ entry_prices (_execute_order normalvariate order g self).2
    = entry_prices self
  ∧ total_fees (_execute_order normalvariate order g self).2 = total_fees self
  ∧ total_slippage (_execute_order normalvariate order g self).2
    = total_slippage self.
Proof.
  intros Hzero. unfold _execute_order.
  destruct (_simulate_latency normalvariate g self) as [latency g'].
  by rewrite bool_decide_eq_true_2.
Qed.

(** Witness for C9: an order for ETHUSDT when only BTCUSDT has a price. *)
Lemma execute_order_unknown_price_witness :
  ord_status
    (_execute_order mean_latency (c2_limit_buy "ETHUSDT" (dec 90)) ()
       c2_backtester).1.1 = REJECTED
  ∧ (_execute_order mean_latency (c2_limit_buy "ETHUSDT" (dec 90)) ()
       c2_backtester).2 = c2_backtester.
Proof.
  refine (let H := execute_order_unknown_price mean_latency
                     (c2_limit_buy "ETHUSDT" (dec 90)) () c2_backtester _ in
          conj (proj1 (proj2 H)) (proj1 (proj2 (proj2 H)))).
  by vm_compute.
Defined.

(** *** Determinism of a run *)

Section determinism.

(** Two interpreters whose [random] modules differ in every respect: the
    generator states, the seeding and the draws. *)
Context {RNG1 RNG2 S : Type}.
Variable seed1 : Z → RNG1.
Variable seed2 : Z → RNG2.
Variable draw1 : Decimal → Decimal → RNG1 → Decimal * RNG1.
Variable draw2 : Decimal → Decimal → RNG2 → Decimal * RNG2.
Variable sqrt : Decimal → Decimal.
Variable strategy : Strategy S.

Lemma execute_order_agree (order : Order) (g1 : RNG1) (g2 : RNG2)
  (self : Backtester) :
  (_execute_order draw1 order g1 self).1.1
  = (_execute_order draw2 order g2 self).1.1
  ∧ (_execute_order draw1 order g1 self).2
    = (_execute_order draw2 order g2 self).2.
Proof.
  unfold _execute_order.
  destruct (_simulate_latency draw1 g1 self) as [l1 g1'].
  destruct (_simulate_latency draw2 g2 self) as [l2 g2'].
  by case_bool_decide.
Qed.

Lemma handle_signal_agree (signal : TradingSignal) (g1 : RNG1) (g2 : RNG2)
  (self : Backtester) :
  (_handle_signal draw1 signal g1 self).2
  = (_handle_signal draw2 signal g2 self).2.
Proof.
  unfold _handle_signal.
  match goal with
  | |- context [_execute_order draw1 ?o g1 ?s] =>
      destruct (execute_order_agree o g1 g2 s) as [Ho Hs];
      destruct (_execute_order draw1 o g1 s) as [[o1 g1'] s1];
      destruct (_execute_order draw2 o g2 s) as [[o2 g2'] s2]
  end.
  simpl in *. by subst.
Qed.

Lemma handle_signals_agree (signals : list TradingSignal) (g1 : RNG1)
  (g2 : RNG2) (self : Backtester) :
  (handle_signals draw1 signals g1 self).2
  = (handle_signals draw2 signals g2 self).2.
Proof.
  revert g1 g2 self. unfold handle_signals.
  induction signals as [|signal signals IH]; intros g1 g2 self; [done|].
  simpl. pose proof (handle_signal_agree signal g1 g2 self) as H.
  destruct (_handle_signal draw1 signal g1 self) as [g1' s1].
  destruct (_handle_signal draw2 signal g2 self) as [g2' s2].
  simpl in H. subst s2. apply IH.
Qed.

Lemma step_symbol_agree (timestamp : datetime) (symbol : string)
  (x : S * RNG1 * Backtester) (y : S * RNG2 * Backtester) :
  agree x y →
  agree (step_symbol draw1 strategy timestamp x symbol)
        (step_symbol draw2 strategy timestamp y symbol).
Proof.
  destruct x as [[st g1] self], y as [[st' g2] self'].
  intros [Hst Hself]. simpl in Hst, Hself. subst st' self'.
  unfold step_symbol.
  destruct (historical_data self !! symbol) as [klines|]; [|done].
  destruct (List.find _ klines) as [kline|]; [|done].
  destruct (on_market_data strategy _ st) as [st' signals].
  match goal with
  | |- context [handle_signals draw1 signals g1 ?s] =>
      pose proof (handle_signals_agree signals g1 g2 s) as H;
      destruct (handle_signals draw1 signals g1 s) as [g1' s1];
      destruct (handle_signals draw2 signals g2 s) as [g2' s2]
  end.
  simpl in H. by subst.
Qed.

Lemma foldl_agree {A : Type}
  (f1 : S * RNG1 * Backtester → A → S * RNG1 * Backtester)
  (f2 : S * RNG2 * Backtester → A → S * RNG2 * Backtester) (l : list A) :
  (∀ x y a, agree x y → agree (f1 x a) (f2 y a)) →
  ∀ x y, agree x y → agree (foldl f1 x l) (foldl f2 y l).
Proof.
  intros Hf. induction l as [|a l IH]; intros x y Hxy; [done|].
  simpl. apply IH. by apply Hf.
Qed.

Lemma step_timestamp_agree (symbols : list string) (timestamp : datetime)
  (x : S * RNG1 * Backtester) (y : S * RNG2 * Backtester) :
  agree x y →
  agree (step_timestamp draw1 strategy symbols x timestamp)
        (step_timestamp draw2 strategy symbols y timestamp).
Proof.
  destruct x as [[st g1] self], y as [[st' g2] self'].
  intros [Hst Hself]. simpl in Hst, Hself. subst st' self'.
  unfold step_timestamp.
  match goal with
  | |- context [foldl _ (st, g1, ?s) symbols] =>
      pose proof (foldl_agree (step_symbol draw1 strategy timestamp)
                    (step_symbol draw2 strategy timestamp) symbols
                    (λ x y a, step_symbol_agree timestamp a x y)
                    (st, g1, s) (st, g2, s) (conj eq_refl eq_refl)) as H;
      destruct (foldl (step_symbol draw1 strategy timestamp)
                  (st, g1, s) symbols) as [[st1 g1'] s1];
      destruct (foldl (step_symbol draw2 strategy timestamp)
                  (st, g2, s) symbols) as [[st2 g2'] s2]
  end.
  destruct H as [H1 H2]. simpl in H1, H2. by subst.
Qed.

Lemma run_simulation_agree (symbols : list string)
  (x : S * RNG1 * Backtester) (y : S * RNG2 * Backtester) :
  agree x y →
  agree (_run_simulation draw1 strategy symbols x)
        (_run_simulation draw2 strategy symbols y).
Proof.
  intros Hxy. unfold _run_simulation.
  replace (timestamps symbols y.2) with (timestamps symbols x.2)
    by by destruct Hxy as [_ ->].
  apply foldl_agree; [|done].
  intros. by apply step_timestamp_agree.
Qed.

Lemma run_backtest_agree (data : gmap string (list Kline))
  (symbols : list string) (st : S) (g1 : RNG1) (g2 : RNG2)
  (self : Backtester) :
  (run_backtest draw1 sqrt strategy data symbols st g1 self).1
  = (run_backtest draw2 sqrt strategy data symbols st g2 self).1
  ∧ agree (run_backtest draw1 sqrt strategy data symbols st g1 self).2
          (run_backtest draw2 sqrt strategy data symbols st g2 self).2.
Proof.
  unfold run_backtest. simpl.
  pose proof (run_simulation_agree symbols
                (st, g1, _initialize_backtest data symbols self)
                (st, g2, _initialize_backtest data symbols self)
                (conj eq_refl eq_refl)) as [H1 H2].
  split; [by rewrite H2|done].
Qed.

(** C5. Two runs of the backtester on fresh instances, with the same
    strategy, the same historical klines, the same symbols and the same
    configuration, produce the same [BacktestResult], the same sequence of
    fills and the same final books. The generator is seeded by [__init__],
    so both runs start from the same seed; the statement holds even when
    the two generators differ, because the latency drawn from them only
    sets the length of a sleep. *)
Theorem backtest_deterministic (config : BacktestConfig)
  (data : gmap string (list Kline)) (symbols : list string) (st : S) :
  (fresh_run seed1 draw1 sqrt strategy config data symbols st).1
  = (fresh_run seed2 draw2 sqrt strategy config data symbols st).1
  ∧ trades (fresh_run seed1 draw1 sqrt strategy config data symbols st).2.2
    = trades (fresh_run seed2 draw2 sqrt strategy config data symbols st).2.2
  ∧ (fresh_run seed1 draw1 sqrt strategy config data symbols st).2.2
    = (fresh_run seed2 draw2 sqrt strategy config data symbols st).2.2
  ∧ (fresh_run seed1 draw1 sqrt strategy config data symbols st).2.1.1
    = (fresh_run seed2 draw2 sqrt strategy config data symbols st).2.1.1.
Proof.
  unfold fresh_run, __init__.
  match goal with
  | |- context [run_backtest draw1 sqrt strategy data symbols st ?g1 ?s] =>
      destruct (run_backtest_agree data symbols st g1 (seed2 42) s)
        as (Hres & Hst & Hself)
  end.
  split_and!; [done| |done|done]. by f_equal.
Qed.

End determinism.

End backtest.

(** ** Market maker *)

Section market_maker.
Import MarketMaker.

Ltac unfold_py :=
  unfold try_except, raise, modify, get, mbind, py_bind, mret, py_ret.

(** The fair price is zero for every book: a book with an empty side by
    the first test, a two-sided book because the subscription raises. *)
Lemma calculate_fair_price_eq (symbol : string) (orderbook : OrderBook)
  (s : MarketMakerStrategy) :
  _calculate_fair_price symbol orderbook s = (Return (PyDecimal 0), s).
Proof.
  unfold _calculate_fair_price, getitem. unfold_py.
  destruct (ob_bids orderbook) as [|bid bids]; [done|].
  by destruct (ob_asks orderbook) as [|ask asks].
Qed.

(** The spread of a fair price of zero: the [try] block always raises, at
    the first product when [spread_pct] is a [float], at the division or at
    the product with [0.5] otherwise; the [except] clause then returns zero
    or raises the [TypeError] again. *)
Lemma calculate_spread_zero (symbol : string) (s : MarketMakerStrategy) :
  _calculate_spread symbol (PyDecimal 0) s = (Return (PyDecimal 0), s)
  ∨ ∃ e, _calculate_spread symbol (PyDecimal 0) s = (Raise e, s).
Proof.
  assert (∀ d : Decimal, PyDecimal (0 * d) = PyDecimal 0) as Hzero.
  { intros d. f_equal. ring. }
  unfold _calculate_spread, py_mul, py_add, py_div, py_arith, py_abs.
  unfold_py.
  destruct (spread_pct s) as [d|x|z] eqn:Hpct; simpl;
    [|rewrite Hpct; right; eauto|].
  - destruct (max_inventory s) as [m|m|m]; simpl;
      try case_bool_decide; simpl; rewrite Hpct, ?Hzero; eauto.
  - destruct (max_inventory s) as [m|m|m]; simpl;
      try case_bool_decide; simpl; rewrite Hpct, ?Hzero; eauto.
Qed.

Lemma refresh_orders_emits_nothing (now : Decimal) (symbol : string)
  (s : MarketMakerStrategy) :
  (_refresh_orders now symbol s).1 = Return ()
  ∧ emitted (_refresh_orders now symbol s).2 = emitted s
  ∧ signals_generated (_refresh_orders now symbol s).2 = signals_generated s.
Proof.
  unfold _refresh_orders, _cancel_existing_orders.
  unfold try_except at 1 2 3.
  unfold modify, get, mbind, py_bind, mret, py_ret. simpl.
  destruct (get_orderbook symbol _) as [orderbook|]; [|done].
  rewrite calculate_fair_price_eq.
  destruct (calculate_spread_zero symbol
              (set_quoting (<[symbol:=[]]> (active_orders s)) (last_refresh s)
                 (signals_generated s) (emitted s) s)) as [->|[e ->]];
    [|done].
  unfold py_div, py_sub, py_add, py_arith. by simpl.
Qed.

(** C8 (code defect). The quotes that the claim describes are never
    emitted. At the inventory-skew scenario of the specification (inventory
    500, mid price 100, bias 0.1, base spread 0.1 %, maximal inventory
    1000, order size 100) the claim quotes a bid of 100 at 149.90625 and an
    ask of 100 at 150.09375; [_refresh_orders] computes a fair price of
    zero and emits nothing. It emits nothing for any strategy, book and
    symbol: the fair price is zero for every book, and the spread of a fair
    price of zero is zero or raises. *)
Theorem refresh_orders_never_quotes (now : Decimal) (symbol : string)
  (orderbook : OrderBook) (s : MarketMakerStrategy) :
  spec_quotes "mm" "BTCUSDT" (dec 100) (dec 1000) (dec 500)
    (spec_fair_price (dec 100) (dec 0.1) (dec 500))
    (spec_spread (dec 0.001) (spec_fair_price (dec 100) (dec 0.1) (dec 500))
       0 (dec 500) (dec 1000))
  = [quote "mm" "BTCUSDT" BUY (dec 100) (dec 149.90625);
     quote "mm" "BTCUSDT" SELL (dec 100) (dec 150.09375)]
  ∧ emitted (_refresh_orders now "BTCUSDT" c8_strategy).2 = []
  ∧ (_calculate_fair_price "BTCUSDT" c8_book c8_strategy).1
    = Return (PyDecimal 0)
  ∧ (_calculate_fair_price symbol orderbook s).1 = Return (PyDecimal 0)
  ∧ emitted (_refresh_orders now symbol s).2 = emitted s
  ∧ signals_generated (_refresh_orders now symbol s).2 = signals_generated s.
Proof.
  split_and!.
  - unfold spec_quotes, spec_spread, spec_fair_price, quote.
    rewrite !bool_decide_eq_false_2 by by vm_compute. simpl.
    repeat f_equal; by apply Qc_is_canon.
  - by destruct (refresh_orders_emits_nothing now "BTCUSDT" c8_strategy)
      as (_ & -> & _).
  - by rewrite calculate_fair_price_eq.
  - by rewrite calculate_fair_price_eq.
  - by destruct (refresh_orders_emits_nothing now symbol s) as (_ & -> & _).
  - by destruct (refresh_orders_emits_nothing now symbol s) as (_ & _ & ->).
Qed.

End market_maker.

(** ** Invariants of a backtest run *)

Section backtest_invariants.
Import Backtest.

Context {RNG S : Type}.
Variable draw : Decimal → Decimal → RNG → Decimal * RNG.
Variable sqrt : Decimal → Decimal.
Variable strategy : Strategy S.

(** A property of the backtester that signal handling, the market update
    and the performance update preserve holds throughout a simulation. *)
Lemma run_simulation_invariant (P : Backtester → Prop) :
  (∀ signal g self, P self → P (_handle_signal draw signal g self).2) →
  (∀ t prices self,
     P self → P (set_market t (prices (current_prices self)) self)) →
  (∀ self, P self → P (_update_performance_metrics self)) →
  ∀ symbols (x : S * RNG * Backtester),
    P x.2 → P (_run_simulation draw strategy symbols x).2.
Proof.
  intros Hsignal Hmarket Hperf symbols x Hx. unfold _run_simulation.
  generalize (timestamps symbols x.2). intros ts. revert x Hx.
  induction ts as [|t ts IH]; intros x Hx; [done|].
  simpl. apply IH. clear IH.
  destruct x as [[st g] self]. simpl in Hx. unfold step_timestamp.
  assert (∀ (l : list string) (y : S * RNG * Backtester),
            P y.2 → P (foldl (step_symbol draw strategy t) y l).2) as Hfold.
  { induction l as [|symbol l IHl]; intros y Hy; [done|].
    simpl. apply IHl. destruct y as [[st' g'] self']. simpl in Hy.
    unfold step_symbol.
    destruct (historical_data self' !! symbol) as [klines|]; [|done].
    destruct (List.find _ klines) as [kline|]; [|done].
    destruct (on_market_data strategy _ st') as [st'' signals].
    match goal with
    | |- context [handle_signals draw signals g' ?s1] =>
        assert (P s1) as Hs1
          by apply (Hmarket (current_time self')
                      (λ prices, <[symbol := k_close_price kline]> prices)
                      self' Hy);
        generalize dependent s1
    end.
    intros s1 Hs1. clear Hy. revert g' s1 Hs1. unfold handle_signals.
    induction signals as [|signal signals IHs]; intros g' s1 Hs1; [done|].
    simpl. specialize (Hsignal signal g' s1 Hs1).
    destruct (_handle_signal draw signal g' s1) as [g'' s2]. by apply IHs. }
  specialize (Hfold symbols
                (st, g, set_market (Some t) (current_prices self) self)
                (Hmarket (Some t) (λ prices, prices) self Hx)).
  destruct (foldl _ _ symbols) as [[st' g'] self']. simpl in *.
  by apply Hperf.
Qed.

Lemma sum_list_snoc (l : list Decimal) (x : Decimal) :
  sum_list (l ++ [x]) = sum_list l + x.
Proof.
  unfold sum_list. induction l as [|y l IH]; simpl; [ring|].
  rewrite IH. ring.
Qed.

Lemma net_notional_snoc (l : list Fill) (f : Fill) :
  net_notional (l ++ [f]) = net_notional l + signed_notional f.
Proof. unfold net_notional. rewrite fmap_app. exact (sum_list_snoc _ _). Qed.

Lemma sum_signed_fills_snoc (symbol : string) (l : list Fill) (f : Fill) :
  Accounting.sum_signed_fills symbol (l ++ [f])
  = Accounting.sum_signed_fills symbol l
    + (if bool_decide (fill_symbol f = symbol)
       then Accounting.signed_quantity f else 0).
Proof. induction l as [|y l IH]; simpl; [ring|]. rewrite IH. ring. Qed.

(** The two ways [_handle_signal] ends: the order is rejected and only the
    order list grows, or it is filled and the fill is booked. *)
Lemma handle_signal_cases (signal : TradingSignal) (g : RNG)
  (self : Backtester) :
  ∃ order,
    ord_symbol order = sig_symbol signal
    ∧ ((default 0 (current_prices self !! sig_symbol signal) = 0
        ∧ ord_status order = REJECTED
        ∧ (_handle_signal draw signal g self).2
          = set_orders (orders self ++ [order]) self)
       ∨ (default 0 (current_prices self !! sig_symbol signal) ≠ 0
          ∧ ord_status order = FILLED
          ∧ ∃ fill,
              (_handle_signal draw signal g self).2
              = set_orders (orders self ++ [order])
                  (book_fill fill
                     (default 0 (current_prices self !! sig_symbol signal))
                     self)
              ∧ fill_symbol fill = sig_symbol signal
              ∧ fill_side fill = sig_side signal
              ∧ fill_quantity fill = sig_quantity signal
              ∧ fill_trade_id fill = (Z.of_nat (length (trades self)) + 1)%Z
              ∧ fill_order_id fill = Z.of_nat (length (orders self) + 1)
              ∧ fill_commission fill
                = fill_quantity fill * fill_price fill * commission self)).
Proof.
  unfold _handle_signal, _execute_order.
  match goal with
  | |- context [_simulate_latency draw g ?s] =>
      destruct (_simulate_latency draw g s) as [latency g']
  end.
  simpl. case_bool_decide as Hprice.
  - eexists. split; [|left; split_and!; [done| |reflexivity]]; done.
  - eexists. split; [|right; split; [done|split; [|eexists; split_and!;
      [reflexivity|..]]]]; simpl; try done.
    by rewrite length_app.
Qed.

(** The books at the end of a run. *)
Lemma run_backtest_final (P : Backtester → Prop)
  (data : gmap string (list Kline)) (symbols : list string) (st : S)
  (g : RNG) (self : Backtester) :
  (∀ signal g self, P self → P (_handle_signal draw signal g self).2) →
  (∀ t prices self,
     P self → P (set_market t (prices (current_prices self)) self)) →
  (∀ self, P self → P (_update_performance_metrics self)) →
  P (_initialize_backtest data symbols self) →
  P (run_backtest draw sqrt strategy data symbols st g self).2.2.
Proof.
  intros H1 H2 H3 H0. unfold run_backtest. simpl.
  by apply (run_simulation_invariant P H1 H2 H3 symbols
              (st, g, _initialize_backtest data symbols self)).
Qed.

Lemma update_performance_books (self : Backtester) :
  current_capital (_update_performance_metrics self) = current_capital self
  ∧ total_fees (_update_performance_metrics self) = total_fees self
  ∧ trades (_update_performance_metrics self) = trades self
  ∧ orders (_update_performance_metrics self) = orders self
  ∧ positions (_update_performance_metrics self) = positions self
  ∧ initial_capital (_update_performance_metrics self) = initial_capital self
  ∧ current_prices (_update_performance_metrics self) = current_prices self.
Proof. unfold _update_performance_metrics. by case_bool_decide. Qed.

(** Cash ledger. At the end of every run the capital, the fees charged and
    the net notional of the fills (bought less sold, at execution prices)
    add up to the initial capital: no cash appears or disappears. *)
Theorem backtest_cash_ledger (data : gmap string (list Kline))
  (symbols : list string) (st : S) (g : RNG) (self : Backtester) :
  current_capital (run_backtest draw sqrt strategy data symbols st g self).2.2
  + total_fees (run_backtest draw sqrt strategy data symbols st g self).2.2
  + net_notional
      (trades (run_backtest draw sqrt strategy data symbols st g self).2.2)
  = initial_capital self.
Proof.
  apply (run_backtest_final
           (λ s, current_capital s + total_fees s + net_notional (trades s)
                 = initial_capital self)).
  - intros signal g' s Hs.
    destruct (handle_signal_cases signal g' s)
      as (order & _ & [(_ & _ & ->)|(_ & _ & fill & -> & _ & _ & _ & _ & _ & _)]);
      [done|].
    simpl. rewrite net_notional_snoc. unfold signed_notional.
    rewrite <- Hs. destruct (fill_side fill); ring.
  - done.
  - intros s Hs.
    destruct (update_performance_books s) as (-> & -> & -> & _). done.
  - simpl. unfold net_notional, sum_list. simpl. ring.
Qed.

(** Position identity of the backtester. At the end of every run the
    position of each symbol is the sum of the signed quantities of the fills
    of that symbol (+qty for BUY, -qty for SELL). *)
Theorem backtest_position_identity (data : gmap string (list Kline))
  (symbols : list string) (st : S) (g : RNG) (self : Backtester)
  (symbol : string) :
  default 0
    (positions (run_backtest draw sqrt strategy data symbols st g self).2.2
     !! symbol)
  = Accounting.sum_signed_fills symbol
      (trades (run_backtest draw sqrt strategy data symbols st g self).2.2).
Proof.
  apply (run_backtest_final
           (λ s, default 0 (positions s !! symbol)
                 = Accounting.sum_signed_fills symbol (trades s))).
  - intros signal g' s Hs.
    destruct (handle_signal_cases signal g' s)
      as (order & _ & [(_ & _ & ->)|(_ & _ & fill & -> & _ & _ & _ & _ & _ & _)]);
      [done|].
    simpl. rewrite sum_signed_fills_snoc, <- Hs.
    unfold Accounting.signed_quantity.
    destruct (decide (fill_symbol fill = symbol)) as [<-|Hne].
    + rewrite lookup_insert_eq, bool_decide_eq_true_2 by done. simpl.
      by destruct (fill_side fill).
    + rewrite lookup_insert_ne, bool_decide_eq_false_2 by done. ring.
  - done.
  - intros s Hs.
    destruct (update_performance_books s) as (_ & _ & -> & _ & -> & _). done.
  - simpl. by rewrite lookup_empty.
Qed.

(** Trade numbering. The fills of a run carry the trade ids 1, 2, ..., n in
    the order in which they were made; in particular no two fills share a
    trade id. *)
Theorem backtest_trade_ids (data : gmap string (list Kline))
  (symbols : list string) (st : S) (g : RNG) (self : Backtester) :
  fill_trade_id
    <$> trades (run_backtest draw sqrt strategy data symbols st g self).2.2
  = Z.of_nat
      <$> seq 1 (length
                   (trades
                      (run_backtest draw sqrt strategy data symbols st g
                         self).2.2)).
Proof.
  apply (run_backtest_final
           (λ s, fill_trade_id <$> trades s
                 = Z.of_nat <$> seq 1 (length (trades s)))).
  - intros signal g' s Hs.
    destruct (handle_signal_cases signal g' s)
      as (order & _ & [(_ & _ & ->)|(_ & _ & fill & -> & _ & _ & _ & Hid & _)]);
      [done|].
    simpl. rewrite fmap_app, length_app, seq_app, fmap_app, Hs. simpl.
    rewrite Hid. do 2 f_equal. lia.
  - done.
  - intros s Hs.
    destruct (update_performance_books s) as (_ & _ & -> & _). done.
  - done.
Qed.

Lemma count_status_snoc (st : OrderStatus) (os : list Order) (o : Order) :
  count_status st (os ++ [o])
  = (count_status st os + if bool_decide (ord_status o = st) then 1 else 0)%nat.
Proof.
  unfold count_status. rewrite List.filter_app, length_app. simpl.
  by case_bool_decide.
Qed.

(** No order stays open. At the end of every run each order the strategy
    submitted is FILLED or REJECTED, and there is exactly one fill per
    FILLED order. *)
Theorem backtest_orders_closed (data : gmap string (list Kline))
  (symbols : list string) (st : S) (g : RNG) (self : Backtester) :
  Forall (λ o, ord_status o = FILLED ∨ ord_status o = REJECTED)
    (orders (run_backtest draw sqrt strategy data symbols st g self).2.2)
  ∧ length
      (trades (run_backtest draw sqrt strategy data symbols st g self).2.2)
    = count_status FILLED
        (orders (run_backtest draw sqrt strategy data symbols st g self).2.2)
  ∧ length
      (orders (run_backtest draw sqrt strategy data symbols st g self).2.2)
    = (count_status FILLED
         (orders (run_backtest draw sqrt strategy data symbols st g self).2.2)
       + count_status REJECTED
           (orders
              (run_backtest draw sqrt strategy data symbols st g self).2.2))
        %nat.
Proof.
  apply (run_backtest_final
           (λ s, Forall (λ o, ord_status o = FILLED ∨ ord_status o = REJECTED)
                   (orders s)
                 ∧ length (trades s) = count_status FILLED (orders s)
                 ∧ length (orders s)
                   = (count_status FILLED (orders s)
                      + count_status REJECTED (orders s))%nat)).
  - intros signal g' s (Hall & Htrades & Horders).
    destruct (handle_signal_cases signal g' s)
      as (order & _ & [(_ & Hst & ->)|(_ & Hst & fill & -> & _)]);
      simpl; rewrite !count_status_snoc, ?length_app, Hst; simpl;
      (split_and!; [apply Forall_app; split; [done|]
                   ; apply Forall_singleton; auto
                   |lia|lia]).
  - done.
  - intros s Hs.
    destruct (update_performance_books s) as (_ & _ & -> & -> & _). done.
  - done.
Qed.

Lemma Qcmax_ge_l (a b : Decimal) : a <= Qcmax a b.
Proof.
  unfold Qcmax. case_bool_decide as H; [by apply Qclt_le_weak|].
  apply Qcle_refl.
Qed.

(** After [_update_performance_metrics] the peak is at least the portfolio
    value, and the running maximum covers the current drawdown. *)
Lemma update_performance_post (self : Backtester) :
  portfolio_value (_update_performance_metrics self)
  <= peak_capital (_update_performance_metrics self)
  ∧ (peak_capital (_update_performance_metrics self) ≠ 0 →
     (peak_capital (_update_performance_metrics self)
      - portfolio_value (_update_performance_metrics self))
     / peak_capital (_update_performance_metrics self)
     <= max_drawdown (_update_performance_metrics self)).
Proof.
  unfold _update_performance_metrics. cbv zeta.
  set (value := portfolio_value self).
  set (peak := if bool_decide (peak_capital self < value) then value
               else peak_capital self).
  assert (value <= peak) as Hpeak.
  { unfold peak. case_bool_decide as H; [apply Qcle_refl|by apply Qcnot_lt_le]. }
  destruct (bool_decide (peak = 0)) eqn:Hzero; simpl.
  - apply bool_decide_eq_true_1 in Hzero.
    split; [done|]. intros Hne. by destruct Hne.
  - apply bool_decide_eq_false_1 in Hzero.
    split; [done|]. intros _.
    change (portfolio_value (set_performance _ _ _ self)) with value.
    case_bool_decide as Hdd; [apply Qcle_refl|by apply Qcnot_lt_le].
Qed.

Lemma update_performance_monotone (self : Backtester) :
  peak_capital self <= peak_capital (_update_performance_metrics self)
  ∧ max_drawdown self <= max_drawdown (_update_performance_metrics self).
Proof.
  unfold _update_performance_metrics. cbv zeta.
  set (value := portfolio_value self).
  set (peak := if bool_decide (peak_capital self < value) then value
               else peak_capital self).
  assert (peak_capital self <= peak) as Hpeak.
  { unfold peak. case_bool_decide as H; [by apply Qclt_le_weak|apply Qcle_refl]. }
  destruct (bool_decide (peak = 0)) eqn:Hzero; simpl.
  - split; [done|apply Qcle_refl].
  - apply bool_decide_eq_false_1 in Hzero.
    split; [done|].
    case_bool_decide as Hdd; [by apply Qclt_le_weak|apply Qcle_refl].
Qed.

(** A simulation either has no timestamp and leaves the books as they
    are, or ends with a performance update. *)
Lemma run_simulation_last (symbols : list string)
  (x : S * RNG * Backtester) :
  (_run_simulation draw strategy symbols x).2 = x.2
  ∨ ∃ self,
      (_run_simulation draw strategy symbols x).2
      = _update_performance_metrics self.
Proof.
  unfold _run_simulation. generalize (timestamps symbols x.2). intros ts.
  revert x. induction ts as [|t ts IH]; intros x; [by left|].
  simpl. destruct (IH (step_timestamp draw strategy symbols x t))
    as [->|Hlast]; [|by right].
  right. destruct x as [[st g] self]. unfold step_timestamp.
  destruct (foldl _ _ symbols) as [[st' g'] self']. simpl. eauto.
Qed.

(** Peak and drawdown. At the end of every run the peak capital is at least
    the initial capital and at least the final portfolio value, the maximal
    drawdown is not negative, and it is at least the drawdown from the peak
    at which the run ends. *)
Theorem backtest_peak_and_drawdown (data : gmap string (list Kline))
  (symbols : list string) (st : S) (g : RNG) (self : Backtester) :
  initial_capital self
  <= peak_capital (run_backtest draw sqrt strategy data symbols st g self).2.2
  ∧ portfolio_value
      (run_backtest draw sqrt strategy data symbols st g self).2.2
    <= peak_capital
         (run_backtest draw sqrt strategy data symbols st g self).2.2
  ∧ 0 <= max_drawdown
           (run_backtest draw sqrt strategy data symbols st g self).2.2
  ∧ (peak_capital
       (run_backtest draw sqrt strategy data symbols st g self).2.2 ≠ 0 →
     (peak_capital
        (run_backtest draw sqrt strategy data symbols st g self).2.2
      - portfolio_value
          (run_backtest draw sqrt strategy data symbols st g self).2.2)
     / peak_capital
         (run_backtest draw sqrt strategy data symbols st g self).2.2
     <= max_drawdown
          (run_backtest draw sqrt strategy data symbols st g self).2.2).
Proof.
  assert (initial_capital self
          <= peak_capital
               (run_backtest draw sqrt strategy data symbols st g self).2.2
          ∧ 0 <= max_drawdown
                   (run_backtest draw sqrt strategy data symbols st g
                      self).2.2) as [Hpeak Hdd].
  { apply (run_backtest_final
             (λ s, initial_capital self <= peak_capital s
                   ∧ 0 <= max_drawdown s)).
    - intros signal g' s Hs.
      by destruct (handle_signal_cases signal g' s)
        as (order & _ & [(_ & _ & ->)|(_ & _ & fill & -> & _)]).
    - done.
    - intros s [H1 H2].
      destruct (update_performance_monotone s) as [H3 H4].
      split; by eapply Qcle_trans.
    - simpl. split; apply Qcle_refl. }
  cut (portfolio_value
         (run_backtest draw sqrt strategy data symbols st g self).2.2
       <= peak_capital
            (run_backtest draw sqrt strategy data symbols st g self).2.2
       ∧ (peak_capital
            (run_backtest draw sqrt strategy data symbols st g self).2.2 ≠ 0 →
          (peak_capital
             (run_backtest draw sqrt strategy data symbols st g self).2.2
           - portfolio_value
               (run_backtest draw sqrt strategy data symbols st g self).2.2)
          / peak_capital
              (run_backtest draw sqrt strategy data symbols st g self).2.2
          <= max_drawdown
               (run_backtest draw sqrt strategy data symbols st g self).2.2)).
  { intros [H1 H2]. by split_and!. }
  clear Hpeak Hdd. unfold run_backtest. simpl.
  destruct (run_simulation_last symbols
              (st, g, _initialize_backtest data symbols self))
    as [->|[s' ->]]; [|apply update_performance_post].
  simpl. unfold portfolio_value. simpl. rewrite map_fold_empty.
  replace (initial_capital self + 0) with (initial_capital self) by ring.
  split; [apply Qcle_refl|]. intros Hne.
  replace (initial_capital self - initial_capital self) with (Q2Qc 0) by ring.
  replace (0 / initial_capital self) with (Q2Qc 0) by by field.
  apply Qcle_refl.
Qed.

Lemma count_side_total (fills : list Fill) :
  (count_side BUY fills + count_side SELL fills)%nat = length fills.
Proof.
  unfold count_side. induction fills as [|f fills IH]; [done|].
  simpl. destruct (fill_side f); simpl; lia.
Qed.

Lemma run_backtest_initial_capital (data : gmap string (list Kline))
  (symbols : list string) (st : S) (g : RNG) (self : Backtester) :
  initial_capital (run_backtest draw sqrt strategy data symbols st g self).2.2
  = initial_capital self.
Proof.
  apply (run_backtest_final (λ s, initial_capital s = initial_capital self)).
  - intros signal g' s Hs.
    by destruct (handle_signal_cases signal g' s)
      as (order & _ & [(_ & _ & ->)|(_ & _ & fill & -> & _)]).
  - done.
  - intros s Hs.
    destruct (update_performance_books s) as (_ & _ & _ & _ & _ & -> & _).
    done.
  - done.
Qed.

(** A run without capital. [run_backtest] raises exactly when the initial
    capital is zero (the return percentage divides by it), and then only
    after the whole simulation has been run; with any other capital it
    returns a result. *)
Theorem backtest_raises_iff_no_capital (data : gmap string (list Kline))
  (symbols : list string) (st : S) (g : RNG) (self : Backtester) :
  (initial_capital self = 0 ↔
   ∃ e, (run_backtest draw sqrt strategy data symbols st g self).1 = Raise e)
  ∧ (initial_capital self ≠ 0 ↔
     ∃ r, (run_backtest draw sqrt strategy data symbols st g self).1
          = Return r).
Proof.
  pose proof (run_backtest_initial_capital data symbols st g self) as Hcap.
  unfold run_backtest in *. simpl in *. unfold _calculate_results.
  rewrite Hcap. case_bool_decide as Hzero.
  - split; split; try done; eauto. by intros [r Hr].
  - split; split; try done; eauto. by intros [e He].
Qed.

(** The statistics of a result. When a run returns, its result lists the
    fills of the run, counts each BUY fill as a winning and each SELL fill
    as a losing trade, so that winning + losing = total = number of fills,
    and reports the final portfolio value, which is the initial capital plus
    the total return. *)
Theorem backtest_result_counts (data : gmap string (list Kline))
  (symbols : list string) (st : S) (g : RNG) (self : Backtester)
  (r : BacktestResult) :
  (run_backtest draw sqrt strategy data symbols st g self).1 = Return r →
  res_trades r
  = trades (run_backtest draw sqrt strategy data symbols st g self).2.2
  ∧ res_winning_trades r = count_side BUY (res_trades r)
  ∧ res_losing_trades r = count_side SELL (res_trades r)
  ∧ (res_winning_trades r + res_losing_trades r)%nat = res_total_trades r
  ∧ res_total_trades r = length (res_trades r)
  ∧ res_final_capital r
    = portfolio_value
        (run_backtest draw sqrt strategy data symbols st g self).2.2
  ∧ res_final_capital r = res_initial_capital r + res_total_return r
  ∧ res_initial_capital r = initial_capital self.
Proof.
  pose proof (run_backtest_initial_capital data symbols st g self) as Hcap.
  unfold run_backtest in *. simpl in *. unfold _calculate_results.
  case_bool_decide as Hzero; [done|]. intros [= <-]. simpl.
  split_and!; try done.
  - apply count_side_total.
  - ring.
Qed.

End backtest_invariants.

(** Witness for the statistics: the strategy that buys one unit on each of
    two bars makes two fills, both counted as winning trades. *)
Lemma backtest_result_counts_witness :
  ∃ r,
    (Backtest.run_backtest Backtest.mean_latency (λ x, x)
       Backtest.buy_each_bar Backtest.two_bars ["BTCUSDT"] () ()
       (Backtest.__init__ Backtest.no_seed Backtest.c2_config).2).1
    = Return r
    ∧ (Backtest.res_winning_trades r + Backtest.res_losing_trades r)%nat
      = Backtest.res_total_trades r
    ∧ Backtest.res_total_trades r = 2%nat.
Proof.
  assert (∃ r,
            (Backtest.run_backtest Backtest.mean_latency (λ x, x)
               Backtest.buy_each_bar Backtest.two_bars ["BTCUSDT"] () ()
               (Backtest.__init__ Backtest.no_seed Backtest.c2_config).2).1
            = Return r ∧ Backtest.res_total_trades r = 2%nat)
    as (r & Hr & Htwo).
  { eexists. split; vm_compute; reflexivity. }
  exists r. split; [exact Hr|]. split; [|exact Htwo].
  exact (proj1 (proj2 (proj2 (proj2
           (backtest_result_counts Backtest.mean_latency (λ x, x)
              Backtest.buy_each_bar Backtest.two_bars ["BTCUSDT"] () ()
              (Backtest.__init__ Backtest.no_seed Backtest.c2_config).2
              r Hr))))).
Defined.


(** ** Token buckets *)

Section token_bucket.
Import RateLimiter.

Lemma Qcmin_le_l (a b : Decimal) : Qcmin a b <= a.
Proof.
  unfold Qcmin. case_bool_decide as H; [by apply Qclt_le_weak|].
  apply Qcle_refl.
Qed.

Lemma Qcmin_nonneg (a b : Decimal) : 0 <= a → 0 <= b → 0 <= Qcmin a b.
Proof. intros Ha Hb. unfold Qcmin. by case_bool_decide. Qed.

Lemma Qc_sub_nonneg (a b : Decimal) : b <= a → 0 <= a - b.
Proof. intros H. by apply Qcle_minus_iff in H. Qed.

Lemma Qc_sub_le (a n : Decimal) : 0 <= n → a - n <= a.
Proof.
  intros Hn. apply Qcle_minus_iff.
  by replace (a + - (a - n)) with n by ring.
Qed.

Lemma Qc_of_Z_nonneg (z : Z) : (0 ≤ z)%Z → 0 <= Qc_of_Z z.
Proof.
  intros Hz. apply (proj1 (Z2Qc_inj_le 0 z)) in Hz.
  by rewrite Z2Qc_inj_0 in Hz.
Qed.

Lemma refill_le_capacity (now : Decimal) (b : TokenBucket) :
  tokens (_refill now b) <= Qc_of_Z (capacity b).
Proof. apply Qcmin_le_l. Qed.

(** Bounds of a bucket. With a non-negative capacity and refill rate, a
    clock that has not gone back and a non-negative amount, [consume] keeps
    the tokens between zero and the capacity, whether it succeeds or not,
    and stamps the bucket with the reading. *)
Theorem consume_keeps_bounds (now : Decimal) (n : Z) (b : TokenBucket) :
  (0 ≤ capacity b)%Z → 0 <= refill_rate b → last_refill b <= now →
  (0 ≤ n)%Z →
  0 <= tokens b →
  0 <= tokens (consume now n b).2
  ∧ tokens (consume now n b).2 <= Qc_of_Z (capacity (consume now n b).2)
  ∧ capacity (consume now n b).2 = capacity b
  ∧ refill_rate (consume now n b).2 = refill_rate b
  ∧ last_refill (consume now n b).2 = now.
Proof.
  intros Hcap Hrate Hclock Hn Htok.
  assert (0 <= tokens (_refill now b)) as Hrefill.
  { apply Qcmin_nonneg.
    - by apply Qc_of_Z_nonneg.
    - apply Qcplus_nonneg_nonneg; [done|].
      apply Qcmult_nonneg_nonneg; [by apply Qc_sub_nonneg|done]. }
  pose proof (refill_le_capacity now b) as Hle.
  unfold consume. case_bool_decide as Hok; simpl; [|done].
  split_and!; try done.
  - by apply Qc_sub_nonneg.
  - eapply Qcle_trans; [|exact Hle]. apply Qc_sub_le.
    by apply Qc_of_Z_nonneg.
Qed.

End token_bucket.

(** Witness for the bounds: a bucket of capacity 10 holding 3 tokens, asked
    for 2 one second after its last refill. *)
Lemma consume_keeps_bounds_witness :
  0 <= RateLimiter.tokens
         (RateLimiter.consume 1 2
            {| RateLimiter.capacity := 10; RateLimiter.refill_rate := 1;
               RateLimiter.tokens := dec 3;
               RateLimiter.last_refill := 0 |}).2
  ∧ RateLimiter.tokens
      (RateLimiter.consume 1 2
         {| RateLimiter.capacity := 10; RateLimiter.refill_rate := 1;
            RateLimiter.tokens := dec 3;
            RateLimiter.last_refill := 0 |}).2 <= Qc_of_Z 10.
Proof.
  refine (let H := consume_keeps_bounds 1 2
                     {| RateLimiter.capacity := 10;
                        RateLimiter.refill_rate := 1;
                        RateLimiter.tokens := dec 3;
                        RateLimiter.last_refill := 0 |} _ _ _ _ _ in
          conj (proj1 H) (proj1 (proj2 H))); by vm_compute.
Defined.

Section token_bucket_bursts.
Import RateLimiter.

(** With no time elapsed a refill changes nothing in a bucket that holds a
    whole number of tokens within its capacity. *)
Lemma refill_same_instant (b : TokenBucket) (j : Z) :
  tokens b = Qc_of_Z j → (j ≤ capacity b)%Z →
  tokens (_refill (last_refill b) b) = Qc_of_Z j.
Proof.
  intros Htok Hj. unfold _refill. simpl. rewrite Htok.
  replace (Qc_of_Z j + (last_refill b - last_refill b) * refill_rate b)
    with (Qc_of_Z j) by ring.
  unfold Qcmin. case_bool_decide as Hlt; [done|].
  apply Qcnot_lt_le in Hlt. apply Z2Qc_inj_le in Hlt.
  f_equal. lia.
Qed.

Lemma admitted_same_instant (m : nat) (now : Decimal) (b : TokenBucket)
  (j : Z) :
  last_refill b = now → tokens b = Qc_of_Z j → (0 ≤ j ≤ capacity b)%Z →
  admitted m now 1 b = Nat.min m (Z.to_nat j).
Proof.
  revert b j. induction m as [|m IH]; intros b j Hnow Htok Hj; [done|].
  subst now. simpl. unfold consume.
  pose proof (refill_same_instant b j Htok (proj2 Hj)) as Hrefill.
  rewrite Hrefill. case_bool_decide as Hone; simpl.
  - rewrite <- Z2Qc_inj_le in Hone.
    rewrite (IH _ (j - 1)%Z); simpl; [|done|by rewrite Z2Qc_inj_sub|lia].
    replace (Z.to_nat j) with (Datatypes.S (Z.to_nat (j - 1))) by lia. done.
  - rewrite <- Z2Qc_inj_le in Hone.
    rewrite (IH _ j); simpl; [|done|done|done].
    replace j with 0%Z by lia. simpl. by rewrite Nat.min_0_r.
Qed.

(** Burst. Of [m] calls [consume(1)] made at the instant a bucket of
    capacity [C] was created, exactly min(m, C) succeed: a full bucket admits
    a burst of its capacity and nothing more until time passes. *)
Theorem bucket_burst (m : nat) (C : Z) (rate now : Decimal) :
  (0 ≤ C)%Z →
  admitted m now 1 (TokenBucket_init C rate now) = Nat.min m (Z.to_nat C).
Proof.
  intros HC.
  apply (admitted_same_instant m now (TokenBucket_init C rate now) C);
    simpl; [done|done|lia].
Qed.

Lemma consume_over_capacity (now : Decimal) (n : Z) (b : TokenBucket) :
  (capacity b < n)%Z →
  (consume now n b).1 = false
  ∧ capacity (consume now n b).2 = capacity b.
Proof.
  intros Hn. unfold consume.
  rewrite bool_decide_eq_false_2; [done|].
  apply Qclt_not_le. eapply Qcle_lt_trans; [apply refill_le_capacity|].
  exact (proj1 (Z2Qc_inj_lt _ _) Hn).
Qed.

Lemma wait_for_tokens_starves (clock : list Decimal) (n : Z)
  (b : TokenBucket) :
  (capacity b < n)%Z → wait_for_tokens clock n b = None.
Proof.
  intros Hn. revert b Hn.
  induction clock as [|now later IH]; intros b Hn; [done|].
  simpl. destruct (consume_over_capacity now n b Hn) as [Hfail Hcap].
  destruct (consume now n b) as [ok b']. simpl in *. subst ok.
  apply IH. by rewrite Hcap.
Qed.

(** Starvation. A request whose weight exceeds the capacity of one of the
    weight buckets is never admitted by [wait_for_request], however long the
    caller waits: a bucket never holds more than its capacity. The same
    holds for [wait_for_tokens] on a single bucket. *)
Theorem wait_for_request_starves (clock : list Decimal) (weight : Z)
  (self : RateLimiter) (i : BucketId) (b : TokenBucket) :
  ((capacity b < weight)%Z → wait_for_tokens clock weight b = None)
  ∧ (i ∈ [WeightSecond; WeightMinute; WeightDay] →
     (capacity (bucket i self) < weight)%Z →
     wait_for_request clock weight self = None).
Proof.
  split; [apply wait_for_tokens_starves|].
  intros Hi Hw. unfold wait_for_request.
  destruct (wait_for_tokens clock 1 _) as [[rs c1]|]; [|done]. simpl.
  destruct (wait_for_tokens c1 1 _) as [[rm c2]|]; [|done]. simpl.
  destruct (wait_for_tokens c2 1 _) as [[rd c3]|]; [|done]. simpl.
  destruct i; simpl in Hw;
    try (exfalso; repeat (apply elem_of_cons in Hi as [Hi|Hi]; [done|]);
         by apply elem_of_nil in Hi).
  - by rewrite (wait_for_tokens_starves c3 weight _ Hw).
  - destruct (wait_for_tokens c3 weight _) as [[ws c4]|]; [|done]. simpl.
    by rewrite (wait_for_tokens_starves c4 weight _ Hw).
  - destruct (wait_for_tokens c3 weight _) as [[ws c4]|]; [|done]. simpl.
    destruct (wait_for_tokens c4 weight _) as [[wm c5]|]; [|done]. simpl.
    by rewrite (wait_for_tokens_starves c5 weight _ Hw).
Qed.

End token_bucket_bursts.

(** Witness for the burst: fifteen calls on a fresh bucket of capacity 10
    admit ten. *)
Lemma bucket_burst_witness :
  RateLimiter.admitted 15 0 1 (RateLimiter.TokenBucket_init 10 (dec 10) 0)
  = 10%nat.
Proof. exact (bucket_burst 15 10 (dec 10) 0 ltac:(done)). Defined.

(** Witness for the starvation: a weight of 2000 against the default
    per-second weight quota of 1200. *)
Lemma wait_for_request_starves_witness :
  RateLimiter.wait_for_request [0; 1; dec 2; dec 3; dec 4; dec 5; dec 6] 2000
    (RateLimiter.__init__ None 0) = None.
Proof.
  refine (proj2 (wait_for_request_starves [0; 1; dec 2; dec 3; dec 4; dec 5; dec 6] 2000
                   (RateLimiter.__init__ None 0) RateLimiter.WeightSecond
                   (RateLimiter.TokenBucket_init 1 1 0)) _ _).
  - apply list_elem_of_here.
  - done.
Defined.

Section quota_update.
Import RateLimiter.

Lemma check_request_result (now : BucketId → Decimal) (w : Z)
  (rl : RateLimiter) :
  (check_request now w rl).1
  = (consume (now ReqSecond) 1 (second (request_buckets rl))).1
    && (consume (now ReqMinute) 1 (minute (request_buckets rl))).1
    && (consume (now ReqDay) 1 (day (request_buckets rl))).1
    && (consume (now WeightSecond) w (second (weight_buckets rl))).1
    && (consume (now WeightMinute) w (minute (weight_buckets rl))).1
    && (consume (now WeightDay) w (day (weight_buckets rl))).1.
Proof.
  unfold check_request.
  destruct (consume (now ReqSecond) 1 _) as [c1 rs].
  destruct (consume (now ReqMinute) 1 _) as [c2 rm].
  destruct (consume (now ReqDay) 1 _) as [c3 rd].
  destruct (consume (now WeightSecond) w _) as [c4 ws].
  destruct (consume (now WeightMinute) w _) as [c5 wm].
  destruct (consume (now WeightDay) w _) as [c6 wd].
  simpl. by destruct (c1 && c2 && c3 && c4 && c5 && c6).
Qed.

(** A bucket that was created full is still full at any later reading:
    [consume(n)] succeeds exactly when [n] is within the capacity. *)
Lemma consume_fresh (cap : Z) (rate created now : Decimal) (n : Z) :
  0 <= rate → created <= now →
  (consume now n (TokenBucket_init cap rate created)).1
  = bool_decide (n ≤ cap)%Z.
Proof.
  intros Hrate Hclock. unfold consume, _refill, TokenBucket_init. simpl.
  assert (Qcmin (Qc_of_Z cap) (Qc_of_Z cap + (now - created) * rate)
          = Qc_of_Z cap) as ->.
  { unfold Qcmin. rewrite bool_decide_eq_false_2; [done|].
    apply Qcle_not_lt. apply Qcle_minus_iff.
    replace (Qc_of_Z cap + (now - created) * rate + - Qc_of_Z cap)
      with ((now - created) * rate) by ring.
    apply Qcmult_nonneg_nonneg; [|done].
    by apply Qcle_minus_iff in Hclock. }
  case_bool_decide as H1; case_bool_decide as H2; simpl; try done.
  - by apply Z2Qc_inj_le in H1.
  - by apply Z2Qc_inj_le in H2.
Qed.

Lemma rate_nonneg (cap : Z) (period : Decimal) :
  (0 ≤ cap)%Z → 0 <= / period → 0 <= Qc_of_Z cap / period.
Proof.
  intros Hcap Hperiod. apply Qcmult_nonneg_nonneg; [|done].
  apply (proj1 (Z2Qc_inj_le 0 cap)) in Hcap. by rewrite Z2Qc_inj_0 in Hcap.
Qed.

(** Quota update. After [update_rate_limits] with non-negative quotas the
    limiter admits the next [check_request], whatever was used up before,
    exactly when one request and the weight fit the six new capacities; the
    statistics of the limiter are not reset by the update. *)
Theorem update_rate_limits_admits (rl : RateLimit)
  (created now : BucketId → Decimal) (weight : Z) (self : RateLimiter) :
  (∀ i, (0 ≤ quota rl i)%Z) → (∀ i, created i <= now i) →
  ((check_request now weight (update_rate_limits rl created self)).1 = true
   ↔ ∀ i, (asked i weight ≤ quota rl i)%Z)
  ∧ total_requests (update_rate_limits rl created self) = total_requests self
  ∧ total_weight (update_rate_limits rl created self) = total_weight self
  ∧ rate_limited_requests (update_rate_limits rl created self)
    = rate_limited_requests self.
Proof.
  intros Hquota Hclock. split; [|done].
  rewrite check_request_result. unfold update_rate_limits. simpl.
  assert (0 <= / dec 60) as H60 by by vm_compute.
  assert (0 <= / dec 86400) as H86400 by by vm_compute.
  rewrite !consume_fresh;
    try done;
    try (apply rate_nonneg; [|done]);
    try (apply (proj1 (Z2Qc_inj_le 0 _)));
    try apply (Hquota ReqSecond); try apply (Hquota ReqMinute);
    try apply (Hquota ReqDay); try apply (Hquota WeightSecond);
    try apply (Hquota WeightMinute); try apply (Hquota WeightDay).
  rewrite !andb_true_iff, !bool_decide_eq_true. split.
  - intros (((((H1 & H2) & H3) & H4) & H5) & H6) i. by destruct i.
  - intros H. split_and!;
      [apply (H ReqSecond)|apply (H ReqMinute)|apply (H ReqDay)
      |apply (H WeightSecond)|apply (H WeightMinute)|apply (H WeightDay)].
Qed.

End quota_update.

(** Witness for the quota update: the default quotas installed on the
    limiter that had used up its per-second requests. *)
Lemma update_rate_limits_admits_witness :
  (RateLimiter.check_request (λ _, 1) 1
     (RateLimiter.update_rate_limits RateLimiter.default_rate_limits
        (λ _, 1) RateLimiter.c3_saturated)).1 = true.
Proof.
  refine (proj2 (proj1 (update_rate_limits_admits
                          RateLimiter.default_rate_limits (λ _, 1) (λ _, 1)
                          1 RateLimiter.c3_saturated _ _)) _).
  - by intros [].
  - intros i. apply Qcle_refl.
  - by intros [].
Defined.

(** ** Accounting books *)

Section accounting_books.
Import Accounting.

Lemma record_fill_books (f : Fill) (am : AccountingManager) :
  trades (record_fill f am) = trades am ++ [f]
  ∧ total_fees (record_fill f am) = total_fees am + fill_commission f
  ∧ trades_recorded (record_fill f am) = Datatypes.S (trades_recorded am)
  ∧ positions_updated (record_fill f am) = Datatypes.S (positions_updated am)
  ∧ daily_pnl (record_fill f am)
    = <[fill_symbol f :=
          default 0 (daily_pnl am !! fill_symbol f)
          + fill_quantity f * fill_price f * dec 0.001]> (daily_pnl am).
Proof.
  unfold record_fill, _update_daily_pnl, _update_position. simpl.
  by destruct (positions am !! fill_symbol f).
Qed.

(** Ledger of the accounting manager. After any sequence of fills the trade
    list is the old list followed by the fills in the order recorded, the
    fee total has grown by the sum of their commissions, and both counters
    have grown by their number. *)
Theorem accounting_ledger (fs : list Fill) (am : AccountingManager) :
  trades (record_fills fs am) = trades am ++ fs
  ∧ total_fees (record_fills fs am) = total_fees am + sum_commissions fs
  ∧ trades_recorded (record_fills fs am)
    = (trades_recorded am + length fs)%nat
  ∧ positions_updated (record_fills fs am)
    = (positions_updated am + length fs)%nat.
Proof.
  revert am. unfold record_fills.
  induction fs as [|f fs IH]; intros am; simpl.
  - rewrite app_nil_r, !Nat.add_0_r. split_and!; try done. ring.
  - destruct (IH (record_fill f am)) as (-> & -> & -> & ->).
    destruct (record_fill_books f am) as (-> & -> & -> & -> & _).
    rewrite <- app_assoc. simpl. split_and!; try done; try lia. ring.
Qed.

(** Daily P&L of the accounting manager. What [record_fill] adds to the
    daily P&L of a symbol is not a profit or loss: after any sequence of
    fills the entry of a symbol has grown by a thousandth of the notional of
    the fills of that symbol, whatever their side. *)
Theorem accounting_daily_pnl (fs : list Fill) (am : AccountingManager)
  (symbol : string) :
  default 0 (daily_pnl (record_fills fs am) !! symbol)
  = default 0 (daily_pnl am !! symbol) + sum_placeholder_pnl symbol fs.
Proof.
  revert am. unfold record_fills.
  induction fs as [|f fs IH]; intros am; simpl; [ring|].
  rewrite IH. destruct (record_fill_books f am) as (_ & _ & _ & _ & ->).
  destruct (decide (fill_symbol f = symbol)) as [<-|Hne].
  - rewrite lookup_insert_eq, bool_decide_eq_true_2 by done. simpl. ring.
  - rewrite lookup_insert_ne, bool_decide_eq_false_2 by done. ring.
Qed.

Lemma py_last_positive {A : Type} (limit : Z) (l : list A) :
  (0 < limit)%Z →
  length (py_last limit l) = Nat.min (Z.to_nat limit) (length l)
  ∧ ∃ older, l = older ++ py_last limit l.
Proof.
  intros Hpos. unfold py_last. rewrite bool_decide_eq_true_2 by done.
  rewrite length_drop. split; [lia|].
  exists (take (length l - Z.to_nat limit) l). by rewrite take_drop.
Qed.

(** Recent trades. For a positive limit [get_trades] returns the last
    [limit] trades of the symbol (all of them when there are fewer), in
    order; for a limit of zero it returns every trade of the symbol, not
    none. *)
Theorem get_trades_limit (symbol : string) (limit : Z)
  (am : AccountingManager) :
  symbol ≠ "" →
  ((0 < limit)%Z →
   length (get_trades (Some symbol) limit am)
   = Nat.min (Z.to_nat limit)
       (length (List.filter (λ t, bool_decide (fill_symbol t = symbol))
                  (trades am)))
   ∧ ∃ older,
       List.filter (λ t, bool_decide (fill_symbol t = symbol)) (trades am)
       = older ++ get_trades (Some symbol) limit am)
  ∧ get_trades (Some symbol) 0 am
    = List.filter (λ t, bool_decide (fill_symbol t = symbol)) (trades am)
  ∧ Forall (λ t, fill_symbol t = symbol) (get_trades (Some symbol) limit am).
Proof.
  intros Hsym. unfold get_trades. rewrite bool_decide_eq_true_2 by done.
  split_and!.
  - apply py_last_positive.
  - done.
  - apply Forall_forall. intros t Ht.
    assert (t ∈ List.filter (λ t, bool_decide (fill_symbol t = symbol))
                  (trades am)) as Hin.
    { unfold py_last in Ht. case_bool_decide;
        by eapply subseteq_drop in Ht. }
    apply list_elem_of_In, List.filter_In in Hin as [_ Hin].
    by apply bool_decide_eq_true_1 in Hin.
Qed.

End accounting_books.

(** Witness for the recent trades: two trades recorded, a limit of one. *)
Lemma get_trades_limit_witness :
  length (Accounting.get_trades (Some "BTCUSDT") 1
            (Accounting.record_fills
               [Accounting.c1_buy; Accounting.c1_sell (dec 1)]
               Accounting.__init__)) = 1%nat.
Proof.
  exact (proj1 (proj1 (get_trades_limit "BTCUSDT" 1
                         (Accounting.record_fills
                            [Accounting.c1_buy; Accounting.c1_sell (dec 1)]
                            Accounting.__init__)
                         ltac:(done)) ltac:(done))).
Defined.

(** ** The risk manager in operation *)

Section risk_in_operation.
Import Risk.

Lemma sum_values_nonneg (m : gmap string Decimal) :
  map_Forall (λ _ v, 0 <= v) m → 0 <= sum_values m.
Proof.
  unfold sum_values.
  apply (map_fold_weak_ind
           (λ r m, map_Forall (λ _ v, 0 <= v) m → 0 <= r)).
  - intros _. apply Qcle_refl.
  - intros i x m' r Hi IH Hall.
    apply map_Forall_insert in Hall as [Hx Hm]; [|done].
    pose proof (Qcplus_le_compat 0 r 0 x (IH Hm) Hx) as H.
    by rewrite Qcplus_0_l in H.
Qed.

Lemma in_operation_no_drawdown (s : RiskManager) :
  in_operation s →
  bool_decide (sum_values (daily_pnl s) < - max_daily_drawdown s) = false.
Proof.
  intros (_ & Hmax & Hpnl & _). apply bool_decide_eq_false_2.
  apply Qcle_not_lt. eapply Qcle_trans; [|by apply sum_values_nonneg].
  apply (proj2 (Qcle_minus_iff _ _)).
  replace (0 + - - max_daily_drawdown s) with (max_daily_drawdown s) by ring.
  done.
Qed.

Lemma in_operation_losses (signal : TradingSignal) (s : RiskManager) :
  in_operation s →
  consecutive_losses_ok signal s
  = bool_decide (0 < max_consecutive_losses s)%Z.
Proof.
  intros (_ & _ & _ & Hlosses). unfold consecutive_losses_ok.
  assert (default 0%Z (consecutive_losses s !! sig_symbol signal) = 0%Z)
    as ->.
  { destruct (consecutive_losses s !! sig_symbol signal) as [n|] eqn:Hn;
      [|done]. simpl. by apply (Hlosses _ _ Hn). }
  repeat case_bool_decide; simpl; try done; lia.
Qed.

Lemma check_signal_in_operation (raises : Check → bool)
  (signal : TradingSignal) (s : RiskManager) :
  in_operation s → in_operation (check_signal raises signal s).2.
Proof.
  intros Hop. pose proof Hop as (Hflag & Hmax & Hpnl & Hlosses).
  rewrite check_signal_clear by done. simpl.
  rewrite (in_operation_no_drawdown s Hop).
  repeat (match goal with |- context [if ?b then _ else _] =>
            destruct b end; simpl); by split_and!.
Qed.

Lemma run_in_operation (c : Call) (s : RiskManager) :
  nonneg_notional c = true → in_operation s → in_operation (run c s).
Proof.
  intros Hc Hop. destruct c as [raises signal|fill|symbol price| |]; simpl.
  - by apply check_signal_in_operation.
  - destruct Hop as (Hflag & Hmax & Hpnl & Hlosses).
    simpl in Hc. apply bool_decide_eq_true_1 in Hc.
    destruct (update_position_books fill s)
      as (s' & -> & Hnone & Hsome & Hflag' & _ & _ & Hmax' & _).
    simpl.
    destruct (positions s !! fill_symbol fill) as [current_position|] eqn:Hcur.
    + destruct (Hsome _ eq_refl) as (moved & _ & _ & _ & Hpnl' & Hlosses').
      unfold in_operation. rewrite Hflag', Hmax', Hpnl', Hlosses'.
      split_and!; try done.
      * apply map_Forall_insert_2; [|done].
        assert (0 <= default 0 (daily_pnl s !! fill_symbol fill)) as Hold.
        { destruct (daily_pnl s !! fill_symbol fill) as [v|] eqn:Hv;
            [by apply (Hpnl _ _ Hv)|apply Qcle_refl]. }
        assert (0 <= fill_quantity fill * fill_price fill * dec 0.001)
          as Hnew.
        { by apply Qcmult_nonneg_nonneg. }
        pose proof (Qcplus_le_compat _ _ _ _ Hold Hnew) as H.
        by rewrite Qcplus_0_l in H.
      * by apply map_Forall_insert_2.
    + by rewrite (Hnone eq_refl).
  - destruct (update_market_data_books symbol price s)
      as (s' & -> & _ & _ & Hpnl' & Hlosses' & Hflag' & _ & _ & Hmax' & _).
    simpl. unfold in_operation. by rewrite Hflag', Hmax', Hpnl', Hlosses'.
  - destruct Hop as (Hflag & Hmax & Hpnl & Hlosses).
    unfold in_operation, reset_daily_pnl. simpl. by split_and!.
  - by destruct Hop as (Hflag & Hmax & Hpnl & Hlosses).
Qed.

(** The drawdown guard in operation. What [update_position] books as daily
    P&L, when it books anything, is a thousandth of the notional of the
    fill, and the count of consecutive losses is only ever set to zero. So,
    from a state with the
    flag clear, no negative daily P&L and no loss counted, and through any
    sequence of operations whose fills have a non-negative notional, the
    breach flag is never set, and a check in which nothing raises accepts a
    signal exactly when the position limits hold, the limit of consecutive
    losses is positive and the leverage limit is at least one. *)
Theorem drawdown_guard_unreachable (cs : list Call) (signal : TradingSignal)
  (s : RiskManager) :
  in_operation s → Forall (λ c, nonneg_notional c = true) cs →
  in_operation (run_all cs s)
  ∧ (check_signal no_fault signal (run_all cs s)).1
    = Return (position_limits_ok signal (run_all cs s)
              && bool_decide (0 < max_consecutive_losses s)%Z
              && leverage_ok s)
  ∧ max_consecutive_losses (run_all cs s) = max_consecutive_losses s
  ∧ max_leverage (run_all cs s) = max_leverage s.
Proof.
  intros Hop Hcs.
  assert (in_operation (run_all cs s)
          ∧ max_consecutive_losses (run_all cs s) = max_consecutive_losses s
          ∧ max_leverage (run_all cs s) = max_leverage s) as (Hend & Hmcl & Hml).
  { revert s Hop. unfold run_all.
    induction Hcs as [|c cs Hc Hcs IH]; intros s Hop; simpl; [done|].
    destruct (IH (run c s) (run_in_operation c s Hc Hop)) as (H1 & -> & ->).
    split; [done|].
    destruct c as [raises sig|fill|symbol price| |]; simpl; try done.
    - destruct Hop as (Hflag & _).
      rewrite check_signal_clear by done. simpl.
      by repeat (match goal with |- context [if ?b then _ else _] =>
                   destruct b end; simpl).
    - destruct (update_position_books fill s)
        as (s' & -> & _ & _ & _ & _ & _ & _ & Hmcl & _ & Hml & _).
      simpl. by rewrite Hmcl, Hml.
    - destruct (update_market_data_books symbol price s)
        as (s' & -> & _ & _ & _ & _ & _ & _ & _ & _ & Hmcl & _ & Hml & _).
      simpl. by rewrite Hmcl, Hml. }
  split_and!; try done.
  pose proof Hend as (Hflag & _).
  rewrite check_signal_clear by done. simpl.
  rewrite (in_operation_no_drawdown _ Hend).
  rewrite (in_operation_losses signal _ Hend).
  unfold leverage_ok. rewrite Hmcl, Hml.
  destruct (position_limits_ok signal (run_all cs s)); simpl; [|done].
  destruct (bool_decide (0 < max_consecutive_losses s)%Z); simpl; [|done].
  by destruct (bool_decide (max_leverage s < 1)).
Qed.

(** What a check leaves behind. [check_signal] never touches the positions,
    the daily P&L, the loss counts or the limits; it counts one check, and
    one rejection exactly when it answers False; it emits at most one risk
    event, none for an accepted signal, and the event counter grows with the
    events emitted. A signal rejected without any event is rejected because
    a check raised. *)
Theorem check_signal_effects (raises : Check → bool) (signal : TradingSignal)
  (s : RiskManager) :
  positions (check_signal raises signal s).2 = positions s
  ∧ daily_pnl (check_signal raises signal s).2 = daily_pnl s
  ∧ consecutive_losses (check_signal raises signal s).2
    = consecutive_losses s
  ∧ position_limits (check_signal raises signal s).2 = position_limits s
  ∧ max_position_size (check_signal raises signal s).2 = max_position_size s
  ∧ max_daily_drawdown (check_signal raises signal s).2
    = max_daily_drawdown s
  ∧ risk_checks_performed (check_signal raises signal s).2
    = Datatypes.S (risk_checks_performed s)
  ∧ signals_rejected (check_signal raises signal s).2
    = (signals_rejected s
       + match (check_signal raises signal s).1 with
         | Return true => 0
         | _ => 1
         end)%nat
  ∧ ∃ events,
      emitted (check_signal raises signal s).2 = emitted s ++ events
      ∧ risk_events_triggered (check_signal raises signal s).2
        = (risk_events_triggered s + length events)%nat
      ∧ (length events ≤ 1)%nat
      ∧ ((check_signal raises signal s).1 = Return true → events = [])
      ∧ ((check_signal raises signal s).1 = Return false → events = [] →
         ∃ c, raises c = true).
Proof.
  destruct (is_risk_breach s) eqn:Hflag.
  - rewrite check_signal_breached by done. simpl.
    split_and!; try done; try lia.
    exists [breach_event s]. simpl. split_and!; try done; lia.
  - rewrite check_signal_clear by done. simpl.
    destruct (raises PositionLimits) eqn:H1; simpl.
    { split_and!; try done; try lia. exists []. rewrite app_nil_r. simpl.
      split_and!; try done; try lia. intros _ _. by exists PositionLimits. }
    destruct (position_limits_ok signal s); simpl;
      [|split_and!; try done; try lia;
        exists [position_event signal s]; simpl;
        split_and!; try done; lia].
    destruct (raises DailyDrawdown) eqn:H2; simpl.
    { split_and!; try done; try lia. exists []. rewrite app_nil_r. simpl.
      split_and!; try done; try lia. intros _ _. by exists DailyDrawdown. }
    case_bool_decide; simpl;
      [split_and!; try done; try lia;
       exists [drawdown_event s]; simpl;
       split_and!; try done; lia|].
    destruct (raises ConsecutiveLosses) eqn:H3; simpl.
    { split_and!; try done; try lia. exists []. rewrite app_nil_r. simpl.
      split_and!; try done; try lia.
      intros _ _. by exists ConsecutiveLosses. }
    destruct (consecutive_losses_ok signal s); simpl;
      [|split_and!; try done; try lia;
        exists [losses_event signal s]; simpl;
        split_and!; try done; lia].
    destruct (raises LeverageLimits) eqn:H4; simpl.
    { split_and!; try done; try lia. exists []. rewrite app_nil_r. simpl.
      split_and!; try done; try lia.
      intros _ _. by exists LeverageLimits. }
    destruct (leverage_ok s); simpl;
      [|split_and!; try done; try lia;
        exists [leverage_event signal s]; simpl;
        split_and!; try done; lia].
    split_and!; try done; try lia. exists []. rewrite app_nil_r. simpl.
    split_and!; try done; lia.
Qed.

(** A check can be repeated. Asked again about the same signal, with the
    same checks raising, [check_signal] gives the answer it gave before: an
    accepted signal changes nothing that the checks read, and the only
    thing a rejection can change, the breach flag, rejects as well. *)
Theorem check_signal_repeatable (raises : Check → bool)
  (signal : TradingSignal) (s : RiskManager) :
  (check_signal raises signal (check_signal raises signal s).2).1
  = (check_signal raises signal s).1.
Proof.
  destruct (is_risk_breach s) eqn:Hflag.
  - rewrite (check_signal_breached raises signal s) by done. simpl.
    by rewrite check_signal_breached.
  - rewrite (check_signal_clear raises signal s) by done. simpl.
    destruct (raises PositionLimits) eqn:H1; simpl.
    { rewrite check_signal_clear by done. simpl. by rewrite H1. }
    destruct (position_limits_ok signal s) eqn:Hp; simpl.
    2:{ rewrite check_signal_clear by done. simpl. rewrite H1.
        change (position_limits_ok signal
                  (count_rejected
                     (count_event (position_event signal s) (count_check s))))
          with (position_limits_ok signal s).
        by rewrite Hp. }
    destruct (raises DailyDrawdown) eqn:H2; simpl.
    { rewrite check_signal_clear by done. simpl. rewrite H1.
      change (position_limits_ok signal (count_rejected (count_check s)))
        with (position_limits_ok signal s).
      by rewrite Hp, H2. }
    case_bool_decide as Hdd; simpl.
    { by rewrite check_signal_breached. }
    destruct (raises ConsecutiveLosses) eqn:H3; simpl.
    { rewrite check_signal_clear by done. simpl. rewrite H1.
      change (position_limits_ok signal (count_rejected (count_check s)))
        with (position_limits_ok signal s).
      rewrite Hp, H2. simpl. rewrite (bool_decide_eq_false_2 _ Hdd).
      by rewrite H3. }
    destruct (consecutive_losses_ok signal s) eqn:Hc; simpl.
    2:{ rewrite check_signal_clear by done. simpl. rewrite H1.
        change (position_limits_ok signal
                  (count_rejected
                     (count_event (losses_event signal s) (count_check s))))
          with (position_limits_ok signal s).
        rewrite Hp, H2. simpl. rewrite (bool_decide_eq_false_2 _ Hdd).
        rewrite H3.
        change (consecutive_losses_ok signal
                  (count_rejected
                     (count_event (losses_event signal s) (count_check s))))
          with (consecutive_losses_ok signal s).
        by rewrite Hc. }
    destruct (raises LeverageLimits) eqn:H4; simpl.
    { rewrite check_signal_clear by done. simpl. rewrite H1.
      change (position_limits_ok signal (count_rejected (count_check s)))
        with (position_limits_ok signal s).
      rewrite Hp, H2. simpl. rewrite (bool_decide_eq_false_2 _ Hdd).
      rewrite H3.
      change (consecutive_losses_ok signal (count_rejected (count_check s)))
        with (consecutive_losses_ok signal s).
      by rewrite Hc, H4. }
    destruct (leverage_ok s) eqn:Hl; simpl.
    2:{ rewrite check_signal_clear by done. simpl. rewrite H1.
        change (position_limits_ok signal
                  (count_rejected
                     (count_event (leverage_event signal s) (count_check s))))
          with (position_limits_ok signal s).
        rewrite Hp, H2. simpl. rewrite (bool_decide_eq_false_2 _ Hdd).
        rewrite H3.
        change (consecutive_losses_ok signal
                  (count_rejected
                     (count_event (leverage_event signal s) (count_check s))))
          with (consecutive_losses_ok signal s).
        rewrite Hc, H4.
        change (leverage_ok
                  (count_rejected
                     (count_event (leverage_event signal s) (count_check s))))
          with (leverage_ok s).
        by rewrite Hl. }
    rewrite check_signal_clear by done. simpl. rewrite H1.
    change (position_limits_ok signal (count_check s))
      with (position_limits_ok signal s).
    rewrite Hp, H2. simpl. rewrite (bool_decide_eq_false_2 _ Hdd).
    rewrite H3.
    change (consecutive_losses_ok signal (count_check s))
      with (consecutive_losses_ok signal s).
    rewrite Hc, H4.
    change (leverage_ok (count_check s)) with (leverage_ok s).
    by rewrite Hl.
Qed.

Lemma Qc_scale_le (limit ratio : Decimal) :
  0 <= limit → ratio <= 1 → limit * ratio <= limit.
Proof.
  intros Hlimit Hratio. apply (proj2 (Qcle_minus_iff _ _)).
  replace (limit + - (limit * ratio)) with (limit * (1 - ratio)) by ring.
  apply Qcmult_nonneg_nonneg; [done|]. by apply Qc_sub_nonneg.
Qed.

Lemma Qc_scale_ge (limit ratio : Decimal) :
  0 <= limit → 1 <= ratio → limit <= limit * ratio.
Proof.
  intros Hlimit Hratio. apply (proj2 (Qcle_minus_iff _ _)).
  replace (limit * ratio + - limit) with (limit * (ratio - 1)) by ring.
  apply Qcmult_nonneg_nonneg; [done|]. by apply Qc_sub_nonneg.
Qed.

(** The effective position limit. With a non-negative size limit and a
    ratio configured for the symbol, the position-limit check passes exactly
    when the new size is within [max_position_size * min(1, ratio)]: a ratio
    above one changes nothing. *)
Theorem position_limit_effective (raises : Check → bool)
  (signal : TradingSignal) (ratio : Decimal) (s : RiskManager) :
  raises PositionLimits = false → 0 <= max_position_size s →
  position_limits s !! sig_symbol signal = Some ratio →
  (_check_position_limits raises signal s).1
  = Return (bool_decide (Qcabs (new_size signal s)
                         <= max_position_size s * Qcmin 1 ratio)).
Proof.
  intros Hr Hmax Hratio. rewrite check_position_limits_eq, Hr.
  unfold position_limits_ok. rewrite Hratio.
  set (size := Qcabs (new_size signal s)).
  set (limit := max_position_size s) in *.
  unfold Qcmin. destruct (decide (ratio < 1)) as [Hlt|Hge].
  - rewrite (bool_decide_eq_true_2 _ Hlt).
    destruct (decide (size <= limit * ratio)) as [Hin|Hout].
    + rewrite (bool_decide_eq_true_2 _ Hin).
      rewrite (bool_decide_eq_false_2 (limit * ratio < size))
        by by apply Qcle_not_lt.
      rewrite (bool_decide_eq_false_2 (limit < size)); [done|].
      apply Qcle_not_lt. eapply Qcle_trans; [exact Hin|].
      apply Qc_scale_le; [done|]. by apply Qclt_le_weak.
    + rewrite (bool_decide_eq_false_2 _ Hout).
      rewrite (bool_decide_eq_true_2 (limit * ratio < size))
        by by apply Qcnot_le_lt.
      by destruct (bool_decide (limit < size)).
  - rewrite (bool_decide_eq_false_2 _ Hge).
    apply Qcnot_lt_le in Hge.
    replace (limit * 1) with limit by ring.
    destruct (decide (size <= limit)) as [Hin|Hout].
    + rewrite (bool_decide_eq_true_2 _ Hin).
      rewrite (bool_decide_eq_false_2 (limit < size))
        by by apply Qcle_not_lt.
      rewrite (bool_decide_eq_false_2 (limit * ratio < size)); [done|].
      apply Qcle_not_lt. eapply Qcle_trans; [exact Hin|].
      by apply Qc_scale_ge.
    + rewrite (bool_decide_eq_false_2 _ Hout).
      by rewrite (bool_decide_eq_true_2 (limit < size))
        by by apply Qcnot_le_lt.
Qed.

End risk_in_operation.

(** ** Positions of the risk manager *)

Section risk_positions.
Import Risk.




End risk_positions.


(** Witness for the drawdown guard: a fresh manager with a drawdown limit of
    500, after a fill of BUY 2 @ 100 and a check. *)
Lemma drawdown_guard_unreachable_witness :
  Risk.is_risk_breach
    (Risk.run_all
       [Risk.UpdatePosition Accounting.c1_buy;
        Risk.CheckSignal Risk.no_fault Risk.c4_signal]
       (Risk.__init__ (dec 10000) (dec 500) 5 ∅ 1)) = false.
Proof.
  refine (proj1 (proj1 (drawdown_guard_unreachable
                          [Risk.UpdatePosition Accounting.c1_buy;
                           Risk.CheckSignal Risk.no_fault Risk.c4_signal]
                          Risk.c4_signal
                          (Risk.__init__ (dec 10000) (dec 500) 5 ∅ 1) _ _))).
  - split_and!; [done|by vm_compute|apply map_Forall_empty
                |apply map_Forall_empty].
  - apply List.Forall_cons; [by vm_compute|].
    apply List.Forall_cons; [done|]. apply List.Forall_nil.
Defined.

(** Witness for the effective position limit: a ratio of 2 on a size limit
    of 10000. *)
Lemma position_limit_effective_witness :
  (Risk._check_position_limits Risk.no_fault Risk.c4_signal
     (Risk.__init__ (dec 10000) (dec 500) 5 {["BTCUSDT" := dec 2]} 1)).1
  = Return
      (bool_decide
         (Qcabs
            (Risk.new_size Risk.c4_signal
               (Risk.__init__ (dec 10000) (dec 500) 5
                  {["BTCUSDT" := dec 2]} 1))
          <= dec 10000 * Qcmin 1 (dec 2))).
Proof.
  refine (position_limit_effective Risk.no_fault Risk.c4_signal (dec 2)
            (Risk.__init__ (dec 10000) (dec 500) 5 {["BTCUSDT" := dec 2]} 1)
            _ _ _).
  - done.
  - by vm_compute.
  - by vm_compute.
Defined.

(** ** The rate limits of the exchange information *)

Section exchange_limits.
Import RateLimiter Rest.

Lemma quota_parse_entry (limits : RateLimit) (entry : RateLimitEntry)
  (i : BucketId) :
  quota (parse_entry limits entry) i
  = if targets entry i then default 0%Z (limit entry) else quota limits i.
Proof.
  unfold parse_entry, targets.
  destruct i; repeat case_bool_decide; simpl; congruence.
Qed.

Lemma foldl_parse_entry_quota (limits : RateLimit)
  (rate_limits : list RateLimitEntry) (i : BucketId) :
  quota (foldl parse_entry limits rate_limits) i
  = default (quota limits i) (last (advertised_quotas i rate_limits)).
Proof.
  unfold advertised_quotas.
  induction rate_limits as [|entry rate_limits IH] using rev_ind; [done|].
  rewrite foldl_app, omap_app. simpl. rewrite quota_parse_entry.
  destruct (targets entry i); simpl.
  - by rewrite last_snoc.
  - by rewrite app_nil_r.
Qed.

(** The last entry wins. For each of the six quotas, [_parse_rate_limits]
    returns the value of the last entry of the exchange information that
    names it (zero when that entry has no [limit]), whether it is the most
    restrictive or not, and the conservative default when no entry names it.
    ORDERS entries set the request quotas; entries of any other type than
    REQUEST_WEIGHT and ORDERS are ignored. *)
Theorem parse_rate_limits_last_wins (rate_limits : list RateLimitEntry)
  (i : BucketId) :
  quota (_parse_rate_limits rate_limits) i
  = default (quota default_rate_limits i)
      (last (advertised_quotas i rate_limits)).
Proof.
  unfold _parse_rate_limits. rewrite foldl_parse_entry_quota.
  by destruct i.
Qed.

Lemma wait_for_request_short_bucket (clock : list Decimal) (weight : Z)
  (self : RateLimiter) (i : BucketId) :
  (capacity (bucket i self) < asked i weight)%Z →
  wait_for_request clock weight self = None.
Proof.
  intros Hw. unfold wait_for_request.
  destruct i; simpl in Hw.
  - by rewrite (wait_for_tokens_starves clock 1 _ Hw).
  - destruct (wait_for_tokens clock 1 _) as [[rs c1]|]; [|done]. simpl.
    by rewrite (wait_for_tokens_starves c1 1 _ Hw).
  - destruct (wait_for_tokens clock 1 _) as [[rs c1]|]; [|done]. simpl.
    destruct (wait_for_tokens c1 1 _) as [[rm c2]|]; [|done]. simpl.
    by rewrite (wait_for_tokens_starves c2 1 _ Hw).
  - destruct (wait_for_tokens clock 1 _) as [[rs c1]|]; [|done]. simpl.
    destruct (wait_for_tokens c1 1 _) as [[rm c2]|]; [|done]. simpl.
    destruct (wait_for_tokens c2 1 _) as [[rd c3]|]; [|done]. simpl.
    by rewrite (wait_for_tokens_starves c3 weight _ Hw).
  - destruct (wait_for_tokens clock 1 _) as [[rs c1]|]; [|done]. simpl.
    destruct (wait_for_tokens c1 1 _) as [[rm c2]|]; [|done]. simpl.
    destruct (wait_for_tokens c2 1 _) as [[rd c3]|]; [|done]. simpl.
    destruct (wait_for_tokens c3 weight _) as [[ws c4]|]; [|done]. simpl.
    by rewrite (wait_for_tokens_starves c4 weight _ Hw).
  - destruct (wait_for_tokens clock 1 _) as [[rs c1]|]; [|done]. simpl.
    destruct (wait_for_tokens c1 1 _) as [[rm c2]|]; [|done]. simpl.
    destruct (wait_for_tokens c2 1 _) as [[rd c3]|]; [|done]. simpl.
    destruct (wait_for_tokens c3 weight _) as [[ws c4]|]; [|done]. simpl.
    destruct (wait_for_tokens c4 weight _) as [[wm c5]|]; [|done]. simpl.
    by rewrite (wait_for_tokens_starves c5 weight _ Hw).
Qed.

(** Exchange information that blocks the client. When the last entry that
    names a quota gives less than a request asks of that bucket (one
    request, or the weight), every later [wait_for_request] of that weight
    waits for ever, whatever the limiter held before; in particular an entry
    without [limit], read as zero, blocks every request. Exchange
    information without rate limits, or a failed request for it, leaves the
    limiter as it was. *)
Theorem load_exchange_info_blocks (entry : RateLimitEntry)
  (rate_limits : list RateLimitEntry) (i : BucketId) (value weight : Z)
  (now : BucketId → Decimal) (clock : list Decimal) (self : RateLimiter)
  (e : string) :
  (last (advertised_quotas i (entry :: rate_limits)) = Some value →
   (value < asked i weight)%Z →
   wait_for_request clock weight
     (_load_exchange_info (Return (entry :: rate_limits)) now self) = None)
  ∧ _load_exchange_info (Return []) now self = self
  ∧ _load_exchange_info (Raise e) now self = self.
Proof.
  split_and!; try done. intros Hlast Hvalue.
  apply (wait_for_request_short_bucket _ _ _ i).
  assert (capacity
            (bucket i (_load_exchange_info (Return (entry :: rate_limits))
                         now self))
          = quota (_parse_rate_limits (entry :: rate_limits)) i) as ->.
  { by destruct i. }
  unfold _parse_rate_limits. by rewrite foldl_parse_entry_quota, Hlast.
Qed.

End exchange_limits.

(** Witness for the blocking exchange information: a REQUEST_WEIGHT entry
    for the minute that carries no [limit]. *)
Lemma load_exchange_info_blocks_witness :
  RateLimiter.wait_for_request [0; 1; dec 2] 1
    (Rest._load_exchange_info
       (Return [{| Rest.rateLimitType := Some "REQUEST_WEIGHT";
                   Rest.interval := Some "MINUTE";
                   Rest.limit := None |}])
       (λ _, 0) (RateLimiter.__init__ None 0)) = None.
Proof.
  refine (proj1 (load_exchange_info_blocks
                   {| Rest.rateLimitType := Some "REQUEST_WEIGHT";
                      Rest.interval := Some "MINUTE";
                      Rest.limit := None |}
                   [] RateLimiter.WeightMinute 0 1 (λ _, 0)
                   [0; 1; dec 2] (RateLimiter.__init__ None 0) "") _ _).
  - reflexivity.
  - reflexivity.
Defined.

(** ** Order status and fills *)

Section order_tracking.
Import OrderTracking.

Ltac unfold_py :=
  unfold try_except, raise, modify, get, mbind, py_bind, mret, py_ret.

(** The attributes that [_process_fills] leaves alone, and what it records:
    nothing, or one fill of the quantity executed since the old order. *)
Lemma process_fills_books (now : Z) (utcnow : datetime)
  (old_order new_order : Order) (s : OrderManager) :
  let s' := (_process_fills now utcnow old_order new_order s).2 in
  let fill_qty := ord_executed_qty new_order - ord_executed_qty old_order in
  (_process_fills now utcnow old_order new_order s).1 = Return ()
  ∧ rest_client s' = rest_client s
  ∧ active_orders s' = active_orders s
  ∧ order_history s' = order_history s
  ∧ on_order_update s' = on_order_update s
  ∧ on_fill s' = on_fill s
  ∧ orders_placed s' = orders_placed s
  ∧ orders_canceled s' = orders_canceled s
  ∧ total_fees s' = total_fees s
  ∧ network s' = network s
  ∧ updates s' = updates s
  ∧ ((fill_qty <= 0 ∨ ord_order_id new_order = None) →
     fills s' = fills s ∧ orders_filled s' = orders_filled s
     ∧ total_volume s' = total_volume s ∧ fill_events s' = fill_events s)
  ∧ (¬ fill_qty <= 0 → ∀ n, ord_order_id new_order = Some n →
     ∃ fill,
       fills s' = fills s ++ [fill]
       ∧ fill_quantity fill = fill_qty
       ∧ fill_order_id fill = n
       ∧ fill_symbol fill = ord_symbol new_order
       ∧ fill_side fill = ord_side new_order
       ∧ fill_trade_id fill = now
       ∧ orders_filled s' = Datatypes.S (orders_filled s)
       ∧ total_volume s' = total_volume s + fill_qty).
Proof.
  unfold _process_fills, notify_fill. unfold_py. cbv zeta.
  case_bool_decide as Hqty; simpl.
  { split_and!; try done; by intros []. }
  destruct (ord_order_id new_order) as [n|] eqn:Hid; simpl.
  2:{ split_and!; done. }
  destruct (on_fill s) as [callback|] eqn:Hcb; simpl.
  - destruct (callback _); simpl.
    + split_and!; try done; try (by intros [|]).
      intros _ ? [= <-]. eexists. by split_and!.
    + split_and!; try done; try (by intros [|]).
      intros _ ? [= <-]. eexists. by split_and!.
  - split_and!; try done; try (by intros [|]).
    intros _ ? [= <-]. eexists. by split_and!.
Qed.

Lemma notify_books (o : Order) (s : OrderManager) :
  rest_client (notify o s).2 = rest_client s
  ∧ active_orders (notify o s).2 = active_orders s
  ∧ order_history (notify o s).2 = order_history s
  ∧ fills (notify o s).2 = fills s
  ∧ orders_placed (notify o s).2 = orders_placed s
  ∧ orders_filled (notify o s).2 = orders_filled s
  ∧ orders_canceled (notify o s).2 = orders_canceled s
  ∧ total_volume (notify o s).2 = total_volume s
  ∧ total_fees (notify o s).2 = total_fees s
  ∧ network (notify o s).2 = network s.
Proof.
  unfold notify. unfold_py. destruct (on_order_update s) as [callback|];
    simpl; [|done].
  by destruct (callback o).
Qed.

(** [update_order_status] in closed form. *)
Lemma update_order_status_eq
  (exchange : Execution.CancelRequest → result Order) (now : Z)
  (utcnow : datetime) (order_id : string) (s : OrderManager) :
  update_order_status exchange now utcnow order_id s
  = if negb (rest_client s) then (Return None, s) else
    match active_orders s !! order_id with
    | None => (Return None, s)
    | Some order =>
        match Execution.cancel_params (ord_symbol order) (ord_order_id order)
                (ord_client_order_id order) with
        | None => (Return None, s)
        | Some req =>
            match exchange req with
            | Raise _ => (Return None, sent req s)
            | Return updated_order =>
                let s1 := set_active order_id updated_order (sent req s) in
                let s2 :=
                  if reports_fill updated_order
                  then (_process_fills now utcnow order updated_order s1).2
                  else s1 in
                (match (notify updated_order s2).1 with
                 | Return _ => Return (Some updated_order)
                 | Raise _ => Return None
                 end, (notify updated_order s2).2)
            end
        end
    end.
Proof.
  unfold update_order_status, rest_get_order, reports_fill.
  unfold try_except at 1.
  unfold raise, modify, get, mbind, py_bind, mret, py_ret.
  destruct (rest_client s); simpl; [|done].
  destruct (active_orders s !! order_id) as [order|]; simpl; [|done].
  destruct (Execution.cancel_params _ _ _) as [req|]; simpl; [|done].
  destruct (exchange req) as [updated_order|e]; simpl; [|done].
  case_bool_decide as Hst; simpl.
  - pose proof (process_fills_books now utcnow order updated_order
                  (set_active order_id updated_order (sent req s)))
      as [Hret _].
    destruct (_process_fills _ _ _ _ _) as [r s2]. simpl in *. subst r.
    by destruct (notify updated_order s2) as [[[]|e] s3].
  - by destruct (notify updated_order _) as [[[]|e] s3].
Qed.

(** A poll never drops an order. Whatever the exchange answers, and
    whatever status the answer reports, [update_order_status] returns
    without raising and leaves every tracked order tracked: it replaces at
    most the order polled, by the answer, and it never touches the order
    history nor the counts of placed and cancelled orders. When it returns
    an order, that order is the one now tracked under the id. *)
Theorem update_order_status_keeps_active
  (exchange : Execution.CancelRequest → result Order) (now : Z)
  (utcnow : datetime) (order_id : string) (s : OrderManager)
  (k : string) :
  (∃ r, (update_order_status exchange now utcnow order_id s).1 = Return r)
  ∧ (is_Some
       (active_orders (update_order_status exchange now utcnow order_id s).2
        !! k)
     ↔ is_Some (active_orders s !! k))
  ∧ (k ≠ order_id →
     active_orders (update_order_status exchange now utcnow order_id s).2
     !! k = active_orders s !! k)
  ∧ (∀ o, (update_order_status exchange now utcnow order_id s).1
          = Return (Some o) →
     active_orders (update_order_status exchange now utcnow order_id s).2
     !! order_id = Some o)
  ∧ order_history (update_order_status exchange now utcnow order_id s).2
    = order_history s
  ∧ orders_placed (update_order_status exchange now utcnow order_id s).2
    = orders_placed s
  ∧ orders_canceled (update_order_status exchange now utcnow order_id s).2
    = orders_canceled s.
Proof.
  rewrite update_order_status_eq.
  destruct (rest_client s); simpl; [|by split_and!; eauto].
  destruct (active_orders s !! order_id) as [order|] eqn:Hactive; simpl;
    [|by split_and!; eauto].
  destruct (Execution.cancel_params _ _ _) as [req|]; simpl;
    [|by split_and!; eauto].
  destruct (exchange req) as [updated_order|e]; simpl;
    [|by split_and!; eauto].
  set (s1 := set_active order_id updated_order (sent req s)).
  set (s2 := if reports_fill updated_order
             then (_process_fills now utcnow order updated_order s1).2
             else s1).
  assert (active_orders s2 = <[order_id := updated_order]> (active_orders s)
          ∧ order_history s2 = order_history s
          ∧ orders_placed s2 = orders_placed s
          ∧ orders_canceled s2 = orders_canceled s) as (Ha & Hh & Hp & Hc).
  { unfold s2. destruct (reports_fill updated_order); [|done].
    destruct (process_fills_books now utcnow order updated_order s1)
      as (_ & _ & -> & -> & _ & _ & -> & -> & _). done. }
  destruct (notify_books updated_order s2)
    as (_ & -> & -> & _ & -> & _ & -> & _).
  rewrite Ha, Hh, Hp, Hc. split_and!; try done.
  - destruct (notify updated_order s2).1; eauto.
  - destruct (decide (k = order_id)) as [->|Hk].
    + rewrite lookup_insert_eq, Hactive. split; eauto.
    + by rewrite lookup_insert_ne.
  - intros Hk. by rewrite lookup_insert_ne.
  - intros o Ho. rewrite lookup_insert_eq.
    destruct (notify updated_order s2).1; congruence.
Qed.

Lemma total_app (l1 l2 : list Decimal) :
  total (l1 ++ l2) = total l1 + total l2.
Proof.
  unfold total. induction l1 as [|x l1 IH]; simpl; [ring|].
  rewrite IH. ring.
Qed.

Lemma poll_step (now : Z) (utcnow : datetime) (reply old : Order)
  (order_id : string) (s : OrderManager) :
  rest_client s = true → active_orders s !! order_id = Some old →
  has_order_id old = true →
  reports_fill reply = true → has_order_id reply = true →
  rest_client
    (update_order_status (λ _, Return reply) now utcnow order_id s).2 = true
  ∧ active_orders
      (update_order_status (λ _, Return reply) now utcnow order_id s).2
    !! order_id = Some reply
  ∧ ∃ new,
      fills (update_order_status (λ _, Return reply) now utcnow order_id s).2
      = fills s ++ new
      ∧ fill_quantity <$> new
        = (if bool_decide (ord_executed_qty reply - ord_executed_qty old <= 0)
           then []
           else [ord_executed_qty reply - ord_executed_qty old])
      ∧ Forall (λ fill, fill_symbol fill = ord_symbol reply
                        ∧ fill_side fill = ord_side reply
                        ∧ Some (fill_order_id fill) = ord_order_id reply) new
      ∧ orders_filled
          (update_order_status (λ _, Return reply) now utcnow order_id s).2
        = (orders_filled s + length new)%nat
      ∧ total_volume
          (update_order_status (λ _, Return reply) now utcnow order_id s).2
        = total_volume s + total (fill_quantity <$> new).
Proof.
  intros Hclient Hactive Hold Hfill Hid.
  rewrite update_order_status_eq, Hclient, Hactive. simpl.
  assert (∃ req, Execution.cancel_params (ord_symbol old) (ord_order_id old)
                   (ord_client_order_id old) = Some req) as [req ->].
  { unfold has_order_id in Hold. unfold Execution.cancel_params.
    destruct (ord_order_id old) as [n|]; [|done].
    rewrite Hold. destruct (ord_client_order_id old); eauto. }
  rewrite Hfill. simpl.
  set (s1 := set_active order_id reply (sent req s)).
  destruct (notify_books reply (_process_fills now utcnow old reply s1).2)
    as (-> & -> & _ & -> & _ & -> & _ & -> & _).
  destruct (process_fills_books now utcnow old reply s1)
    as (_ & -> & -> & _ & _ & _ & _ & _ & _ & _ & _ & Hnone & Hsome).
  split; [done|]. split; [by apply lookup_insert_eq|].
  case_bool_decide as Hqty.
  - destruct Hnone as (-> & -> & -> & _); [by left|].
    exists []. simpl. rewrite app_nil_r, Nat.add_0_r.
    split_and!; try done. unfold total. simpl. ring.
  - unfold has_order_id in Hid.
    destruct (ord_order_id reply) as [n|] eqn:Hn; [|done].
    destruct (Hsome Hqty n eq_refl)
      as (fill & -> & Hq & Ho & Hs & Hsd & _ & -> & ->).
    exists [fill]. simpl. rewrite Hq. split_and!; try done.
    + apply List.Forall_cons; [|apply List.Forall_nil]. by rewrite Ho.
    + lia.
    + unfold total. simpl. ring.
Qed.

(** Polling an order. When an order that carries an order id is polled
    again and again, and each answer reports a fill status, the manager
    records one fill for every answer whose executed quantity exceeds that
    of the answer before, of exactly the excess, and none for the others;
    [orders_filled] counts these fills, not orders, and [total_volume] grows
    by their sum. The last answer is the order tracked at the end. If the
    executed quantity never goes down, the volume added is the executed
    quantity of the last answer less that of the order first tracked. *)
Theorem poll_records_increments (replies : list (Z * datetime * Order))
  (order_id : string) (old : Order) (s : OrderManager) :
  rest_client s = true → active_orders s !! order_id = Some old →
  has_order_id old = true →
  Forall (λ r, reports_fill r.2 = true ∧ has_order_id r.2 = true) replies →
  ∃ new,
    fills (poll replies order_id s) = fills s ++ new
    ∧ fill_quantity <$> new
      = List.filter (λ d, negb (bool_decide (d <= 0)))
          (increments (ord_executed_qty old) replies)
    ∧ orders_filled (poll replies order_id s)
      = (orders_filled s + length new)%nat
    ∧ total_volume (poll replies order_id s)
      = total_volume s + total (fill_quantity <$> new)
    ∧ active_orders (poll replies order_id s) !! order_id
      = Some (default old (snd <$> last replies))
    ∧ (nondecreasing (ord_executed_qty old) replies →
       total_volume (poll replies order_id s)
       = total_volume s
         + (ord_executed_qty (default old (snd <$> last replies))
            - ord_executed_qty old)).
Proof.
  intros Hclient Hactive Hold Hreplies. revert old s Hclient Hactive Hold.
  induction Hreplies as [|[[now utcnow] reply] later [Hfill Hid] _ IH];
    intros old s Hclient Hactive Hold.
  - exists []. simpl. rewrite app_nil_r, Nat.add_0_r.
    split_and!; try done; intros; unfold total; simpl; ring.
  - simpl in Hfill, Hid.
    destruct (poll_step now utcnow reply old order_id s
                Hclient Hactive Hold Hfill Hid)
      as (Hclient1 & Hactive1 & new1 & Hfills1 & Hqty1 & _ & Hcount1 & Hvol1).
    destruct (IH reply _ Hclient1 Hactive1 Hid)
      as (new2 & Hfills2 & Hqty2 & Hcount2 & Hvol2 & Hlast2 & Htel2).
    exists (new1 ++ new2). simpl.
    assert (default old (snd <$> last ((now, utcnow, reply) :: later))
            = default reply (snd <$> last later)) as ->.
    { rewrite last_cons. by destruct (last later). }
    split_and!.
    + by rewrite Hfills2, Hfills1, app_assoc.
    + rewrite fmap_app, Hqty1, Hqty2.
      by destruct (bool_decide
                     (ord_executed_qty reply - ord_executed_qty old <= 0)).
    + rewrite Hcount2, Hcount1, length_app. lia.
    + rewrite Hvol2, Hvol1, fmap_app, total_app. ring.
    + done.
    + intros [Hle Hmono]. rewrite (Htel2 Hmono), Hvol1, Hqty1.
      case_bool_decide as Hqty.
      * assert (ord_executed_qty reply = ord_executed_qty old) as ->.
        { apply Qcle_antisym; [|done].
          apply (proj2 (Qcle_minus_iff _ _)).
          apply (proj1 (Qcle_minus_iff _ _)) in Hqty.
          replace (ord_executed_qty old + - ord_executed_qty reply)
            with (0 + - (ord_executed_qty reply - ord_executed_qty old))
            by ring.
          done. }
        unfold total. simpl. ring.
      * unfold total. simpl. ring.
Qed.

End order_tracking.

(** Witness for the polling: an order of 2 filled in two steps, 1 @ 100 and
    then 1 @ 110. *)
Lemma poll_records_increments_witness :
  OrderTracking.active_orders
    (OrderTracking.poll
       [(1000%Z, 1%Z, OrderTracking.polled_order PARTIALLY_FILLED 1 (dec 100));
        (2000%Z, 2%Z, OrderTracking.polled_order FILLED (dec 2) (dec 210))]
       "mm_1" OrderTracking.tracking_manager) !! "mm_1"
  = Some (OrderTracking.polled_order FILLED (dec 2) (dec 210)).
Proof.
  destruct (poll_records_increments
              [(1000%Z, 1%Z,
                OrderTracking.polled_order PARTIALLY_FILLED 1 (dec 100));
               (2000%Z, 2%Z,
                OrderTracking.polled_order FILLED (dec 2) (dec 210))]
              "mm_1" (OrderTracking.polled_order NEW 0 0)
              OrderTracking.tracking_manager)
    as (new & _ & _ & _ & _ & Hlast & _).
  - reflexivity.
  - reflexivity.
  - reflexivity.
  - apply List.Forall_cons; [by split|].
    apply List.Forall_cons; [by split|]. apply List.Forall_nil.
  - exact Hlast.
Defined.
